(** * Onboard optical-flow driver

    A shallow embedding of [libraries/AP_HAL_Linux/OpticalFlow_Onboard.cpp]:
    the one-shot [init], the consumer-side [read] and the body of the
    acquisition loop [_run_optflow].

    Unsigned 32-bit members are integers of [Z] with the wrap-around written
    out ([U32]); [float] values are IEEE binary32 numbers built on the
    specification floats of the core library ([F32]).  The two critical
    sections guarded by [_mutex] are atomic steps of the model: each one is a
    function from driver state to driver state. *)

From Stdlib Require Import ZArith List Bool Lia.
From Stdlib Require Import Floats.SpecFloat.
Import ListNotations.
Local Open Scope Z_scope.

(** ** Machine arithmetic *)

Module U32.
Definition modulus : Z := 2 ^ 32.
Definition wrap (z : Z) : Z := z mod modulus.
Definition add (a b : Z) : Z := wrap (a + b).
Definition sub (a b : Z) : Z := wrap (a - b).
Definition mul (a b : Z) : Z := wrap (a * b).
(** unsigned division; the divisor is non-zero in C *)
Definition div (a b : Z) : Z := wrap a / wrap b.
Definition in_range (z : Z) : Prop := 0 <= z < modulus.
End U32.

Module F32.
Definition float : Type := spec_float.
Definition prec : Z := 24.
Definition emax : Z := 128.
Definition add : float -> float -> float := SFadd prec emax.
Definition mul : float -> float -> float := SFmul prec emax.
Definition div : float -> float -> float := SFdiv prec emax.
(** conversion of an integer operand, round to nearest even *)
Definition of_Z (z : Z) : float := binary_normalize prec emax z 0 false.
(** the value of the literal [0] stored into a float *)
Definition zero : float := S754_zero false.
(** the literal [2.0f] *)
Definition two : float := Eval cbv in of_Z 2.
(** left-to-right sum, as a run of [+=] on an accumulator computes it *)
Definition sum_from (acc : float) (l : list float) : float :=
  fold_left add l acc.
End F32.

(** ** V4L2 pixel formats ([linux/videodev2.h]) *)

Module V4L2.
Definition fourcc (a b c d : Z) : Z :=
  Z.lor a (Z.lor (Z.shiftl b 8) (Z.lor (Z.shiftl c 16) (Z.shiftl d 24))).
(* 'N' 'V' '1' '2' *)
Definition PIX_FMT_NV12 : Z := Eval cbv in fourcc 78 86 49 50.
(* 'G' 'R' 'E' 'Y' *)
Definition PIX_FMT_GREY : Z := Eval cbv in fourcc 71 82 69 89.
(* 'Y' 'U' 'Y' 'V' *)
Definition PIX_FMT_YUYV : Z := Eval cbv in fourcc 89 85 89 86.
End V4L2.

(** ** Data *)

(** An 8 bit per pixel buffer. *)
Definition image : Type := list Z.

(** Modelled from the spec: [VideoIn.h] is not among the sources.  A frame
    is "an opaque buffer handle plus a monotonic timestamp"; the loop reads
    its [data] and its [timestamp], which the metadata record of the debug
    path stores as a [uint32_t]. *)
Record Frame : Type := mkFrame {
  data : image;
  timestamp : Z
}.

Record Vector3f : Type := mkVector3f {
  v3x : F32.float;
  v3y : F32.float;
  v3z : F32.float
}.

(** Modelled from the spec: the vector header is not among the sources; a
    rate no pass has stored yet is the zero vector of the default
    constructor. *)
Definition Vector3f_zero : Vector3f := mkVector3f F32.zero F32.zero F32.zero.

(** Modelled from the spec: [AP_HAL/OpticalFlow.h] is not among the sources.
    [Data_Frame] is the record of the six fields [read] assigns; each has the
    type of the member copied into it. *)
Record Data_Frame : Type := mkDataFrame {
  pixel_flow_x_integral : F32.float;
  pixel_flow_y_integral : F32.float;
  gyro_x_integral : F32.float;
  gyro_y_integral : F32.float;
  delta_time : Z;
  quality : Z
}.

(** Modelled from the spec: [OpticalFlow_Onboard.h] is not among the
    sources.  These are the members the three functions use, typed as their
    uses show: flags are [bool], geometry, format and timespan unsigned
    32-bit, the four integrals [float], the quality 8-bit.
    [_last_video_frame] is [None] while its data pointer is [NULL]: the
    capture device only hands out mapped buffers, so a cached frame always
    has a buffer.  The handles of the collaborators ([_videoin], [_flow],
    [_pwm], [_camerasensor], [_thread], [_mutex]) carry no state of this
    model. *)
Record OpticalFlow_Onboard : Type := mkDriver {
  _initialized : bool;
  _data_available : bool;
  _crop_by_software : bool;
  _shrink_by_software : bool;
  _camera_output_width : Z;
  _camera_output_height : Z;
  _width : Z;
  _height : Z;
  _format : Z;
  _bytesperline : Z;
  _sizeimage : Z;
  _pixel_flow_x_integral : F32.float;
  _pixel_flow_y_integral : F32.float;
  _gyro_x_integral : F32.float;
  _gyro_y_integral : F32.float;
  _integration_timespan : Z;
  _surface_quality : Z;
  _last_video_frame : option Frame;
  _last_gyro_rate : Vector3f
}.

(** Modelled from the spec: the constructor of the driver object is not part
    of the sources at hand; the integrator is "zeroed at construction", no
    frame is cached and no flag is set. *)
Definition driver_at_construction : OpticalFlow_Onboard :=
  {| _initialized := false; _data_available := false;
     _crop_by_software := false; _shrink_by_software := false;
     _camera_output_width := 0; _camera_output_height := 0;
     _width := 0; _height := 0; _format := 0;
     _bytesperline := 0; _sizeimage := 0;
     _pixel_flow_x_integral := F32.zero; _pixel_flow_y_integral := F32.zero;
     _gyro_x_integral := F32.zero; _gyro_y_integral := F32.zero;
     _integration_timespan := 0; _surface_quality := 0;
     _last_video_frame := None; _last_gyro_rate := Vector3f_zero |}.

(** Assignment to one member; every other member keeps its value. *)

Definition set_initialized (v : bool) (s : OpticalFlow_Onboard) : OpticalFlow_Onboard :=
  {| _initialized := v; _data_available := _data_available s;
     _crop_by_software := _crop_by_software s;
     _shrink_by_software := _shrink_by_software s;
     _camera_output_width := _camera_output_width s;
     _camera_output_height := _camera_output_height s; _width := _width s;
     _height := _height s; _format := _format s;
     _bytesperline := _bytesperline s; _sizeimage := _sizeimage s;
     _pixel_flow_x_integral := _pixel_flow_x_integral s;
     _pixel_flow_y_integral := _pixel_flow_y_integral s;
     _gyro_x_integral := _gyro_x_integral s;
     _gyro_y_integral := _gyro_y_integral s;
     _integration_timespan := _integration_timespan s;
     _surface_quality := _surface_quality s;
     _last_video_frame := _last_video_frame s;
     _last_gyro_rate := _last_gyro_rate s |}.

Definition set_data_available (v : bool) (s : OpticalFlow_Onboard) : OpticalFlow_Onboard :=
  {| _initialized := _initialized s; _data_available := v;
     _crop_by_software := _crop_by_software s;
     _shrink_by_software := _shrink_by_software s;
     _camera_output_width := _camera_output_width s;
     _camera_output_height := _camera_output_height s; _width := _width s;
     _height := _height s; _format := _format s;
     _bytesperline := _bytesperline s; _sizeimage := _sizeimage s;
     _pixel_flow_x_integral := _pixel_flow_x_integral s;
     _pixel_flow_y_integral := _pixel_flow_y_integral s;
     _gyro_x_integral := _gyro_x_integral s;
     _gyro_y_integral := _gyro_y_integral s;
     _integration_timespan := _integration_timespan s;
     _surface_quality := _surface_quality s;
     _last_video_frame := _last_video_frame s;
     _last_gyro_rate := _last_gyro_rate s |}.

Definition set_crop_by_software (v : bool) (s : OpticalFlow_Onboard) : OpticalFlow_Onboard :=
  {| _initialized := _initialized s; _data_available := _data_available s;
     _crop_by_software := v; _shrink_by_software := _shrink_by_software s;
     _camera_output_width := _camera_output_width s;
     _camera_output_height := _camera_output_height s; _width := _width s;
     _height := _height s; _format := _format s;
     _bytesperline := _bytesperline s; _sizeimage := _sizeimage s;
     _pixel_flow_x_integral := _pixel_flow_x_integral s;
     _pixel_flow_y_integral := _pixel_flow_y_integral s;
     _gyro_x_integral := _gyro_x_integral s;
     _gyro_y_integral := _gyro_y_integral s;
     _integration_timespan := _integration_timespan s;
     _surface_quality := _surface_quality s;
     _last_video_frame := _last_video_frame s;
     _last_gyro_rate := _last_gyro_rate s |}.

Definition set_shrink_by_software (v : bool) (s : OpticalFlow_Onboard) : OpticalFlow_Onboard :=
  {| _initialized := _initialized s; _data_available := _data_available s;
     _crop_by_software := _crop_by_software s; _shrink_by_software := v;
     _camera_output_width := _camera_output_width s;
     _camera_output_height := _camera_output_height s; _width := _width s;
     _height := _height s; _format := _format s;
     _bytesperline := _bytesperline s; _sizeimage := _sizeimage s;
     _pixel_flow_x_integral := _pixel_flow_x_integral s;
     _pixel_flow_y_integral := _pixel_flow_y_integral s;
     _gyro_x_integral := _gyro_x_integral s;
     _gyro_y_integral := _gyro_y_integral s;
     _integration_timespan := _integration_timespan s;
     _surface_quality := _surface_quality s;
     _last_video_frame := _last_video_frame s;
     _last_gyro_rate := _last_gyro_rate s |}.

Definition set_camera_output_width (v : Z) (s : OpticalFlow_Onboard) : OpticalFlow_Onboard :=
  {| _initialized := _initialized s; _data_available := _data_available s;
     _crop_by_software := _crop_by_software s;
     _shrink_by_software := _shrink_by_software s; _camera_output_width := v;
     _camera_output_height := _camera_output_height s; _width := _width s;
     _height := _height s; _format := _format s;
     _bytesperline := _bytesperline s; _sizeimage := _sizeimage s;
     _pixel_flow_x_integral := _pixel_flow_x_integral s;
     _pixel_flow_y_integral := _pixel_flow_y_integral s;
     _gyro_x_integral := _gyro_x_integral s;
     _gyro_y_integral := _gyro_y_integral s;
     _integration_timespan := _integration_timespan s;
     _surface_quality := _surface_quality s;
     _last_video_frame := _last_video_frame s;
     _last_gyro_rate := _last_gyro_rate s |}.

Definition set_camera_output_height (v : Z) (s : OpticalFlow_Onboard) : OpticalFlow_Onboard :=
  {| _initialized := _initialized s; _data_available := _data_available s;
     _crop_by_software := _crop_by_software s;
     _shrink_by_software := _shrink_by_software s;
     _camera_output_width := _camera_output_width s;
     _camera_output_height := v; _width := _width s; _height := _height s;
     _format := _format s; _bytesperline := _bytesperline s;
     _sizeimage := _sizeimage s;
     _pixel_flow_x_integral := _pixel_flow_x_integral s;
     _pixel_flow_y_integral := _pixel_flow_y_integral s;
     _gyro_x_integral := _gyro_x_integral s;
     _gyro_y_integral := _gyro_y_integral s;
     _integration_timespan := _integration_timespan s;
     _surface_quality := _surface_quality s;
     _last_video_frame := _last_video_frame s;
     _last_gyro_rate := _last_gyro_rate s |}.

Definition set_width (v : Z) (s : OpticalFlow_Onboard) : OpticalFlow_Onboard :=
  {| _initialized := _initialized s; _data_available := _data_available s;
     _crop_by_software := _crop_by_software s;
     _shrink_by_software := _shrink_by_software s;
     _camera_output_width := _camera_output_width s;
     _camera_output_height := _camera_output_height s; _width := v;
     _height := _height s; _format := _format s;
     _bytesperline := _bytesperline s; _sizeimage := _sizeimage s;
     _pixel_flow_x_integral := _pixel_flow_x_integral s;
     _pixel_flow_y_integral := _pixel_flow_y_integral s;
     _gyro_x_integral := _gyro_x_integral s;
     _gyro_y_integral := _gyro_y_integral s;
     _integration_timespan := _integration_timespan s;
     _surface_quality := _surface_quality s;
     _last_video_frame := _last_video_frame s;
     _last_gyro_rate := _last_gyro_rate s |}.

Definition set_height (v : Z) (s : OpticalFlow_Onboard) : OpticalFlow_Onboard :=
  {| _initialized := _initialized s; _data_available := _data_available s;
     _crop_by_software := _crop_by_software s;
     _shrink_by_software := _shrink_by_software s;
     _camera_output_width := _camera_output_width s;
     _camera_output_height := _camera_output_height s; _width := _width s;
     _height := v; _format := _format s; _bytesperline := _bytesperline s;
     _sizeimage := _sizeimage s;
     _pixel_flow_x_integral := _pixel_flow_x_integral s;
     _pixel_flow_y_integral := _pixel_flow_y_integral s;
     _gyro_x_integral := _gyro_x_integral s;
     _gyro_y_integral := _gyro_y_integral s;
     _integration_timespan := _integration_timespan s;
     _surface_quality := _surface_quality s;
     _last_video_frame := _last_video_frame s;
     _last_gyro_rate := _last_gyro_rate s |}.

Definition set_format (v : Z) (s : OpticalFlow_Onboard) : OpticalFlow_Onboard :=
  {| _initialized := _initialized s; _data_available := _data_available s;
     _crop_by_software := _crop_by_software s;
     _shrink_by_software := _shrink_by_software s;
     _camera_output_width := _camera_output_width s;
     _camera_output_height := _camera_output_height s; _width := _width s;
     _height := _height s; _format := v; _bytesperline := _bytesperline s;
     _sizeimage := _sizeimage s;
     _pixel_flow_x_integral := _pixel_flow_x_integral s;
     _pixel_flow_y_integral := _pixel_flow_y_integral s;
     _gyro_x_integral := _gyro_x_integral s;
     _gyro_y_integral := _gyro_y_integral s;
     _integration_timespan := _integration_timespan s;
     _surface_quality := _surface_quality s;
     _last_video_frame := _last_video_frame s;
     _last_gyro_rate := _last_gyro_rate s |}.

Definition set_bytesperline (v : Z) (s : OpticalFlow_Onboard) : OpticalFlow_Onboard :=
  {| _initialized := _initialized s; _data_available := _data_available s;
     _crop_by_software := _crop_by_software s;
     _shrink_by_software := _shrink_by_software s;
     _camera_output_width := _camera_output_width s;
     _camera_output_height := _camera_output_height s; _width := _width s;
     _height := _height s; _format := _format s; _bytesperline := v;
     _sizeimage := _sizeimage s;
     _pixel_flow_x_integral := _pixel_flow_x_integral s;
     _pixel_flow_y_integral := _pixel_flow_y_integral s;
     _gyro_x_integral := _gyro_x_integral s;
     _gyro_y_integral := _gyro_y_integral s;
     _integration_timespan := _integration_timespan s;
     _surface_quality := _surface_quality s;
     _last_video_frame := _last_video_frame s;
     _last_gyro_rate := _last_gyro_rate s |}.

Definition set_sizeimage (v : Z) (s : OpticalFlow_Onboard) : OpticalFlow_Onboard :=
  {| _initialized := _initialized s; _data_available := _data_available s;
     _crop_by_software := _crop_by_software s;
     _shrink_by_software := _shrink_by_software s;
     _camera_output_width := _camera_output_width s;
     _camera_output_height := _camera_output_height s; _width := _width s;
     _height := _height s; _format := _format s;
     _bytesperline := _bytesperline s; _sizeimage := v;
     _pixel_flow_x_integral := _pixel_flow_x_integral s;
     _pixel_flow_y_integral := _pixel_flow_y_integral s;
     _gyro_x_integral := _gyro_x_integral s;
     _gyro_y_integral := _gyro_y_integral s;
     _integration_timespan := _integration_timespan s;
     _surface_quality := _surface_quality s;
     _last_video_frame := _last_video_frame s;
     _last_gyro_rate := _last_gyro_rate s |}.

Definition set_pixel_flow_x_integral (v : F32.float) (s : OpticalFlow_Onboard) : OpticalFlow_Onboard :=
  {| _initialized := _initialized s; _data_available := _data_available s;
     _crop_by_software := _crop_by_software s;
     _shrink_by_software := _shrink_by_software s;
     _camera_output_width := _camera_output_width s;
     _camera_output_height := _camera_output_height s; _width := _width s;
     _height := _height s; _format := _format s;
     _bytesperline := _bytesperline s; _sizeimage := _sizeimage s;
     _pixel_flow_x_integral := v;
     _pixel_flow_y_integral := _pixel_flow_y_integral s;
     _gyro_x_integral := _gyro_x_integral s;
     _gyro_y_integral := _gyro_y_integral s;
     _integration_timespan := _integration_timespan s;
     _surface_quality := _surface_quality s;
     _last_video_frame := _last_video_frame s;
     _last_gyro_rate := _last_gyro_rate s |}.

Definition set_pixel_flow_y_integral (v : F32.float) (s : OpticalFlow_Onboard) : OpticalFlow_Onboard :=
  {| _initialized := _initialized s; _data_available := _data_available s;
     _crop_by_software := _crop_by_software s;
     _shrink_by_software := _shrink_by_software s;
     _camera_output_width := _camera_output_width s;
     _camera_output_height := _camera_output_height s; _width := _width s;
     _height := _height s; _format := _format s;
     _bytesperline := _bytesperline s; _sizeimage := _sizeimage s;
     _pixel_flow_x_integral := _pixel_flow_x_integral s;
     _pixel_flow_y_integral := v; _gyro_x_integral := _gyro_x_integral s;
     _gyro_y_integral := _gyro_y_integral s;
     _integration_timespan := _integration_timespan s;
     _surface_quality := _surface_quality s;
     _last_video_frame := _last_video_frame s;
     _last_gyro_rate := _last_gyro_rate s |}.

Definition set_gyro_x_integral (v : F32.float) (s : OpticalFlow_Onboard) : OpticalFlow_Onboard :=
  {| _initialized := _initialized s; _data_available := _data_available s;
     _crop_by_software := _crop_by_software s;
     _shrink_by_software := _shrink_by_software s;
     _camera_output_width := _camera_output_width s;
     _camera_output_height := _camera_output_height s; _width := _width s;
     _height := _height s; _format := _format s;
     _bytesperline := _bytesperline s; _sizeimage := _sizeimage s;
     _pixel_flow_x_integral := _pixel_flow_x_integral s;
     _pixel_flow_y_integral := _pixel_flow_y_integral s;
     _gyro_x_integral := v; _gyro_y_integral := _gyro_y_integral s;
     _integration_timespan := _integration_timespan s;
     _surface_quality := _surface_quality s;
     _last_video_frame := _last_video_frame s;
     _last_gyro_rate := _last_gyro_rate s |}.

Definition set_gyro_y_integral (v : F32.float) (s : OpticalFlow_Onboard) : OpticalFlow_Onboard :=
  {| _initialized := _initialized s; _data_available := _data_available s;
     _crop_by_software := _crop_by_software s;
     _shrink_by_software := _shrink_by_software s;
     _camera_output_width := _camera_output_width s;
     _camera_output_height := _camera_output_height s; _width := _width s;
     _height := _height s; _format := _format s;
     _bytesperline := _bytesperline s; _sizeimage := _sizeimage s;
     _pixel_flow_x_integral := _pixel_flow_x_integral s;
     _pixel_flow_y_integral := _pixel_flow_y_integral s;
     _gyro_x_integral := _gyro_x_integral s; _gyro_y_integral := v;
     _integration_timespan := _integration_timespan s;
     _surface_quality := _surface_quality s;
     _last_video_frame := _last_video_frame s;
     _last_gyro_rate := _last_gyro_rate s |}.

Definition set_integration_timespan (v : Z) (s : OpticalFlow_Onboard) : OpticalFlow_Onboard :=
  {| _initialized := _initialized s; _data_available := _data_available s;
     _crop_by_software := _crop_by_software s;
     _shrink_by_software := _shrink_by_software s;
     _camera_output_width := _camera_output_width s;
     _camera_output_height := _camera_output_height s; _width := _width s;
     _height := _height s; _format := _format s;
     _bytesperline := _bytesperline s; _sizeimage := _sizeimage s;
     _pixel_flow_x_integral := _pixel_flow_x_integral s;
     _pixel_flow_y_integral := _pixel_flow_y_integral s;
     _gyro_x_integral := _gyro_x_integral s;
     _gyro_y_integral := _gyro_y_integral s; _integration_timespan := v;
     _surface_quality := _surface_quality s;
     _last_video_frame := _last_video_frame s;
     _last_gyro_rate := _last_gyro_rate s |}.

Definition set_surface_quality (v : Z) (s : OpticalFlow_Onboard) : OpticalFlow_Onboard :=
  {| _initialized := _initialized s; _data_available := _data_available s;
     _crop_by_software := _crop_by_software s;
     _shrink_by_software := _shrink_by_software s;
     _camera_output_width := _camera_output_width s;
     _camera_output_height := _camera_output_height s; _width := _width s;
     _height := _height s; _format := _format s;
     _bytesperline := _bytesperline s; _sizeimage := _sizeimage s;
     _pixel_flow_x_integral := _pixel_flow_x_integral s;
     _pixel_flow_y_integral := _pixel_flow_y_integral s;
     _gyro_x_integral := _gyro_x_integral s;
     _gyro_y_integral := _gyro_y_integral s;
     _integration_timespan := _integration_timespan s; _surface_quality := v;
     _last_video_frame := _last_video_frame s;
     _last_gyro_rate := _last_gyro_rate s |}.

Definition set_last_video_frame (v : option Frame) (s : OpticalFlow_Onboard) : OpticalFlow_Onboard :=
  {| _initialized := _initialized s; _data_available := _data_available s;
     _crop_by_software := _crop_by_software s;
     _shrink_by_software := _shrink_by_software s;
     _camera_output_width := _camera_output_width s;
     _camera_output_height := _camera_output_height s; _width := _width s;
     _height := _height s; _format := _format s;
     _bytesperline := _bytesperline s; _sizeimage := _sizeimage s;
     _pixel_flow_x_integral := _pixel_flow_x_integral s;
     _pixel_flow_y_integral := _pixel_flow_y_integral s;
     _gyro_x_integral := _gyro_x_integral s;
     _gyro_y_integral := _gyro_y_integral s;
     _integration_timespan := _integration_timespan s;
     _surface_quality := _surface_quality s; _last_video_frame := v;
     _last_gyro_rate := _last_gyro_rate s |}.

Definition set_last_gyro_rate (v : Vector3f) (s : OpticalFlow_Onboard) : OpticalFlow_Onboard :=
  {| _initialized := _initialized s; _data_available := _data_available s;
     _crop_by_software := _crop_by_software s;
     _shrink_by_software := _shrink_by_software s;
     _camera_output_width := _camera_output_width s;
     _camera_output_height := _camera_output_height s; _width := _width s;
     _height := _height s; _format := _format s;
     _bytesperline := _bytesperline s; _sizeimage := _sizeimage s;
     _pixel_flow_x_integral := _pixel_flow_x_integral s;
     _pixel_flow_y_integral := _pixel_flow_y_integral s;
     _gyro_x_integral := _gyro_x_integral s;
     _gyro_y_integral := _gyro_y_integral s;
     _integration_timespan := _integration_timespan s;
     _surface_quality := _surface_quality s;
     _last_video_frame := _last_video_frame s; _last_gyro_rate := v |}.

(** ** Outcomes

    [AP_HAL::panic] does not return: a call to it ends the function, and the
    process, with the reason it was given. *)

Inductive panic_reason : Type :=
| CouldntOpenVideoDevice
| CouldntSetSubdevFmt
| CouldntSetVideoFormat
| FormatNotSupported
| CouldntAllocateVideoBuffers
| FailedToInitMutex
| FailedToInitAttr
| FailedToCreateThread
| CouldntAllocateConversionBuffer
| CouldntAllocateCropBuffer
| CouldntGetFrame.

Inductive result (A : Type) : Type :=
| Ok (a : A)
| Panic (why : panic_reason).

Arguments Ok {A} a.
Arguments Panic {A} why.

Definition bind {A B : Type} (r : result A) (k : A -> result B) : result B :=
  match r with
  | Ok a => k a
  | Panic why => Panic why
  end.

Notation "x <- r ;; k" := (bind r (fun x => k))
  (at level 61, r at next level, right associativity).

(** [if (cond) AP_HAL::panic(why);] *)
Definition panic_if (cond : bool) (why : panic_reason) : result unit :=
  if cond then Panic why else Ok tt.

(** ** Build configuration and collaborators *)

Inductive board_subtype : Type :=
| LINUX_BEBOP
| LINUX_MINLURE
| LINUX_BBBMINI.

(** The board macros [init] and [_run_optflow] expand; their values come from
    the board headers, so they are parameters here.  A device path of [None]
    is a [NULL] path; the focal length is a [float] constant, so that the two
    divisions by it are [float] divisions. *)
Record BoardConfig : Type := mkBoardConfig {
  CONFIG_HAL_BOARD_SUBTYPE : board_subtype;
  HAL_OPTFLOW_ONBOARD_VDEV_PATH : option (list Z);
  HAL_OPTFLOW_ONBOARD_NBUFS : Z;
  HAL_OPTFLOW_ONBOARD_OUTPUT_WIDTH : Z;
  HAL_OPTFLOW_ONBOARD_OUTPUT_HEIGHT : Z;
  HAL_OPTFLOW_ONBOARD_CROP_WIDTH : Z;
  HAL_OPTFLOW_ONBOARD_CROP_HEIGHT : Z;
  HAL_OPTFLOW_ONBOARD_SENSOR_WIDTH : Z;
  HAL_OPTFLOW_ONBOARD_SENSOR_HEIGHT : Z;
  HAL_FLOW_PX4_FOCAL_LENGTH_MILLIPX : F32.float
}.

(** What the video device, the camera sub-device and the thread library
    answer during [init]. *)
Record InitEnv : Type := mkInitEnv {
  (* VideoIn::open_device(device_path, memtype) *)
  open_device : list Z -> bool;
  (* CameraSensor_Mt9v117::set_format(width, height, mbus format) *)
  camerasensor_set_format : Z -> Z -> bool;
  (* VideoIn::get_pixel_formats *)
  get_pixel_formats : list Z;
  (* VideoIn::set_format(&width, &height, &format, &bytesperline, &sizeimage):
     [None] when it returns false, otherwise what it leaves in the five
     locations *)
  videoin_set_format : Z -> Z -> Z -> option (Z * Z * Z * Z * Z);
  (* VideoIn::set_crop(left, top, width, height) *)
  set_crop : Z -> Z -> Z -> Z -> bool;
  (* VideoIn::allocate_buffers(nbufs) *)
  allocate_buffers : Z -> bool;
  pthread_mutex_init : Z;
  pthread_attr_init : Z;
  pthread_create : Z
}.

(** ** [OpticalFlow_Onboard::init] *)

(** The range-for over the pixel formats of the MINLURE and BBBMINI builds:
    NV12 or GREY ends the loop, YUYV is noted and the loop goes on. *)
Fixpoint select_pixel_format (pixel_formats : list Z) (format : Z) : Z :=
  match pixel_formats with
  | [] => format
  | px_fmt :: rest =>
      if (px_fmt =? V4L2.PIX_FMT_NV12) || (px_fmt =? V4L2.PIX_FMT_GREY)
      then px_fmt
      else if px_fmt =? V4L2.PIX_FMT_YUYV
           then select_pixel_format rest px_fmt
           else select_pixel_format rest format
  end.

(** The board-specific block between opening the device and [set_format]. *)
Definition init_board (cfg : BoardConfig) (env : InitEnv)
    (s : OpticalFlow_Onboard) : result OpticalFlow_Onboard :=
  match CONFIG_HAL_BOARD_SUBTYPE cfg with
  | LINUX_BEBOP =>
      _ <- panic_if
             (negb (camerasensor_set_format env
                      (HAL_OPTFLOW_ONBOARD_SENSOR_WIDTH cfg)
                      (HAL_OPTFLOW_ONBOARD_SENSOR_HEIGHT cfg)))
             CouldntSetSubdevFmt ;;
      Ok (set_format V4L2.PIX_FMT_NV12 s)
  | LINUX_MINLURE | LINUX_BBBMINI =>
      Ok (set_format (select_pixel_format (get_pixel_formats env) (_format s)) s)
  end.

Definition format_supported (format : Z) : bool :=
  negb ((negb (format =? V4L2.PIX_FMT_NV12)) &&
        (negb (format =? V4L2.PIX_FMT_GREY)) &&
        (negb (format =? V4L2.PIX_FMT_YUYV))).

(** Lines 122-137: is the negotiated geometry the target geometry? *)
Definition init_shrink (cfg : BoardConfig) (s : OpticalFlow_Onboard)
    : OpticalFlow_Onboard :=
  if (_width s =? U32.wrap (HAL_OPTFLOW_ONBOARD_OUTPUT_WIDTH cfg)) &&
     (_height s =? U32.wrap (HAL_OPTFLOW_ONBOARD_OUTPUT_HEIGHT cfg))
  then set_shrink_by_software false s
  else
    let s := set_shrink_by_software true s in
    let s := set_camera_output_width (_width s) s in
    let s := set_camera_output_height (_height s) s in
    let s := set_width (U32.wrap (HAL_OPTFLOW_ONBOARD_OUTPUT_WIDTH cfg)) s in
    let s := set_height (U32.wrap (HAL_OPTFLOW_ONBOARD_OUTPUT_HEIGHT cfg)) s in
    set_bytesperline (U32.wrap (HAL_OPTFLOW_ONBOARD_OUTPUT_WIDTH cfg)) s.

(** Lines 139-156: does the device crop by itself? *)
Definition init_crop (cfg : BoardConfig) (env : InitEnv)
    (left top crop_width crop_height : Z) (s : OpticalFlow_Onboard)
    : OpticalFlow_Onboard :=
  if set_crop env left top crop_width crop_height
  then set_crop_by_software false s
  else
    let s := set_crop_by_software true s in
    if negb (_shrink_by_software s)
    then
      let s := set_camera_output_width (_width s) s in
      let s := set_camera_output_height (_height s) s in
      let s := set_width (U32.wrap (HAL_OPTFLOW_ONBOARD_OUTPUT_WIDTH cfg)) s in
      let s := set_height (U32.wrap (HAL_OPTFLOW_ONBOARD_OUTPUT_HEIGHT cfg)) s in
      set_bytesperline (U32.wrap (HAL_OPTFLOW_ONBOARD_OUTPUT_WIDTH cfg)) s
    else s.

Definition init (cfg : BoardConfig) (env : InitEnv) (s : OpticalFlow_Onboard)
    : result OpticalFlow_Onboard :=
  if _initialized s then Ok s
  else
    let nbufs := U32.wrap (HAL_OPTFLOW_ONBOARD_NBUFS cfg) in
    let s := set_width (U32.wrap (HAL_OPTFLOW_ONBOARD_OUTPUT_WIDTH cfg)) s in
    let s := set_height (U32.wrap (HAL_OPTFLOW_ONBOARD_OUTPUT_HEIGHT cfg)) s in
    let crop_width := U32.wrap (HAL_OPTFLOW_ONBOARD_CROP_WIDTH cfg) in
    let crop_height := U32.wrap (HAL_OPTFLOW_ONBOARD_CROP_HEIGHT cfg) in
    let top := 0 in
    let left :=
      U32.wrap (Z.quot (HAL_OPTFLOW_ONBOARD_SENSOR_WIDTH cfg -
                        HAL_OPTFLOW_ONBOARD_SENSOR_HEIGHT cfg) 2) in
    _ <- panic_if
           (match HAL_OPTFLOW_ONBOARD_VDEV_PATH cfg with
            | None => true
            | Some device_path => negb (open_device env device_path)
            end)
           CouldntOpenVideoDevice ;;
    s <- init_board cfg env s ;;
    match videoin_set_format env (_width s) (_height s) (_format s) with
    | None => Panic CouldntSetVideoFormat
    | Some (width, height, format, bytesperline, sizeimage) =>
        let s := set_width width s in
        let s := set_height height s in
        let s := set_format format s in
        let s := set_bytesperline bytesperline s in
        let s := set_sizeimage sizeimage s in
        _ <- panic_if (negb (format_supported (_format s))) FormatNotSupported ;;
        let s := init_shrink cfg s in
        let s := init_crop cfg env left top crop_width crop_height s in
        _ <- panic_if (negb (allocate_buffers env nbufs))
               CouldntAllocateVideoBuffers ;;
        _ <- panic_if (negb (pthread_mutex_init env =? 0)) FailedToInitMutex ;;
        _ <- panic_if (negb (pthread_attr_init env =? 0)) FailedToInitAttr ;;
        _ <- panic_if (negb (pthread_create env =? 0)) FailedToCreateThread ;;
        Ok (set_initialized true s)
    end.

(** ** [OpticalFlow_Onboard::read]

    The caller's record comes in and goes out: [read] writes through the
    reference it is given. *)
Definition read (frame : Data_Frame) (s : OpticalFlow_Onboard)
    : bool * Data_Frame * OpticalFlow_Onboard :=
  if negb (_data_available s) then (false, frame, s)
  else
    let frame :=
      {| pixel_flow_x_integral := _pixel_flow_x_integral s;
         pixel_flow_y_integral := _pixel_flow_y_integral s;
         gyro_x_integral := _gyro_x_integral s;
         gyro_y_integral := _gyro_y_integral s;
         delta_time := _integration_timespan s;
         quality := _surface_quality s |} in
    let s := set_integration_timespan 0 s in
    let s := set_pixel_flow_x_integral F32.zero s in
    let s := set_pixel_flow_y_integral F32.zero s in
    let s := set_gyro_x_integral F32.zero s in
    let s := set_gyro_y_integral F32.zero s in
    let s := set_data_available false s in
    (true, frame, s).

(** ** [OpticalFlow_Onboard::_run_optflow] *)

(** The image helpers of [VideoIn] and the estimator [Flow_PX4]: each is a
    function of the buffers and sizes it is called with, giving the buffer it
    fills. *)
Record Collaborators : Type := mkCollaborators {
  (* VideoIn::yuyv_to_grey(buffer, buffer_size, new_buffer) *)
  yuyv_to_grey : image -> Z -> image;
  (* VideoIn::shrink_8bpp(buffer, new_buffer, width, height, left,
     selection_width, top, selection_height, fx, fy) *)
  shrink_8bpp : image -> Z -> Z -> Z -> Z -> Z -> Z -> Z -> Z -> image;
  (* VideoIn::crop_8bpp(buffer, new_buffer, width, left, crop_width, top,
     crop_height) *)
  crop_8bpp : image -> Z -> Z -> Z -> Z -> Z -> image;
  (* Flow_PX4::compute_flow(image1, image2, delta_time, &pixel_flow_x,
     &pixel_flow_y): the quality it returns and the two flows it stores *)
  compute_flow : image -> image -> Z -> Z * F32.float * F32.float
}.

(** [memset(buffer, 0, n)] and [memcpy(buffer, src, n)] on a buffer that is
    long enough; bytes past the end of a list are not invented. *)
Definition memset_zero (n : Z) (buffer : image) : image :=
  repeat 0 (Nat.min (Z.to_nat n) (length buffer)) ++ skipn (Z.to_nat n) buffer.

Definition memcpy (src : image) (n : Z) (buffer : image) : image :=
  firstn (Z.to_nat n) src ++ skipn (Z.to_nat n) buffer.

(** The locals [_run_optflow] fixes before it enters its loop. *)
Record Locals : Type := mkLocals {
  convert_buffer_size : Z;
  output_buffer_size : Z;
  crop_left : Z;
  crop_top : Z;
  shrink_scale : Z;
  shrink_width : Z;
  shrink_height : Z;
  shrink_width_offset : Z;
  shrink_height_offset : Z
}.

(** Lines 267-286, the shrink branch: scale, selected size and offsets. *)
Definition shrink_geometry (cfg : BoardConfig) (s : OpticalFlow_Onboard)
    : Z * Z * Z * Z * Z :=
  let shrink_scale :=
    if _camera_output_width s >? _camera_output_height s
    then U32.div (_camera_output_height s)
                 (HAL_OPTFLOW_ONBOARD_OUTPUT_HEIGHT cfg)
    else U32.div (_camera_output_width s)
                 (HAL_OPTFLOW_ONBOARD_OUTPUT_WIDTH cfg) in
  let shrink_width :=
    U32.mul (HAL_OPTFLOW_ONBOARD_OUTPUT_WIDTH cfg) shrink_scale in
  let shrink_height :=
    U32.mul (HAL_OPTFLOW_ONBOARD_OUTPUT_HEIGHT cfg) shrink_scale in
  let shrink_width_offset :=
    U32.sub (_camera_output_width s) shrink_width / 2 in
  let shrink_height_offset :=
    U32.sub (_camera_output_height s) shrink_height / 2 in
  (shrink_scale, shrink_width, shrink_height,
   shrink_width_offset, shrink_height_offset).

(** Everything before [while(true)].  [malloc_convert] and [malloc_output]
    tell whether the two allocations succeed. *)
Definition run_optflow_setup (cfg : BoardConfig)
    (malloc_convert malloc_output : bool) (s : OpticalFlow_Onboard)
    : result Locals :=
  let convert_buffer_size :=
    if _format s =? V4L2.PIX_FMT_YUYV
    then if _shrink_by_software s || _crop_by_software s
         then U32.mul (_camera_output_width s) (_camera_output_height s)
         else U32.mul (_width s) (_height s)
    else 0 in
  _ <- panic_if ((_format s =? V4L2.PIX_FMT_YUYV) && negb malloc_convert)
         CouldntAllocateConversionBuffer ;;
  let output_buffer_size :=
    if _shrink_by_software s || _crop_by_software s
    then U32.wrap (HAL_OPTFLOW_ONBOARD_OUTPUT_WIDTH cfg *
                   HAL_OPTFLOW_ONBOARD_OUTPUT_HEIGHT cfg)
    else 0 in
  _ <- panic_if ((_shrink_by_software s || _crop_by_software s) &&
                 negb malloc_output)
         CouldntAllocateCropBuffer ;;
  if _shrink_by_software s
  then
    let '(scale, width, height, width_offset, height_offset) :=
      shrink_geometry cfg s in
    Ok {| convert_buffer_size := convert_buffer_size;
          output_buffer_size := output_buffer_size;
          crop_left := 0; crop_top := 0;
          shrink_scale := scale;
          shrink_width := width; shrink_height := height;
          shrink_width_offset := width_offset;
          shrink_height_offset := height_offset |}
  else if _crop_by_software s
  then
    Ok {| convert_buffer_size := convert_buffer_size;
          output_buffer_size := output_buffer_size;
          crop_left :=
            U32.sub (_camera_output_width s / 2)
                    (Z.quot (HAL_OPTFLOW_ONBOARD_OUTPUT_WIDTH cfg) 2);
          crop_top :=
            U32.sub (_camera_output_height s / 2)
                    (Z.quot (HAL_OPTFLOW_ONBOARD_OUTPUT_HEIGHT cfg) 2);
          shrink_scale := 0; shrink_width := 0; shrink_height := 0;
          shrink_width_offset := 0; shrink_height_offset := 0 |}
  else
    Ok {| convert_buffer_size := convert_buffer_size;
          output_buffer_size := output_buffer_size;
          crop_left := 0; crop_top := 0;
          shrink_scale := 0; shrink_width := 0; shrink_height := 0;
          shrink_width_offset := 0; shrink_height_offset := 0 |}.

(** What one pass of the loop does to the outside world, in order. *)
Inductive event : Type :=
| EvGetFrame
| EvYuyvToGrey
| EvShrink
| EvCrop
| EvGetGyro
| EvComputeFlow (image1 image2 : image) (delta_time : Z)
| EvAccumulate
| EvPutFrame (frame : Frame).

Definition is_shrink (e : event) : bool :=
  match e with EvShrink => true | _ => false end.
Definition is_crop (e : event) : bool :=
  match e with EvCrop => true | _ => false end.
Definition is_get_gyro (e : event) : bool :=
  match e with EvGetGyro => true | _ => false end.
Definition is_compute_flow (e : event) : bool :=
  match e with EvComputeFlow _ _ _ => true | _ => false end.
Definition is_accumulate (e : event) : bool :=
  match e with EvAccumulate => true | _ => false end.

Definition count (p : event -> bool) (trace : list event) : nat :=
  length (filter p trace).

(** Lines 302-308: packed 4:2:2 to grey, in place. *)
Definition convert_frame (ops : Collaborators) (loc : Locals)
    (s : OpticalFlow_Onboard) (buffer : image) : list event * image :=
  if _format s =? V4L2.PIX_FMT_YUYV
  then
    let convert_buffer :=
      yuyv_to_grey ops buffer (U32.mul (convert_buffer_size loc) 2) in
    let buffer := memset_zero (U32.mul (convert_buffer_size loc) 2) buffer in
    ([EvYuyvToGrey], memcpy convert_buffer (convert_buffer_size loc) buffer)
  else ([], buffer).

(** Lines 310-328: shrink, or else crop, or else nothing, in place. *)
Definition resize_frame (cfg : BoardConfig) (ops : Collaborators)
    (loc : Locals) (s : OpticalFlow_Onboard) (buffer : image)
    : list event * image :=
  if _shrink_by_software s
  then
    let output_buffer :=
      shrink_8bpp ops buffer
        (_camera_output_width s) (_camera_output_height s)
        (shrink_width_offset loc) (shrink_width loc)
        (shrink_height_offset loc) (shrink_height loc)
        (shrink_scale loc) (shrink_scale loc) in
    let buffer :=
      memset_zero
        (U32.mul (_camera_output_width s) (_camera_output_height s)) buffer in
    ([EvShrink], memcpy output_buffer (output_buffer_size loc) buffer)
  else if _crop_by_software s
  then
    let output_buffer :=
      crop_8bpp ops buffer (_camera_output_width s)
        (crop_left loc) (U32.wrap (HAL_OPTFLOW_ONBOARD_OUTPUT_WIDTH cfg))
        (crop_top loc) (U32.wrap (HAL_OPTFLOW_ONBOARD_OUTPUT_HEIGHT cfg)) in
    let buffer :=
      memset_zero
        (U32.mul (_camera_output_width s) (_camera_output_height s)) buffer in
    ([EvCrop], memcpy output_buffer (output_buffer_size loc) buffer)
  else ([], buffer).

(** Lines 372-387, the critical section of the loop. *)
Definition accumulate (cfg : BoardConfig) (qual : Z)
    (flow_rate_x flow_rate_y : F32.float) (gyro_rate : Vector3f)
    (elapsed : Z) (s : OpticalFlow_Onboard) : OpticalFlow_Onboard :=
  let s := set_pixel_flow_x_integral
             (F32.add (_pixel_flow_x_integral s)
                (F32.div flow_rate_x (HAL_FLOW_PX4_FOCAL_LENGTH_MILLIPX cfg)))
             s in
  let s := set_pixel_flow_y_integral
             (F32.add (_pixel_flow_y_integral s)
                (F32.div flow_rate_y (HAL_FLOW_PX4_FOCAL_LENGTH_MILLIPX cfg)))
             s in
  let s := set_integration_timespan
             (U32.add (_integration_timespan s) elapsed) s in
  let s := set_gyro_x_integral
             (F32.add (_gyro_x_integral s)
                (F32.mul
                   (F32.div (F32.add (v3x gyro_rate) (v3x (_last_gyro_rate s)))
                            F32.two)
                   (F32.of_Z elapsed)))
             s in
  let s := set_gyro_y_integral
             (F32.add (_gyro_y_integral s)
                (F32.mul
                   (F32.div (F32.add (v3y gyro_rate) (v3y (_last_gyro_rate s)))
                            F32.two)
                   (F32.of_Z elapsed)))
             s in
  let s := set_surface_quality qual s in
  set_data_available true s.

(** What the outside world hands to one pass of the loop: the frame
    [get_frame] delivers ([None] when it fails) and the rates the gyro
    callback stores if the pass calls it. *)
Record IterInput : Type := mkIterInput {
  next_frame : option Frame;
  gyro_answer : Vector3f
}.

(** One pass of [while(true)]: the events of the pass and the driver after
    it, or the panic that ends it. *)
Definition loop_body (cfg : BoardConfig) (ops : Collaborators) (loc : Locals)
    (inp : IterInput) (s : OpticalFlow_Onboard)
    : list event * result OpticalFlow_Onboard :=
  match next_frame inp with
  | None => ([EvGetFrame], Panic CouldntGetFrame)
  | Some delivered =>
      let '(ev_convert, buffer) := convert_frame ops loc s (data delivered) in
      let '(ev_resize, buffer) := resize_frame cfg ops loc s buffer in
      let video_frame := mkFrame buffer (timestamp delivered) in
      match _last_video_frame s with
      | None =>
          (EvGetFrame :: ev_convert ++ ev_resize,
           Ok (set_last_video_frame (Some video_frame) s))
      | Some last =>
          let gyro_rate := gyro_answer inp in
          let elapsed := U32.sub (timestamp video_frame) (timestamp last) in
          let '(qual, flow_rate_x, flow_rate_y) :=
            compute_flow ops (data last) (data video_frame) elapsed in
          let s := accumulate cfg qual flow_rate_x flow_rate_y gyro_rate
                     elapsed s in
          let s := set_last_video_frame (Some video_frame) s in
          let s := set_last_gyro_rate gyro_rate s in
          (EvGetFrame :: ev_convert ++ ev_resize ++
             [EvGetGyro;
              EvComputeFlow (data last) (data video_frame) elapsed;
              EvAccumulate;
              EvPutFrame last],
           Ok s)
      end
  end.

(** The loop, for as many passes as there are inputs. *)
Fixpoint run_frames (cfg : BoardConfig) (ops : Collaborators) (loc : Locals)
    (inps : list IterInput) (s : OpticalFlow_Onboard)
    : list event * result OpticalFlow_Onboard :=
  match inps with
  | [] => ([], Ok s)
  | inp :: rest =>
      match loop_body cfg ops loc inp s with
      | (ev, Ok s') =>
          let '(ev', r) := run_frames cfg ops loc rest s' in (ev ++ ev', r)
      | (ev, Panic why) => (ev, Panic why)
      end
  end.

(** [_run_optflow] on the first [length inps] frames. *)
Definition run_optflow (cfg : BoardConfig) (ops : Collaborators)
    (malloc_convert malloc_output : bool) (inps : list IterInput)
    (s : OpticalFlow_Onboard) : list event * result OpticalFlow_Onboard :=
  match run_optflow_setup cfg malloc_convert malloc_output s with
  | Ok loc => run_frames cfg ops loc inps s
  | Panic why => ([], Panic why)
  end.

(** ** Vocabulary of the specification *)

(** The three ways a frame reaches the target geometry. *)
Inductive strategy : Type :=
| NoAdjustment
| SoftwareShrink
| SoftwareCrop.

(** The strategy the two flags stand for: shrink if the shrink flag is set,
    crop if only the crop flag is, no adjustment if neither is. *)
Definition active_strategy (s : OpticalFlow_Onboard) : strategy :=
  match _shrink_by_software s, _crop_by_software s with
  | true, _ => SoftwareShrink
  | false, true => SoftwareCrop
  | false, false => NoAdjustment
  end.

Definition is_resize (e : event) : bool := is_shrink e || is_crop e.

(** The events a pass of the loop shows when it follows a strategy. *)
Definition strategy_events (st : strategy) : list event :=
  match st with
  | NoAdjustment => []
  | SoftwareShrink => [EvShrink]
  | SoftwareCrop => [EvCrop]
  end.

(** "The flags chosen at init never select both software shrink and
    software crop." *)
Definition flags_exclusive (s : OpticalFlow_Onboard) : Prop :=
  _shrink_by_software s && _crop_by_software s = false.

(** "The minimum of the two per-axis factors floor(output_width /
    target_width) and floor(output_height / target_height)." *)
Definition min_axis_factor (cfg : BoardConfig) (s : OpticalFlow_Onboard) : Z :=
  Z.min (_camera_output_width s / HAL_OPTFLOW_ONBOARD_OUTPUT_WIDTH cfg)
        (_camera_output_height s / HAL_OPTFLOW_ONBOARD_OUTPUT_HEIGHT cfg).

(** A window of [size] pixels starting at [offset] lies inside a line of
    [total] pixels with margins that differ by at most one pixel. *)
Definition centered (total size offset : Z) : Prop :=
  0 <= offset /\ offset + size <= total /\
  offset <= total - (offset + size) <= offset + 1.

(** The pixel formats the driver works with. *)
Definition supported_formats : list Z :=
  [V4L2.PIX_FMT_GREY; V4L2.PIX_FMT_NV12; V4L2.PIX_FMT_YUYV].

(** The pixel format [set_format] leaves behind, when [init] gets as far as
    a successful [set_format]. *)
Definition negotiated_format (cfg : BoardConfig) (env : InitEnv)
    (s : OpticalFlow_Onboard) : option Z :=
  if _initialized s then None
  else
    match HAL_OPTFLOW_ONBOARD_VDEV_PATH cfg with
    | None => None
    | Some device_path =>
        if open_device env device_path
        then
          let s := set_width (U32.wrap (HAL_OPTFLOW_ONBOARD_OUTPUT_WIDTH cfg)) s in
          let s := set_height (U32.wrap (HAL_OPTFLOW_ONBOARD_OUTPUT_HEIGHT cfg)) s in
          match init_board cfg env s with
          | Panic _ => None
          | Ok s =>
              match videoin_set_format env (_width s) (_height s) (_format s) with
              | Some (_, _, format, _, _) => Some format
              | None => None
              end
          end
        else None
    end.

(** Everything [init] asks for after the format check is granted. *)
Definition later_requests_granted (cfg : BoardConfig) (env : InitEnv) : bool :=
  allocate_buffers env (U32.wrap (HAL_OPTFLOW_ONBOARD_NBUFS cfg)) &&
  (pthread_mutex_init env =? 0) && (pthread_attr_init env =? 0) &&
  (pthread_create env =? 0).

(** A run of passes in which every frame is delivered. *)
Definition delivered (steps : list (Frame * Vector3f)) : list IterInput :=
  map (fun step => mkIterInput (Some (fst step)) (snd step)) steps.

(** The elapsed time of each pass: this frame's timestamp minus the previous
    frame's. *)
Fixpoint elapsed_times (prev_timestamp : Z) (steps : list (Frame * Vector3f))
    : list Z :=
  match steps with
  | [] => []
  | (frame, _) :: rest =>
      U32.sub (timestamp frame) prev_timestamp
        :: elapsed_times (timestamp frame) rest
  end.

(** The trapezoidal term of one pass on one axis. *)
Definition trapezoid (rate prev_rate : F32.float) (elapsed : Z) : F32.float :=
  F32.mul (F32.div (F32.add rate prev_rate) F32.two) (F32.of_Z elapsed).

Fixpoint trapezoid_terms (axis : Vector3f -> F32.float) (prev_rate : Vector3f)
    (prev_timestamp : Z) (steps : list (Frame * Vector3f)) : list F32.float :=
  match steps with
  | [] => []
  | (frame, rate) :: rest =>
      trapezoid (axis rate) (axis prev_rate)
                (U32.sub (timestamp frame) prev_timestamp)
        :: trapezoid_terms axis rate (timestamp frame) rest
  end.

(** Sums of elapsed times: in the 32-bit accumulator, and in the integers. *)
Definition sum_u32 (l : list Z) : Z := fold_left U32.add l 0.
Definition sum_Z (l : list Z) : Z := fold_right Z.add 0 l.

(** The buffer of a delivered frame once the pass has converted and resized
    it in place. *)
Definition normalized (cfg : BoardConfig) (ops : Collaborators) (loc : Locals)
    (s : OpticalFlow_Onboard) (buffer : image) : image :=
  snd (resize_frame cfg ops loc s (snd (convert_frame ops loc s buffer))).

(** The flow integrator: the four integrals, the timespan, the quality and
    the dirty flag. *)
Definition integrator (s : OpticalFlow_Onboard)
    : F32.float * F32.float * F32.float * F32.float * Z * Z * bool :=
  (_pixel_flow_x_integral s, _pixel_flow_y_integral s,
   _gyro_x_integral s, _gyro_y_integral s,
   _integration_timespan s, _surface_quality s, _data_available s).

(** ** Worked configurations *)

(** Modelled from the spec: the board headers that give the macros their
    values are not among the sources; the scenario of the spec has a 320x240
    sensor and a 64x64 target.  The remaining values only have to be of the
    right type. *)
Definition scenario_cfg : BoardConfig :=
  {| CONFIG_HAL_BOARD_SUBTYPE := LINUX_BEBOP;
     HAL_OPTFLOW_ONBOARD_VDEV_PATH := Some [47; 100; 101; 118];
     HAL_OPTFLOW_ONBOARD_NBUFS := 8;
     HAL_OPTFLOW_ONBOARD_OUTPUT_WIDTH := 64;
     HAL_OPTFLOW_ONBOARD_OUTPUT_HEIGHT := 64;
     HAL_OPTFLOW_ONBOARD_CROP_WIDTH := 240;
     HAL_OPTFLOW_ONBOARD_CROP_HEIGHT := 240;
     HAL_OPTFLOW_ONBOARD_SENSOR_WIDTH := 320;
     HAL_OPTFLOW_ONBOARD_SENSOR_HEIGHT := 240;
     HAL_FLOW_PX4_FOCAL_LENGTH_MILLIPX := F32.two |}.

(** The scenario on a MINLURE build, where the pixel format is picked from
    what the device lists. *)
Definition minlure_cfg : BoardConfig :=
  {| CONFIG_HAL_BOARD_SUBTYPE := LINUX_MINLURE;
     HAL_OPTFLOW_ONBOARD_VDEV_PATH := Some [47; 100; 101; 118];
     HAL_OPTFLOW_ONBOARD_NBUFS := 8;
     HAL_OPTFLOW_ONBOARD_OUTPUT_WIDTH := 64;
     HAL_OPTFLOW_ONBOARD_OUTPUT_HEIGHT := 64;
     HAL_OPTFLOW_ONBOARD_CROP_WIDTH := 240;
     HAL_OPTFLOW_ONBOARD_CROP_HEIGHT := 240;
     HAL_OPTFLOW_ONBOARD_SENSOR_WIDTH := 320;
     HAL_OPTFLOW_ONBOARD_SENSOR_HEIGHT := 240;
     HAL_FLOW_PX4_FOCAL_LENGTH_MILLIPX := F32.two |}.

(** The scenario board built for a target that is not square. *)
Definition wide_target_cfg : BoardConfig :=
  {| CONFIG_HAL_BOARD_SUBTYPE := LINUX_BEBOP;
     HAL_OPTFLOW_ONBOARD_VDEV_PATH := Some [47; 100; 101; 118];
     HAL_OPTFLOW_ONBOARD_NBUFS := 8;
     HAL_OPTFLOW_ONBOARD_OUTPUT_WIDTH := 64;
     HAL_OPTFLOW_ONBOARD_OUTPUT_HEIGHT := 32;
     HAL_OPTFLOW_ONBOARD_CROP_WIDTH := 240;
     HAL_OPTFLOW_ONBOARD_CROP_HEIGHT := 240;
     HAL_OPTFLOW_ONBOARD_SENSOR_WIDTH := 320;
     HAL_OPTFLOW_ONBOARD_SENSOR_HEIGHT := 240;
     HAL_FLOW_PX4_FOCAL_LENGTH_MILLIPX := F32.two |}.

(** A device that opens, delivers [width] x [height] frames in [format]
    whatever is asked for, and grants or refuses the crop window. *)
Definition camera_env (width height format : Z) (crops : bool)
    (pixel_formats : list Z) : InitEnv :=
  {| open_device := fun _ => true;
     camerasensor_set_format := fun _ _ => true;
     get_pixel_formats := pixel_formats;
     videoin_set_format := fun _ _ _ =>
       Some (width, height, format, width, width * height);
     set_crop := fun _ _ _ _ => crops;
     allocate_buffers := fun _ => true;
     pthread_mutex_init := 0;
     pthread_attr_init := 0;
     pthread_create := 0 |}.

(** Stand-ins for the image helpers and the estimator in the worked
    examples: the flow is the difference of the first pixels, the quality
    the elapsed time modulo 256. *)
Definition example_ops : Collaborators :=
  {| yuyv_to_grey := fun buffer _ => buffer;
     shrink_8bpp := fun buffer _ _ _ _ _ _ _ _ => buffer;
     crop_8bpp := fun buffer _ _ _ _ _ => buffer;
     compute_flow := fun image1 image2 elapsed =>
       (elapsed mod 256,
        F32.of_Z (hd 0 image2 - hd 0 image1),
        F32.of_Z 0) |}.

(** The driver of the scenario after [init]: 320x240 grey frames, crop
    granted by the device. *)
Definition scenario_driver : OpticalFlow_Onboard :=
  match init scenario_cfg
          (camera_env 320 240 V4L2.PIX_FMT_GREY true []) driver_at_construction
  with
  | Ok s => s
  | Panic _ => driver_at_construction
  end.

Definition scenario_locals : Locals :=
  match run_optflow_setup scenario_cfg true true scenario_driver with
  | Ok loc => loc
  | Panic _ => mkLocals 0 0 0 0 0 0 0 0 0
  end.

(** The wide-target build in front of the same 320x240 camera. *)
Definition wide_target_driver : OpticalFlow_Onboard :=
  match init wide_target_cfg
          (camera_env 320 240 V4L2.PIX_FMT_GREY true []) driver_at_construction
  with
  | Ok s => s
  | Panic _ => driver_at_construction
  end.

(** ** Further vocabulary *)

(** The thread entry point: [_read_thread] runs [_run_optflow] on the driver
    it is handed; the loop leaves only by a panic. *)
Definition _read_thread (cfg : BoardConfig) (ops : Collaborators)
    (malloc_convert malloc_output : bool) (inps : list IterInput)
    (s : OpticalFlow_Onboard) : list event * result OpticalFlow_Onboard :=
  run_optflow cfg ops malloc_convert malloc_output inps s.

(** What [init] fixes for the run: the flags, the geometries, the format
    and the line and image sizes. *)
Definition capture_configuration (s : OpticalFlow_Onboard)
    : bool * bool * bool * Z * Z * Z * Z * Z * Z * Z :=
  (_initialized s, _crop_by_software s, _shrink_by_software s,
   _camera_output_width s, _camera_output_height s,
   _width s, _height s, _format s, _bytesperline s, _sizeimage s).

(** What [set_format] leaves in the five locations, when [init] gets as far
    as a successful [set_format]: width, height, format, bytes per line and
    image size. *)
Definition negotiated (cfg : BoardConfig) (env : InitEnv)
    (s : OpticalFlow_Onboard) : option (Z * Z * Z * Z * Z) :=
  if _initialized s then None
  else
    match HAL_OPTFLOW_ONBOARD_VDEV_PATH cfg with
    | None => None
    | Some device_path =>
        if open_device env device_path
        then
          let s := set_width (U32.wrap (HAL_OPTFLOW_ONBOARD_OUTPUT_WIDTH cfg)) s in
          let s := set_height (U32.wrap (HAL_OPTFLOW_ONBOARD_OUTPUT_HEIGHT cfg)) s in
          match init_board cfg env s with
          | Panic _ => None
          | Ok s => videoin_set_format env (_width s) (_height s) (_format s)
          end
        else None
    end.

(** The crop window [init] asks the device for: left, top, width, height. *)
Definition requested_crop (cfg : BoardConfig) : Z * Z * Z * Z :=
  (U32.wrap (Z.quot (HAL_OPTFLOW_ONBOARD_SENSOR_WIDTH cfg -
                     HAL_OPTFLOW_ONBOARD_SENSOR_HEIGHT cfg) 2),
   0,
   U32.wrap (HAL_OPTFLOW_ONBOARD_CROP_WIDTH cfg),
   U32.wrap (HAL_OPTFLOW_ONBOARD_CROP_HEIGHT cfg)).

(** A pixel format the loop uses as it comes. *)
Definition needs_no_conversion (px_fmt : Z) : bool :=
  (px_fmt =? V4L2.PIX_FMT_NV12) || (px_fmt =? V4L2.PIX_FMT_GREY).

(** A window of [size] pixels starting at [offset] lies inside a line of
    [total] pixels, the two margins differing by at most one pixel either
    way. *)
Definition inside_centered (total size offset : Z) : Prop :=
  0 <= offset /\ offset + size <= total /\
  offset - 1 <= total - (offset + size) <= offset + 1.

Definition is_get_frame (e : event) : bool :=
  match e with EvGetFrame => true | _ => false end.
Definition is_put_frame (e : event) : bool :=
  match e with EvPutFrame _ => true | _ => false end.

(** The frames a run of delivered frames caches, one per pass: each
    delivered frame with its buffer normalized. *)
Definition cached_frames (cfg : BoardConfig) (ops : Collaborators)
    (loc : Locals) (s : OpticalFlow_Onboard)
    (steps : list (Frame * Vector3f)) : list Frame :=
  map (fun step =>
         mkFrame (normalized cfg ops loc s (data (fst step)))
                 (timestamp (fst step)))
      steps.

(** What the estimator answers in each pass of such a run, the first pass
    comparing with the frame [prev]. *)
Fixpoint flow_answers (ops : Collaborators) (prev : Frame)
    (frames : list Frame) : list (Z * F32.float * F32.float) :=
  match frames with
  | [] => []
  | frame :: rest =>
      compute_flow ops (data prev) (data frame)
        (U32.sub (timestamp frame) (timestamp prev))
        :: flow_answers ops frame rest
  end.

(** The drivers a program can see: the one of the construction, and those
    [init], [read] and a pass of the loop make of one it can see. *)
Inductive reachable (cfg : BoardConfig) (ops : Collaborators)
    : OpticalFlow_Onboard -> Prop :=
| reach_construction : reachable cfg ops driver_at_construction
| reach_init (env : InitEnv) (s s' : OpticalFlow_Onboard) :
    reachable cfg ops s -> init cfg env s = Ok s' -> reachable cfg ops s'
| reach_read (frame : Data_Frame) (s : OpticalFlow_Onboard) :
    reachable cfg ops s -> reachable cfg ops (snd (read frame s))
| reach_pass (loc : Locals) (inp : IterInput) (tr : list event)
    (s s' : OpticalFlow_Onboard) :
    reachable cfg ops s ->
    loop_body cfg ops loc inp s = (tr, Ok s') -> reachable cfg ops s'.

(** What holds of a driver while nothing is to be drained. *)
Definition clean_is_zero (s : OpticalFlow_Onboard) : Prop :=
  _data_available s = false ->
  _pixel_flow_x_integral s = F32.zero /\
  _pixel_flow_y_integral s = F32.zero /\
  _gyro_x_integral s = F32.zero /\
  _gyro_y_integral s = F32.zero /\
  _integration_timespan s = 0.


(** A build with a 2x2 target in front of a 4x4 camera, small enough to
    write its frames out. *)
Definition tiny_cfg : BoardConfig :=
  {| CONFIG_HAL_BOARD_SUBTYPE := LINUX_MINLURE;
     HAL_OPTFLOW_ONBOARD_VDEV_PATH := Some [47; 100; 101; 118];
     HAL_OPTFLOW_ONBOARD_NBUFS := 2;
     HAL_OPTFLOW_ONBOARD_OUTPUT_WIDTH := 2;
     HAL_OPTFLOW_ONBOARD_OUTPUT_HEIGHT := 2;
     HAL_OPTFLOW_ONBOARD_CROP_WIDTH := 4;
     HAL_OPTFLOW_ONBOARD_CROP_HEIGHT := 4;
     HAL_OPTFLOW_ONBOARD_SENSOR_WIDTH := 4;
     HAL_OPTFLOW_ONBOARD_SENSOR_HEIGHT := 4;
     HAL_FLOW_PX4_FOCAL_LENGTH_MILLIPX := F32.two |}.

Definition tiny_driver (format : Z) : OpticalFlow_Onboard :=
  match init tiny_cfg (camera_env 4 4 format true [format])
          driver_at_construction
  with
  | Ok s => s
  | Panic _ => driver_at_construction
  end.

Definition tiny_locals (format : Z) : Locals :=
  match run_optflow_setup tiny_cfg true true (tiny_driver format) with
  | Ok loc => loc
  | Panic _ => mkLocals 0 0 0 0 0 0 0 0 0
  end.

(** * Properties *)

(** ** The sample reader *)

(** The driver a successful [read] leaves behind, member by member. *)
Lemma read_drained_state (frame : Data_Frame) (s : OpticalFlow_Onboard) :
  _data_available s = true ->
  snd (read frame s) =
  {| _initialized := _initialized s; _data_available := false;
     _crop_by_software := _crop_by_software s;
     _shrink_by_software := _shrink_by_software s;
     _camera_output_width := _camera_output_width s;
     _camera_output_height := _camera_output_height s;
     _width := _width s; _height := _height s; _format := _format s;
     _bytesperline := _bytesperline s; _sizeimage := _sizeimage s;
     _pixel_flow_x_integral := F32.zero; _pixel_flow_y_integral := F32.zero;
     _gyro_x_integral := F32.zero; _gyro_y_integral := F32.zero;
     _integration_timespan := 0; _surface_quality := _surface_quality s;
     _last_video_frame := _last_video_frame s;
     _last_gyro_rate := _last_gyro_rate s |}.
Proof.
  intros Hdirty. unfold read. rewrite Hdirty. reflexivity.
Qed.

(** C3: with the dirty flag unset [read] returns false and hands back the
    caller's record and the driver as they were; with the flag set it
    returns true, the record holds the six accumulated members, and in the
    driver the four integrals and the timespan are zero and the flag is
    clear, every other member being as before. *)
Theorem read_drains_or_declines (frame : Data_Frame) (s : OpticalFlow_Onboard) :
  read frame s =
  if _data_available s
  then
    (true,
     {| pixel_flow_x_integral := _pixel_flow_x_integral s;
        pixel_flow_y_integral := _pixel_flow_y_integral s;
        gyro_x_integral := _gyro_x_integral s;
        gyro_y_integral := _gyro_y_integral s;
        delta_time := _integration_timespan s;
        quality := _surface_quality s |},
     {| _initialized := _initialized s; _data_available := false;
        _crop_by_software := _crop_by_software s;
        _shrink_by_software := _shrink_by_software s;
        _camera_output_width := _camera_output_width s;
        _camera_output_height := _camera_output_height s;
        _width := _width s; _height := _height s; _format := _format s;
        _bytesperline := _bytesperline s; _sizeimage := _sizeimage s;
        _pixel_flow_x_integral := F32.zero;
        _pixel_flow_y_integral := F32.zero;
        _gyro_x_integral := F32.zero; _gyro_y_integral := F32.zero;
        _integration_timespan := 0; _surface_quality := _surface_quality s;
        _last_video_frame := _last_video_frame s;
        _last_gyro_rate := _last_gyro_rate s |})
  else (false, frame, s).
Proof.
  unfold read. destruct (_data_available s); reflexivity.
Qed.

(** C7: when [read] returns a sample, a second [read] on the driver it left
    behind, with no pass of the loop in between, returns false. *)
Theorem read_twice_second_empty
    (frame frame' : Data_Frame) (s : OpticalFlow_Onboard) :
  fst (fst (read frame s)) = true ->
  fst (fst (read frame' (snd (read frame s)))) = false.
Proof.
  intros Hfirst.
  assert (Hdirty : _data_available s = true).
  { unfold read in Hfirst. destruct (_data_available s); [reflexivity | discriminate]. }
  rewrite (read_drained_state frame s Hdirty).
  reflexivity.
Qed.

Lemma read_twice_second_empty_witness :
  fst (fst (read (mkDataFrame F32.zero F32.zero F32.zero F32.zero 0 0)
              (set_data_available true driver_at_construction))) = true /\
  fst (fst (read (mkDataFrame F32.two F32.two F32.two F32.two 9 9)
              (snd (read (mkDataFrame F32.zero F32.zero F32.zero F32.zero 0 0)
                      (set_data_available true driver_at_construction)))))
  = false.
Proof.
  split.
  - reflexivity.
  - apply (read_twice_second_empty
             (mkDataFrame F32.zero F32.zero F32.zero F32.zero 0 0)
             (mkDataFrame F32.two F32.two F32.two F32.two 9 9)
             (set_data_available true driver_at_construction)).
    reflexivity.
Defined.

(** C10: whenever [read] returns false, the caller's record comes back as it
    went in and the driver, integrator and dirty flag included, is the one
    [read] was called on. *)
Theorem read_false_changes_nothing (frame : Data_Frame) (s : OpticalFlow_Onboard) :
  fst (fst (read frame s)) = false ->
  snd (fst (read frame s)) = frame /\ snd (read frame s) = s.
Proof.
  unfold read. destruct (_data_available s); simpl.
  - discriminate.
  - intros _. split; reflexivity.
Qed.

Lemma read_false_changes_nothing_witness :
  fst (fst (read (mkDataFrame F32.two F32.two F32.two F32.two 9 9)
              driver_at_construction)) = false /\
  snd (fst (read (mkDataFrame F32.two F32.two F32.two F32.two 9 9)
              driver_at_construction))
  = mkDataFrame F32.two F32.two F32.two F32.two 9 9 /\
  snd (read (mkDataFrame F32.two F32.two F32.two F32.two 9 9)
         driver_at_construction) = driver_at_construction.
Proof.
  split.
  - reflexivity.
  - apply (read_false_changes_nothing
             (mkDataFrame F32.two F32.two F32.two F32.two 9 9)
             driver_at_construction).
    reflexivity.
Defined.

(** ** The normalization strategy *)

Lemma convert_frame_no_resize (ops : Collaborators) (loc : Locals)
    (s : OpticalFlow_Onboard) (buffer : image) :
  filter is_resize (fst (convert_frame ops loc s buffer)) = [].
Proof.
  unfold convert_frame. destruct (_format s =? V4L2.PIX_FMT_YUYV); reflexivity.
Qed.

Lemma resize_frame_events (cfg : BoardConfig) (ops : Collaborators)
    (loc : Locals) (s : OpticalFlow_Onboard) (buffer : image) :
  fst (resize_frame cfg ops loc s buffer) = strategy_events (active_strategy s).
Proof.
  unfold resize_frame, active_strategy.
  destruct (_shrink_by_software s), (_crop_by_software s); reflexivity.
Qed.

Lemma filter_resize_strategy_events (st : strategy) :
  filter is_resize (strategy_events st) = strategy_events st.
Proof. destruct st; reflexivity. Qed.

(** The claim of C1 fails as stated: in front of a camera that lists YUYV,
    delivers 320x240 frames and refuses the crop window, [init] succeeds with
    the shrink flag and the crop flag both set. *)
Lemma init_sets_both_flags :
  exists s,
    init minlure_cfg
      (camera_env 320 240 V4L2.PIX_FMT_YUYV false [V4L2.PIX_FMT_YUYV])
      driver_at_construction = Ok s /\
    _shrink_by_software s = true /\ _crop_by_software s = true /\
    ~ flags_exclusive s.
Proof.
  eexists. split; [reflexivity |].
  split; [reflexivity |]. split; [reflexivity |].
  unfold flags_exclusive. simpl. discriminate.
Qed.

(** C1, amended: in every pass of the loop that gets a frame, the resize
    steps taken are those of exactly one strategy, the one the two flags
    stand for with shrink taking precedence: software shrink if the shrink
    flag is set, whatever the crop flag says, software crop if only the crop
    flag is set, and none if neither is. *)
Theorem one_strategy_per_pass (cfg : BoardConfig) (ops : Collaborators)
    (loc : Locals) (s : OpticalFlow_Onboard) (delivered_frame : Frame)
    (gyro_rate : Vector3f) :
  filter is_resize
    (fst (loop_body cfg ops loc
            (mkIterInput (Some delivered_frame) gyro_rate) s))
  = strategy_events (active_strategy s).
Proof.
  unfold loop_body. cbn [next_frame gyro_answer].
  pose proof (convert_frame_no_resize ops loc s (data delivered_frame)) as Hc.
  destruct (convert_frame ops loc s (data delivered_frame)) as [evc buf].
  pose proof (resize_frame_events cfg ops loc s buf) as Hr.
  destruct (resize_frame cfg ops loc s buf) as [evr buf'].
  cbn [fst] in Hc, Hr.
  destruct (_last_video_frame s) as [last |].
  - destruct (compute_flow ops (data last) (data (mkFrame buf' (timestamp delivered_frame)))
                (U32.sub (timestamp (mkFrame buf' (timestamp delivered_frame)))
                   (timestamp last))) as [[qual fx] fy].
    cbn [fst]. cbn [filter is_resize is_shrink is_crop orb].
    rewrite !filter_app, Hc, Hr, filter_resize_strategy_events.
    cbn [filter is_resize is_shrink is_crop orb app].
    apply app_nil_r.
  - cbn [fst]. cbn [filter is_resize is_shrink is_crop orb].
    rewrite filter_app, Hc, Hr, filter_resize_strategy_events.
    reflexivity.
Qed.

(** ** Shrink geometry *)

Lemma wrap_small (z : Z) : U32.in_range z -> U32.wrap z = z.
Proof. unfold U32.in_range, U32.wrap. intros H. apply Z.mod_small. exact H. Qed.

(** A window of [T * (c / T)] pixels fits a line of [c] pixels. *)
Lemma scaled_target_fits (T c k : Z) :
  0 < T -> 0 <= k <= c / T -> 0 <= T * k <= c.
Proof.
  intros HT [Hk0 Hk]. split; [nia |].
  pose proof (Z.mul_div_le c T HT). nia.
Qed.

Lemma half_margin_centered (total size : Z) :
  0 <= size <= total -> centered total size ((total - size) / 2).
Proof.
  intros H. unfold centered.
  pose proof (Z.div_mod (total - size) 2 ltac:(lia)) as Hdm.
  pose proof (Z.mod_pos_bound (total - size) 2 ltac:(lia)) as Hm.
  lia.
Qed.

(** When the shrink flag is set the set-up succeeds exactly when the
    allocations do, and its shrink locals are those of [shrink_geometry]. *)
Lemma setup_shrink_locals (cfg : BoardConfig) (mc mo : bool)
    (s : OpticalFlow_Onboard) (loc : Locals) :
  _shrink_by_software s = true ->
  run_optflow_setup cfg mc mo s = Ok loc ->
  (shrink_scale loc, shrink_width loc, shrink_height loc,
   shrink_width_offset loc, shrink_height_offset loc) = shrink_geometry cfg s.
Proof.
  intros Hs. unfold run_optflow_setup. rewrite Hs.
  destruct (panic_if ((_format s =? V4L2.PIX_FMT_YUYV) && negb mc) _); cbn [bind];
    [| discriminate].
  destruct (panic_if _ CouldntAllocateCropBuffer); cbn [bind]; [| discriminate].
  destruct (shrink_geometry cfg s) as [[[[g1 g2] g3] g4] g5].
  intros H. injection H as <-. reflexivity.
Qed.

(** The claim of C2 fails as stated: built for a 64x32 target, in front of a
    320x240 camera, the factor is 7 (the height factor) although the width
    factor is 5, and the selected window is 448 pixels wide. *)
Lemma shrink_scale_not_min_for_wide_target :
  exists loc,
    run_optflow_setup wide_target_cfg true true wide_target_driver = Ok loc /\
    _shrink_by_software wide_target_driver = true /\
    shrink_scale loc = 7 /\
    min_axis_factor wide_target_cfg wide_target_driver = 5 /\
    shrink_scale loc <> min_axis_factor wide_target_cfg wide_target_driver /\
    ~ centered (_camera_output_width wide_target_driver)
        (shrink_width loc) (shrink_width_offset loc).
Proof.
  eexists. split; [reflexivity |].
  repeat split; try reflexivity.
  - vm_compute. discriminate.
  - unfold centered. vm_compute. intros [_ [H _]]. apply H. reflexivity.
Qed.

(** C2, amended: when the shrink strategy is active and the target is square
    (width and height both [T]), for every camera output geometry the
    downscale factor is the minimum of the two per-axis factors, the selected
    window measures [T * factor] both ways and lies centered in the camera
    frame. *)
Theorem shrink_geometry_square_target (cfg : BoardConfig) (mc mo : bool)
    (s : OpticalFlow_Onboard) (loc : Locals) (T : Z) :
  HAL_OPTFLOW_ONBOARD_OUTPUT_WIDTH cfg = T ->
  HAL_OPTFLOW_ONBOARD_OUTPUT_HEIGHT cfg = T ->
  0 < T < U32.modulus ->
  U32.in_range (_camera_output_width s) ->
  U32.in_range (_camera_output_height s) ->
  _shrink_by_software s = true ->
  run_optflow_setup cfg mc mo s = Ok loc ->
  shrink_scale loc = min_axis_factor cfg s /\
  shrink_width loc = T * shrink_scale loc /\
  shrink_height loc = T * shrink_scale loc /\
  centered (_camera_output_width s) (shrink_width loc)
    (shrink_width_offset loc) /\
  centered (_camera_output_height s) (shrink_height loc)
    (shrink_height_offset loc).
Proof.
  intros HW HH HT Hcw Hch Hshrink Hsetup.
  pose proof (setup_shrink_locals cfg mc mo s loc Hshrink Hsetup) as Hgeo.
  unfold shrink_geometry in Hgeo. rewrite HW, HH in Hgeo.
  unfold min_axis_factor. rewrite HW, HH.
  set (cw := _camera_output_width s) in *.
  set (ch := _camera_output_height s) in *.
  assert (HTr : U32.in_range T) by (unfold U32.in_range; lia).
  assert (Hdw : U32.div cw T = cw / T).
  { unfold U32.div. rewrite !wrap_small by assumption. reflexivity. }
  assert (Hdh : U32.div ch T = ch / T).
  { unfold U32.div. rewrite !wrap_small by assumption. reflexivity. }
  rewrite Hdw, Hdh in Hgeo.
  set (k := if cw >? ch then ch / T else cw / T) in *.
  assert (Hk : k = Z.min (cw / T) (ch / T)).
  { subst k. destruct (Z.gtb_spec cw ch) as [Hgt | Hle].
    - rewrite Z.min_r; [reflexivity |]. apply Z.div_le_mono; lia.
    - rewrite Z.min_l; [reflexivity |]. apply Z.div_le_mono; lia. }
  assert (Hk0 : 0 <= k).
  { rewrite Hk. apply Z.min_glb; apply Z.div_pos; unfold U32.in_range in *; lia. }
  assert (Hfw : 0 <= T * k <= cw).
  { apply scaled_target_fits; [lia |]. split; [exact Hk0 |]. rewrite Hk. apply Z.le_min_l. }
  assert (Hfh : 0 <= T * k <= ch).
  { apply scaled_target_fits; [lia |]. split; [exact Hk0 |]. rewrite Hk. apply Z.le_min_r. }
  assert (Hmul : U32.mul T k = T * k).
  { unfold U32.mul. apply wrap_small. unfold U32.in_range in *. lia. }
  rewrite Hmul in Hgeo.
  assert (Hsw : U32.sub cw (T * k) = cw - T * k).
  { unfold U32.sub. apply wrap_small. unfold U32.in_range in *. lia. }
  assert (Hsh : U32.sub ch (T * k) = ch - T * k).
  { unfold U32.sub. apply wrap_small. unfold U32.in_range in *. lia. }
  rewrite Hsw, Hsh in Hgeo.
  injection Hgeo as Hscale Hwidth Hheight Hwoff Hhoff.
  rewrite Hscale, Hwidth, Hheight, Hwoff, Hhoff.
  split; [exact Hk |].
  split; [reflexivity |].
  split; [reflexivity |].
  split.
  - apply (half_margin_centered cw (T * k)). exact Hfw.
  - apply (half_margin_centered ch (T * k)). exact Hfh.
Qed.

Lemma shrink_geometry_square_target_witness :
  (HAL_OPTFLOW_ONBOARD_OUTPUT_WIDTH scenario_cfg = 64 /\
   HAL_OPTFLOW_ONBOARD_OUTPUT_HEIGHT scenario_cfg = 64 /\
   0 < 64 < U32.modulus /\
   U32.in_range (_camera_output_width scenario_driver) /\
   U32.in_range (_camera_output_height scenario_driver) /\
   _shrink_by_software scenario_driver = true /\
   run_optflow_setup scenario_cfg true true scenario_driver
   = Ok scenario_locals) /\
  (_camera_output_width scenario_driver = 320 /\
   _camera_output_height scenario_driver = 240) /\
  shrink_scale scenario_locals = 3 /\
  shrink_width scenario_locals = 192 /\
  shrink_height scenario_locals = 192 /\
  centered 320 192 64 /\
  centered 240 192 24.
Proof.
  assert (Hrange : 0 < 64 < U32.modulus) by (unfold U32.modulus; lia).
  assert (Hcw : U32.in_range (_camera_output_width scenario_driver))
    by (change (_camera_output_width scenario_driver) with 320;
        unfold U32.in_range, U32.modulus; lia).
  assert (Hch : U32.in_range (_camera_output_height scenario_driver))
    by (change (_camera_output_height scenario_driver) with 240;
        unfold U32.in_range, U32.modulus; lia).
  split.
  { repeat split; try reflexivity; try apply Hrange; try apply Hcw; apply Hch. }
  split.
  { split; reflexivity. }
  exact (shrink_geometry_square_target scenario_cfg true true scenario_driver
           scenario_locals 64 eq_refl eq_refl Hrange Hcw Hch eq_refl eq_refl).
Defined.

(** ** The format gate of [init] *)

Lemma format_supported_iff (format : Z) :
  format_supported format = true <-> In format supported_formats.
Proof.
  unfold format_supported, supported_formats. cbn [In]. split.
  - intros H.
    destruct (Z.eqb_spec format V4L2.PIX_FMT_NV12) as [Hn | Hn];
      [right; left; symmetry; exact Hn |].
    destruct (Z.eqb_spec format V4L2.PIX_FMT_GREY) as [Hg | Hg];
      [left; symmetry; exact Hg |].
    destruct (Z.eqb_spec format V4L2.PIX_FMT_YUYV) as [Hy | Hy];
      [right; right; left; symmetry; exact Hy |].
    discriminate H.
  - intros [H | [H | [H | []]]]; subst format; reflexivity.
Qed.

(** C8: once [set_format] has left a pixel format behind, [init] panics with
    "format not supported" for every format outside grey, NV12 (4:2:0) and
    YUYV (4:2:2); for each of these three it passes the gate, and completes
    when the later requests are granted. *)
Theorem init_format_gate (cfg : BoardConfig) (env : InitEnv)
    (s : OpticalFlow_Onboard) (format : Z) :
  negotiated_format cfg env s = Some format ->
  (~ In format supported_formats ->
   init cfg env s = Panic FormatNotSupported) /\
  (In format supported_formats ->
   init cfg env s <> Panic FormatNotSupported /\
   (later_requests_granted cfg env = true ->
    exists s', init cfg env s = Ok s' /\
               _initialized s' = true /\ _format s' = format)).
Proof.
  unfold negotiated_format, init, later_requests_granted.
  destruct (_initialized s); [discriminate |].
  destruct (HAL_OPTFLOW_ONBOARD_VDEV_PATH cfg) as [path |]; [| discriminate].
  destruct (open_device env path); [| discriminate].
  cbn [negb panic_if bind].
  destruct (init_board cfg env _) as [s1 | why]; [| discriminate].
  cbn [bind].
  destruct (videoin_set_format env (_width s1) (_height s1) (_format s1))
    as [[[[[w h] f] bpl] sz] |]; [| discriminate].
  intros Hneg. injection Hneg as ->.
  cbn [_format set_sizeimage set_bytesperline set_format].
  pose proof (format_supported_iff format) as Hiff.
  destruct (format_supported format).
  - split.
    + intros Hout. exfalso. apply Hout. apply Hiff. reflexivity.
    + intros _. cbn [negb panic_if bind].
      destruct (allocate_buffers env _); cbn [negb andb panic_if bind];
        [| split; [discriminate | discriminate]].
      destruct (pthread_mutex_init env =? 0); cbn [negb andb panic_if bind];
        [| split; [discriminate | discriminate]].
      destruct (pthread_attr_init env =? 0); cbn [negb andb panic_if bind];
        [| split; [discriminate | discriminate]].
      destruct (pthread_create env =? 0); cbn [negb andb panic_if bind];
        [| split; [discriminate | discriminate]].
      split; [discriminate |].
      intros _. eexists. split; [reflexivity |]. split; [reflexivity |].
      unfold init_crop, init_shrink.
      repeat match goal with
             | |- context [if ?c then _ else _] => destruct c
             end; reflexivity.
  - split.
    + intros _. reflexivity.
    + intros Hin. apply Hiff in Hin. discriminate Hin.
Qed.

Lemma init_format_gate_witness :
  (negotiated_format scenario_cfg
     (camera_env 320 240 V4L2.PIX_FMT_GREY true []) driver_at_construction
   = Some V4L2.PIX_FMT_GREY /\
   In V4L2.PIX_FMT_GREY supported_formats /\
   init scenario_cfg (camera_env 320 240 V4L2.PIX_FMT_GREY true [])
     driver_at_construction <> Panic FormatNotSupported) /\
  (negotiated_format scenario_cfg
     (camera_env 320 240 (V4L2.fourcc 77 74 80 71) true [])
     driver_at_construction
   = Some (V4L2.fourcc 77 74 80 71) /\
   ~ In (V4L2.fourcc 77 74 80 71) supported_formats /\
   init scenario_cfg (camera_env 320 240 (V4L2.fourcc 77 74 80 71) true [])
     driver_at_construction = Panic FormatNotSupported).
Proof.
  assert (Hin : In V4L2.PIX_FMT_GREY supported_formats) by (left; reflexivity).
  assert (Hout : ~ In (V4L2.fourcc 77 74 80 71) supported_formats).
  { intros [H | [H | [H | []]]]; discriminate H. }
  split.
  - split; [reflexivity |]. split; [exact Hin |].
    exact (proj1 (proj2 (init_format_gate scenario_cfg
                           (camera_env 320 240 V4L2.PIX_FMT_GREY true [])
                           driver_at_construction V4L2.PIX_FMT_GREY eq_refl)
                   Hin)).
  - split; [reflexivity |]. split; [exact Hout |].
    exact (proj1 (init_format_gate scenario_cfg
                    (camera_env 320 240 (V4L2.fourcc 77 74 80 71) true [])
                    driver_at_construction (V4L2.fourcc 77 74 80 71) eq_refl)
             Hout).
Defined.

(** ** The acquisition loop *)

Section Loop.
Variable cfg : BoardConfig.
Variable ops : Collaborators.
Variable loc : Locals.

(** A pass that finds no cached frame only caches the one it got. *)
Lemma warm_up_pass (s : OpticalFlow_Onboard) (frame : Frame) (rate : Vector3f) :
  _last_video_frame s = None ->
  loop_body cfg ops loc (mkIterInput (Some frame) rate) s =
  (EvGetFrame :: fst (convert_frame ops loc s (data frame)) ++
     fst (resize_frame cfg ops loc s
            (snd (convert_frame ops loc s (data frame)))),
   Ok (set_last_video_frame
         (Some (mkFrame (normalized cfg ops loc s (data frame))
                  (timestamp frame))) s)).
Proof.
  intros Hnone. unfold loop_body, normalized. cbn [next_frame gyro_answer].
  destruct (convert_frame ops loc s (data frame)) as [evc buf].
  cbn [fst snd].
  destruct (resize_frame cfg ops loc s buf) as [evr buf'].
  cbn [fst snd]. rewrite Hnone. reflexivity.
Qed.

(** A pass that finds a cached frame computes one flow and accumulates. *)
Lemma steady_pass (s : OpticalFlow_Onboard) (last frame : Frame)
    (rate : Vector3f) :
  _last_video_frame s = Some last ->
  let buffer := normalized cfg ops loc s (data frame) in
  let elapsed := U32.sub (timestamp frame) (timestamp last) in
  let flow := compute_flow ops (data last) buffer elapsed in
  loop_body cfg ops loc (mkIterInput (Some frame) rate) s =
  (EvGetFrame :: fst (convert_frame ops loc s (data frame)) ++
     fst (resize_frame cfg ops loc s
            (snd (convert_frame ops loc s (data frame)))) ++
     [EvGetGyro; EvComputeFlow (data last) buffer elapsed; EvAccumulate;
      EvPutFrame last],
   Ok (set_last_gyro_rate rate
         (set_last_video_frame (Some (mkFrame buffer (timestamp frame)))
            (accumulate cfg (fst (fst flow)) (snd (fst flow)) (snd flow)
               rate elapsed s)))).
Proof.
  intros Hlast. unfold loop_body, normalized. cbn [next_frame gyro_answer].
  destruct (convert_frame ops loc s (data frame)) as [evc buf].
  cbn [fst snd].
  destruct (resize_frame cfg ops loc s buf) as [evr buf'].
  cbn [fst snd]. rewrite Hlast. cbn [data timestamp].
  destruct (compute_flow ops (data last) buf'
              (U32.sub (timestamp frame) (timestamp last)))
    as [[qual fx] fy].
  reflexivity.
Qed.

Lemma convert_frame_quiet (s : OpticalFlow_Onboard) (buffer : image)
    (p : event -> bool) :
  p EvYuyvToGrey = false ->
  filter p (fst (convert_frame ops loc s buffer)) = [].
Proof.
  intros Hp. unfold convert_frame.
  destruct (_format s =? V4L2.PIX_FMT_YUYV); cbn [fst filter];
    [rewrite Hp |]; reflexivity.
Qed.

Lemma resize_frame_quiet (s : OpticalFlow_Onboard) (buffer : image)
    (p : event -> bool) :
  p EvShrink = false -> p EvCrop = false ->
  filter p (fst (resize_frame cfg ops loc s buffer)) = [].
Proof.
  intros Hs Hc. unfold resize_frame.
  destruct (_shrink_by_software s); cbn [fst filter]; [rewrite Hs; reflexivity |].
  destruct (_crop_by_software s); cbn [fst filter]; [rewrite Hc |]; reflexivity.
Qed.
End Loop.

(** C4: a pass that finds a cached frame adds the two flows, each divided by
    the focal-length constant, to the pixel-flow integrals; adds the elapsed
    time (this frame's timestamp minus the cached frame's) to the timespan;
    adds, per axis, the mean of the cached and the current rate times the
    elapsed time to the gyro integrals; stores the quality just computed and
    sets the dirty flag. *)
Theorem steady_pass_accumulates (cfg : BoardConfig) (ops : Collaborators)
    (loc : Locals) (s : OpticalFlow_Onboard) (last frame : Frame)
    (rate : Vector3f) :
  _last_video_frame s = Some last ->
  let elapsed := U32.sub (timestamp frame) (timestamp last) in
  let flow :=
    compute_flow ops (data last) (normalized cfg ops loc s (data frame))
      elapsed in
  exists s',
    snd (loop_body cfg ops loc (mkIterInput (Some frame) rate) s) = Ok s' /\
    _pixel_flow_x_integral s' =
      F32.add (_pixel_flow_x_integral s)
        (F32.div (snd (fst flow)) (HAL_FLOW_PX4_FOCAL_LENGTH_MILLIPX cfg)) /\
    _pixel_flow_y_integral s' =
      F32.add (_pixel_flow_y_integral s)
        (F32.div (snd flow) (HAL_FLOW_PX4_FOCAL_LENGTH_MILLIPX cfg)) /\
    _integration_timespan s' = U32.add (_integration_timespan s) elapsed /\
    _gyro_x_integral s' =
      F32.add (_gyro_x_integral s)
        (F32.mul
           (F32.div (F32.add (v3x rate) (v3x (_last_gyro_rate s))) F32.two)
           (F32.of_Z elapsed)) /\
    _gyro_y_integral s' =
      F32.add (_gyro_y_integral s)
        (F32.mul
           (F32.div (F32.add (v3y rate) (v3y (_last_gyro_rate s))) F32.two)
           (F32.of_Z elapsed)) /\
    _surface_quality s' = fst (fst flow) /\
    _data_available s' = true.
Proof.
  intros Hlast elapsed flow.
  rewrite (steady_pass cfg ops loc s last frame rate Hlast).
  cbn [snd]. eexists. split; [reflexivity |].
  repeat split; reflexivity.
Qed.

Lemma steady_pass_accumulates_witness :
  let s := set_last_video_frame (Some (mkFrame [1; 2] 100)) scenario_driver in
  _last_video_frame s = Some (mkFrame [1; 2] 100) /\
  exists s',
    snd (loop_body scenario_cfg example_ops scenario_locals
           (mkIterInput (Some (mkFrame [5; 2] 130))
              (mkVector3f (F32.of_Z 3) (F32.of_Z 2) (F32.of_Z 1))) s) = Ok s' /\
    _pixel_flow_x_integral s' = F32.of_Z 2 /\
    _integration_timespan s' = 30 /\
    _gyro_x_integral s' = F32.of_Z 45 /\
    _gyro_y_integral s' = F32.of_Z 30 /\
    _surface_quality s' = 30 /\
    _data_available s' = true.
Proof.
  intros s. split; [reflexivity |].
  destruct (steady_pass_accumulates scenario_cfg example_ops scenario_locals
              s (mkFrame [1; 2] 100) (mkFrame [5; 2] 130)
              (mkVector3f (F32.of_Z 3) (F32.of_Z 2) (F32.of_Z 1)) eq_refl)
    as [s' [Hrun [Hpx [_ [Hts [Hgx [Hgy [Hq Hd]]]]]]]].
  exists s'.
  split; [exact Hrun |]. split; [exact Hpx |]. split; [exact Hts |].
  split; [exact Hgx |]. split; [exact Hgy |]. split; [exact Hq | exact Hd].
Defined.



(** ** Gyro integration *)

(** Adding the float zero leaves every float but the negative zero as it
    is. *)
Lemma add_zero_r (r : F32.float) :
  r <> S754_zero true -> F32.add r F32.zero = r.
Proof.
  destruct r as [[|] | [|] | | sg m e]; intros H; try reflexivity.
  exfalso. apply H. reflexivity.
Qed.

(** From a zero integral, a trapezoidal term whose previous rate is zero
    leaves what half the current rate times the elapsed time leaves: the
    negative zero is the one rate the addition of zero changes, and both
    terms are then zeros, which a zero integral absorbs. *)
Lemma zero_rate_term (r d : F32.float) :
  F32.add F32.zero (F32.mul (F32.div (F32.add r F32.zero) F32.two) d) =
  F32.add F32.zero (F32.mul (F32.div r F32.two) d).
Proof.
  destruct r as [[|] | [|] | | sg m e]; try reflexivity.
  destruct d as [[|] | [|] | | [|] md ed]; reflexivity.
Qed.

(** C9: from a driver with no cached frame, zero cached rate and zero gyro
    integrals, the warm-up pass does not call the gyro callback and leaves
    the cached rate zero, whatever the callback would answer; the pass after
    it integrates with that zero as previous rate, so each gyro integral is
    half the current rate times the elapsed time; only at its end is the
    cached rate replaced by the current one. *)
Theorem first_gyro_term_uses_zero_rate (cfg : BoardConfig)
    (ops : Collaborators) (loc : Locals) (s : OpticalFlow_Onboard)
    (frame1 frame2 : Frame) (rate1 rate2 : Vector3f) :
  _last_video_frame s = None ->
  _last_gyro_rate s = Vector3f_zero ->
  _gyro_x_integral s = F32.zero ->
  _gyro_y_integral s = F32.zero ->
  let elapsed := U32.sub (timestamp frame2) (timestamp frame1) in
  exists tr1 s1 tr2 s2,
    loop_body cfg ops loc (mkIterInput (Some frame1) rate1) s = (tr1, Ok s1) /\
    count is_get_gyro tr1 = 0%nat /\
    _last_gyro_rate s1 = Vector3f_zero /\
    loop_body cfg ops loc (mkIterInput (Some frame2) rate2) s1 = (tr2, Ok s2) /\
    count is_get_gyro tr2 = 1%nat /\
    _gyro_x_integral s2 =
      F32.add F32.zero
        (trapezoid (v3x rate2) (v3x Vector3f_zero) elapsed) /\
    _gyro_y_integral s2 =
      F32.add F32.zero
        (trapezoid (v3y rate2) (v3y Vector3f_zero) elapsed) /\
    _gyro_x_integral s2 =
      F32.add F32.zero
        (F32.mul (F32.div (v3x rate2) F32.two) (F32.of_Z elapsed)) /\
    _gyro_y_integral s2 =
      F32.add F32.zero
        (F32.mul (F32.div (v3y rate2) F32.two) (F32.of_Z elapsed)) /\
    _last_gyro_rate s2 = rate2.
Proof.
  intros Hnone Hrate Hgx Hgy elapsed.
  pose proof (warm_up_pass cfg ops loc s frame1 rate1 Hnone) as H1.
  set (s1 := set_last_video_frame
               (Some (mkFrame (normalized cfg ops loc s (data frame1))
                        (timestamp frame1))) s) in *.
  assert (Hlast : _last_video_frame s1 =
                  Some (mkFrame (normalized cfg ops loc s (data frame1))
                          (timestamp frame1))) by reflexivity.
  pose proof (steady_pass cfg ops loc s1 _ frame2 rate2 Hlast) as H2.
  cbv zeta in H2. cbn [timestamp] in H2. fold elapsed in H2.
  assert (Hx : forall r, F32.add (_gyro_x_integral s)
                 (F32.mul (F32.div (F32.add r (v3x (_last_gyro_rate s))) F32.two)
                    (F32.of_Z elapsed)) =
               F32.add F32.zero (trapezoid r (v3x Vector3f_zero) elapsed)).
  { intros r. rewrite Hgx, Hrate. reflexivity. }
  assert (Hy : forall r, F32.add (_gyro_y_integral s)
                 (F32.mul (F32.div (F32.add r (v3y (_last_gyro_rate s))) F32.two)
                    (F32.of_Z elapsed)) =
               F32.add F32.zero (trapezoid r (v3y Vector3f_zero) elapsed)).
  { intros r. rewrite Hgy, Hrate. reflexivity. }
  do 4 eexists.
  split; [exact H1 |].
  split.
  { unfold count. cbn [filter is_get_gyro]. rewrite filter_app.
    rewrite convert_frame_quiet, resize_frame_quiet by reflexivity.
    reflexivity. }
  split; [exact Hrate |].
  split; [exact H2 |].
  split.
  { unfold count. cbn [filter is_get_gyro]. rewrite !filter_app.
    rewrite convert_frame_quiet, resize_frame_quiet by reflexivity.
    reflexivity. }
  split; [apply (Hx (v3x rate2)) |].
  split; [apply (Hy (v3y rate2)) |].
  split.
  { rewrite <- zero_rate_term. apply (Hx (v3x rate2)). }
  split.
  { rewrite <- zero_rate_term. apply (Hy (v3y rate2)). }
  reflexivity.
Qed.

Lemma first_gyro_term_uses_zero_rate_witness :
  (_last_video_frame scenario_driver = None /\
   _last_gyro_rate scenario_driver = Vector3f_zero /\
   _gyro_x_integral scenario_driver = F32.zero /\
   _gyro_y_integral scenario_driver = F32.zero) /\
  exists tr1 s1 tr2 s2,
    loop_body scenario_cfg example_ops scenario_locals
      (mkIterInput (Some (mkFrame [1; 2] 100))
         (mkVector3f (F32.of_Z 7) (F32.of_Z 7) (F32.of_Z 7))) scenario_driver
    = (tr1, Ok s1) /\
    count is_get_gyro tr1 = 0%nat /\
    _last_gyro_rate s1 = Vector3f_zero /\
    loop_body scenario_cfg example_ops scenario_locals
      (mkIterInput (Some (mkFrame [5; 2] 130))
         (mkVector3f (F32.of_Z 3) (F32.of_Z 2) (F32.of_Z 1))) s1
    = (tr2, Ok s2) /\
    _gyro_x_integral s2 = F32.of_Z 45 /\
    _gyro_y_integral s2 = F32.of_Z 30 /\
    _last_gyro_rate s2 = mkVector3f (F32.of_Z 3) (F32.of_Z 2) (F32.of_Z 1).
Proof.
  split; [repeat split; reflexivity |].
  destruct (first_gyro_term_uses_zero_rate scenario_cfg example_ops
              scenario_locals scenario_driver
              (mkFrame [1; 2] 100) (mkFrame [5; 2] 130)
              (mkVector3f (F32.of_Z 7) (F32.of_Z 7) (F32.of_Z 7))
              (mkVector3f (F32.of_Z 3) (F32.of_Z 2) (F32.of_Z 1))
              eq_refl eq_refl eq_refl eq_refl)
    as [tr1 [s1 [tr2 [s2 [H1 [H2 [H3 [H4 [_ [_ [_ [H8 [H9 H10]]]]]]]]]]]]].
  exists tr1, s1, tr2, s2.
  split; [exact H1 |]. split; [exact H2 |]. split; [exact H3 |].
  split; [exact H4 |]. split; [exact H8 |]. split; [exact H9 | exact H10].
Defined.

(** ** Additivity between drains *)

Lemma fold_u32_add_in_range (l : list Z) (a : Z) :
  U32.in_range a -> U32.in_range (fold_left U32.add l a).
Proof.
  revert a. induction l as [| x l IH]; intros a Ha; cbn [fold_left].
  - exact Ha.
  - apply IH. unfold U32.in_range, U32.add, U32.wrap.
    apply Z.mod_pos_bound. reflexivity.
Qed.

Lemma fold_u32_add_wrap (l : list Z) (a : Z) :
  U32.wrap (fold_left U32.add l a) = U32.wrap (a + sum_Z l).
Proof.
  revert a. induction l as [| x l IH]; intros a; cbn [fold_left sum_Z fold_right].
  - rewrite Z.add_0_r. reflexivity.
  - rewrite IH. unfold U32.add, U32.wrap.
    rewrite Zplus_mod_idemp_l. f_equal. fold (sum_Z l). lia.
Qed.

(** The 32-bit sum is the integer sum reduced modulo 2^32. *)
Lemma sum_u32_wrap (l : list Z) : sum_u32 l = U32.wrap (sum_Z l).
Proof.
  unfold sum_u32.
  rewrite <- (wrap_small (fold_left U32.add l 0)).
  - rewrite fold_u32_add_wrap. reflexivity.
  - apply fold_u32_add_in_range. unfold U32.in_range, U32.modulus. lia.
Qed.

Section Additivity.
Variable cfg : BoardConfig.
Variable ops : Collaborators.
Variable loc : Locals.

(** A run of delivered frames from a driver with a cached frame never
    panics, and each accumulator ends as the left-to-right sum of the
    per-pass terms on top of what it held. *)
Lemma run_delivered_accumulates (steps : list (Frame * Vector3f)) :
  forall (s : OpticalFlow_Onboard) (last : Frame),
    _last_video_frame s = Some last ->
    exists tr s',
      run_frames cfg ops loc (delivered steps) s = (tr, Ok s') /\
      _integration_timespan s' =
        fold_left U32.add (elapsed_times (timestamp last) steps)
          (_integration_timespan s) /\
      _gyro_x_integral s' =
        F32.sum_from (_gyro_x_integral s)
          (trapezoid_terms v3x (_last_gyro_rate s) (timestamp last) steps) /\
      _gyro_y_integral s' =
        F32.sum_from (_gyro_y_integral s)
          (trapezoid_terms v3y (_last_gyro_rate s) (timestamp last) steps) /\
      (_data_available s = true \/ steps <> [] -> _data_available s' = true).
Proof.
  induction steps as [| [frame rate] rest IH]; intros s last Hlast.
  - exists [], s. cbn. repeat split; try reflexivity.
    intros [H | H]; [exact H | contradiction].
  - cbn [delivered map fst snd run_frames].
    rewrite (steady_pass cfg ops loc s last frame rate Hlast).
    set (buffer := normalized cfg ops loc s (data frame)).
    set (elapsed := U32.sub (timestamp frame) (timestamp last)).
    set (flow := compute_flow ops (data last) buffer elapsed).
    set (s1 := set_last_gyro_rate rate
                 (set_last_video_frame
                    (Some (mkFrame buffer (timestamp frame)))
                    (accumulate cfg (fst (fst flow)) (snd (fst flow))
                       (snd flow) rate elapsed s))).
    destruct (IH s1 (mkFrame buffer (timestamp frame)) eq_refl)
      as [tr [s' [Hrun [Hts [Hgx [Hgy Hdirty]]]]]].
    fold (delivered rest). rewrite Hrun.
    eexists. exists s'. split; [reflexivity |].
    cbn [elapsed_times trapezoid_terms fold_left F32.sum_from timestamp].
    split; [exact Hts |].
    split; [exact Hgx |].
    split; [exact Hgy |].
    intros _. apply Hdirty. left. reflexivity.
Qed.

(** C5, amended: for every N >= 1, after N passes on delivered frames from a
    driver with a cached frame and zeroed timespan and gyro integrals, and
    with no drain in between, one [read] succeeds and its sample has as
    delta_time the sum of the N elapsed times modulo 2^32 (the timespan is a
    32-bit accumulator; the sum is the integer sum itself whenever that is
    below 2^32) and as gyro integrals the sums of the N trapezoidal terms,
    added left to right from zero. *)
Theorem accumulation_additive (steps : list (Frame * Vector3f))
    (s : OpticalFlow_Onboard) (last : Frame) (out : Data_Frame) (N : nat) :
  length steps = N -> (1 <= N)%nat ->
  _last_video_frame s = Some last ->
  _integration_timespan s = 0 ->
  _gyro_x_integral s = F32.zero ->
  _gyro_y_integral s = F32.zero ->
  let elapsed := elapsed_times (timestamp last) steps in
  exists tr s',
    run_frames cfg ops loc (delivered steps) s = (tr, Ok s') /\
    fst (fst (read out s')) = true /\
    length elapsed = N /\
    delta_time (snd (fst (read out s'))) = sum_u32 elapsed /\
    delta_time (snd (fst (read out s'))) = U32.wrap (sum_Z elapsed) /\
    (sum_Z elapsed < U32.modulus ->
     delta_time (snd (fst (read out s'))) = sum_Z elapsed) /\
    gyro_x_integral (snd (fst (read out s'))) =
      F32.sum_from F32.zero
        (trapezoid_terms v3x (_last_gyro_rate s) (timestamp last) steps) /\
    gyro_y_integral (snd (fst (read out s'))) =
      F32.sum_from F32.zero
        (trapezoid_terms v3y (_last_gyro_rate s) (timestamp last) steps).
Proof.
  intros Hlen HN Hlast Hts0 Hgx0 Hgy0 elapsed.
  destruct (run_delivered_accumulates steps s last Hlast)
    as [tr [s' [Hrun [Hts [Hgx [Hgy Hdirty]]]]]].
  assert (Hd : _data_available s' = true).
  { apply Hdirty. right. intros ->. cbn in Hlen. lia. }
  rewrite Hts0 in Hts. rewrite Hgx0 in Hgx. rewrite Hgy0 in Hgy.
  fold elapsed in Hts. fold (sum_u32 elapsed) in Hts.
  assert (Hread : read out s' =
                  (true,
                   {| pixel_flow_x_integral := _pixel_flow_x_integral s';
                      pixel_flow_y_integral := _pixel_flow_y_integral s';
                      gyro_x_integral := _gyro_x_integral s';
                      gyro_y_integral := _gyro_y_integral s';
                      delta_time := _integration_timespan s';
                      quality := _surface_quality s' |},
                   snd (read out s'))).
  { unfold read. rewrite Hd. reflexivity. }
  exists tr, s'. split; [exact Hrun |].
  rewrite Hread. cbn [fst snd delta_time gyro_x_integral gyro_y_integral].
  split; [reflexivity |].
  split.
  { subst elapsed. rewrite <- Hlen. clear.
    generalize (timestamp last). induction steps as [| [f r] rest IH];
      intros t; cbn [elapsed_times length]; [reflexivity |].
    rewrite IH. reflexivity. }
  split; [exact Hts |].
  split; [rewrite Hts; apply sum_u32_wrap |].
  split.
  { intros Hsmall. rewrite Hts, sum_u32_wrap. apply wrap_small.
    split; [| exact Hsmall].
    subst elapsed. clear. generalize (timestamp last).
    induction steps as [| [f r] rest IH]; intros t;
      cbn [elapsed_times sum_Z fold_right]; [lia |].
    specialize (IH (timestamp f)). unfold sum_Z in IH.
    pose proof (Z.mod_pos_bound (timestamp f - t) U32.modulus eq_refl) as Hb.
    unfold U32.sub, U32.wrap. lia. }
  split; [exact Hgx | exact Hgy].
Qed.
End Additivity.

Lemma accumulation_additive_witness :
  let s := set_last_video_frame (Some (mkFrame [1; 2] 100)) scenario_driver in
  let steps :=
    [(mkFrame [5; 2] 130, mkVector3f (F32.of_Z 3) (F32.of_Z 2) (F32.of_Z 1));
     (mkFrame [9; 2] 170, mkVector3f (F32.of_Z 5) (F32.of_Z 4) (F32.of_Z 1))] in
  let out := mkDataFrame F32.zero F32.zero F32.zero F32.zero 0 0 in
  (length steps = 2%nat /\ (1 <= 2)%nat /\
   _last_video_frame s = Some (mkFrame [1; 2] 100) /\
   _integration_timespan s = 0 /\
   _gyro_x_integral s = F32.zero /\
   _gyro_y_integral s = F32.zero) /\
  exists tr s',
    run_frames scenario_cfg example_ops scenario_locals (delivered steps) s
    = (tr, Ok s') /\
    fst (fst (read out s')) = true /\
    delta_time (snd (fst (read out s'))) = 30 + 40 /\
    gyro_x_integral (snd (fst (read out s'))) = F32.of_Z (45 + 160) /\
    gyro_y_integral (snd (fst (read out s'))) = F32.of_Z (30 + 120).
Proof.
  intros s steps out.
  assert (HN : (1 <= 2)%nat) by lia.
  split; [repeat split; try reflexivity; exact HN |].
  destruct (accumulation_additive scenario_cfg example_ops scenario_locals
              steps s (mkFrame [1; 2] 100) out 2 eq_refl HN
              eq_refl eq_refl eq_refl eq_refl)
    as [tr [s' [Hrun [Hret [_ [Hdt [_ [_ [Hgx Hgy]]]]]]]]].
  exists tr, s'.
  split; [exact Hrun |]. split; [exact Hret |]. split; [exact Hdt |].
  split; [exact Hgx | exact Hgy].
Defined.

(** The timespan is a 32-bit accumulator: two passes of 2^31 microseconds
    each drain as a delta_time of zero. *)
Example timespan_wraps :
  let s := set_last_video_frame (Some (mkFrame [] 0)) driver_at_construction in
  let steps := [(mkFrame [] (2 ^ 31), Vector3f_zero); (mkFrame [] 0, Vector3f_zero)] in
  elapsed_times 0 steps = [2 ^ 31; 2 ^ 31] /\
  match run_frames scenario_cfg example_ops scenario_locals (delivered steps) s with
  | (_, Ok s') =>
      delta_time (snd (fst (read (mkDataFrame F32.zero F32.zero F32.zero
                                    F32.zero 0 0) s'))) = 0
  | (_, Panic _) => False
  end.
Proof. split; reflexivity. Qed.

(** The claim of C5 fails as stated: after two passes of 2^31 microseconds
    each from a driver with a cached frame and a zeroed integrator, [read]
    succeeds with a delta_time of zero, while the two elapsed times add up
    to 2^32. *)
Lemma delta_time_is_not_the_plain_sum :
  let s := set_last_video_frame (Some (mkFrame [] 0)) driver_at_construction in
  let steps :=
    [(mkFrame [] (2 ^ 31), Vector3f_zero); (mkFrame [] 0, Vector3f_zero)] in
  let out := mkDataFrame F32.zero F32.zero F32.zero F32.zero 0 0 in
  exists tr s',
    run_frames scenario_cfg example_ops scenario_locals (delivered steps) s
    = (tr, Ok s') /\
    _integration_timespan s = 0 /\
    fst (fst (read out s')) = true /\
    sum_Z (elapsed_times 0 steps) = 2 ^ 32 /\
    delta_time (snd (fst (read out s'))) = 0 /\
    delta_time (snd (fst (read out s'))) <> sum_Z (elapsed_times 0 steps).
Proof.
  intros s steps out.
  set (r := run_frames scenario_cfg example_ops scenario_locals
              (delivered steps) s).
  set (s' := match snd r with Ok s1 => s1 | Panic _ => s end).
  exists (fst r), s'.
  split; [vm_compute; reflexivity |].
  split; [reflexivity |].
  split; [vm_compute; reflexivity |].
  split; [vm_compute; reflexivity |].
  split; [vm_compute; reflexivity |].
  vm_compute. discriminate.
Qed.

(** * Further properties of the driver *)

(** ** [init] *)

(** The driver a first [init] returns, in terms of what [set_format] left
    behind. *)
Lemma init_ok_inv (cfg : BoardConfig) (env : InitEnv)
    (s s' : OpticalFlow_Onboard) :
  _initialized s = false ->
  init cfg env s = Ok s' ->
  exists w h f bpl sz,
    negotiated cfg env s = Some (w, h, f, bpl, sz) /\
    format_supported f = true /\
    later_requests_granted cfg env = true /\
    s' = set_initialized true
           (init_crop cfg env
              (U32.wrap (Z.quot (HAL_OPTFLOW_ONBOARD_SENSOR_WIDTH cfg -
                                 HAL_OPTFLOW_ONBOARD_SENSOR_HEIGHT cfg) 2))
              0
              (U32.wrap (HAL_OPTFLOW_ONBOARD_CROP_WIDTH cfg))
              (U32.wrap (HAL_OPTFLOW_ONBOARD_CROP_HEIGHT cfg))
              (init_shrink cfg
                 (set_sizeimage sz
                    (set_bytesperline bpl
                       (set_format f (set_height h (set_width w s))))))).
Proof.
  intros Hinit. unfold init, negotiated, later_requests_granted.
  rewrite Hinit.
  destruct (HAL_OPTFLOW_ONBOARD_VDEV_PATH cfg) as [path |];
    [| cbn [panic_if bind]; discriminate].
  destruct (open_device env path); cbn [negb panic_if bind]; [| discriminate].
  assert (Hrest : forall s1 : OpticalFlow_Onboard,
             set_format (_format s1) (set_height (_height s1)
               (set_width (_width s1) s)) = s1 ->
             (match videoin_set_format env (_width s1) (_height s1) (_format s1) with
              | Some (width, height, format, bytesperline, sizeimage) =>
                  let s2 := set_width width s1 in
                  let s2 := set_height height s2 in
                  let s2 := set_format format s2 in
                  let s2 := set_bytesperline bytesperline s2 in
                  let s2 := set_sizeimage sizeimage s2 in
                  _ <- panic_if (negb (format_supported (_format s2)))
                         FormatNotSupported ;;
                  let s2 := init_shrink cfg s2 in
                  let s2 := init_crop cfg env
                              (U32.wrap (Z.quot (HAL_OPTFLOW_ONBOARD_SENSOR_WIDTH cfg -
                                                 HAL_OPTFLOW_ONBOARD_SENSOR_HEIGHT cfg) 2))
                              0
                              (U32.wrap (HAL_OPTFLOW_ONBOARD_CROP_WIDTH cfg))
                              (U32.wrap (HAL_OPTFLOW_ONBOARD_CROP_HEIGHT cfg)) s2 in
                  _ <- panic_if (negb (allocate_buffers env
                                         (U32.wrap (HAL_OPTFLOW_ONBOARD_NBUFS cfg))))
                         CouldntAllocateVideoBuffers ;;
                  _ <- panic_if (negb (pthread_mutex_init env =? 0))
                         FailedToInitMutex ;;
                  _ <- panic_if (negb (pthread_attr_init env =? 0))
                         FailedToInitAttr ;;
                  _ <- panic_if (negb (pthread_create env =? 0))
                         FailedToCreateThread ;;
                  Ok (set_initialized true s2)
              | None => Panic CouldntSetVideoFormat
              end = Ok s' ->
              exists w h f bpl sz,
                videoin_set_format env (_width s1) (_height s1) (_format s1)
                = Some (w, h, f, bpl, sz) /\
                format_supported f = true /\
                allocate_buffers env (U32.wrap (HAL_OPTFLOW_ONBOARD_NBUFS cfg)) &&
                (pthread_mutex_init env =? 0) && (pthread_attr_init env =? 0) &&
                (pthread_create env =? 0) = true /\
                s' = set_initialized true
                       (init_crop cfg env
                          (U32.wrap (Z.quot (HAL_OPTFLOW_ONBOARD_SENSOR_WIDTH cfg -
                                             HAL_OPTFLOW_ONBOARD_SENSOR_HEIGHT cfg) 2))
                          0
                          (U32.wrap (HAL_OPTFLOW_ONBOARD_CROP_WIDTH cfg))
                          (U32.wrap (HAL_OPTFLOW_ONBOARD_CROP_HEIGHT cfg))
                          (init_shrink cfg
                             (set_sizeimage sz
                                (set_bytesperline bpl
                                   (set_format f (set_height h (set_width w s))))))))).
  { intros s1 Hs1.
    destruct (videoin_set_format env (_width s1) (_height s1) (_format s1))
      as [[[[[w h] f] bpl] sz] |]; [| discriminate].
    cbv zeta. cbn [_format set_sizeimage set_bytesperline set_format].
    destruct (format_supported f) eqn:Hf; cbn [negb panic_if bind];
      [| discriminate].
    destruct (allocate_buffers env _) eqn:Ha; cbn [negb andb panic_if bind];
      [| discriminate].
    destruct (pthread_mutex_init env =? 0) eqn:Hm; cbn [negb andb panic_if bind];
      [| discriminate].
    destruct (pthread_attr_init env =? 0) eqn:Hat; cbn [negb andb panic_if bind];
      [| discriminate].
    destruct (pthread_create env =? 0) eqn:Hc; cbn [negb andb panic_if bind];
      [| discriminate].
    intros H; injection H as <-.
    exists w, h, f, bpl, sz.
    split; [reflexivity |]. split; [exact Hf |]. split; [reflexivity |].
    rewrite <- Hs1. reflexivity. }
  destruct (init_board cfg env _) as [s1 | why] eqn:Hboard;
    cbn [bind]; [| discriminate].
  apply Hrest.
  unfold init_board in Hboard.
  destruct (CONFIG_HAL_BOARD_SUBTYPE cfg).
  - destruct (camerasensor_set_format env _ _); cbn [negb panic_if bind] in Hboard;
      [| discriminate].
    injection Hboard as <-. reflexivity.
  - injection Hboard as <-. reflexivity.
  - injection Hboard as <-. reflexivity.
Qed.

Lemma init_ok_intro (cfg : BoardConfig) (env : InitEnv)
    (s : OpticalFlow_Onboard) (w h f bpl sz : Z) :
  negotiated cfg env s = Some (w, h, f, bpl, sz) ->
  format_supported f = true ->
  later_requests_granted cfg env = true ->
  exists s', init cfg env s = Ok s'.
Proof.
  unfold init, negotiated, later_requests_granted.
  destruct (_initialized s); [discriminate |].
  destruct (HAL_OPTFLOW_ONBOARD_VDEV_PATH cfg) as [path |]; [| discriminate].
  destruct (open_device env path); [| discriminate].
  cbn [negb panic_if bind].
  destruct (init_board cfg env _) as [s1 | why]; [| discriminate].
  cbn [bind]. intros ->.
  cbn [_format set_sizeimage set_bytesperline set_format].
  intros ->. cbn [negb panic_if bind].
  intros Hlater.
  apply andb_prop in Hlater. destruct Hlater as [Hlater ->].
  apply andb_prop in Hlater. destruct Hlater as [Hlater ->].
  apply andb_prop in Hlater. destruct Hlater as [-> ->].
  cbn [negb panic_if bind]. eexists. reflexivity.
Qed.

(** X1: a driver [init] has returned is initialized, and every further
    [init] returns it as it is, whatever the build and the device. *)
Theorem init_once (cfg : BoardConfig) (env : InitEnv)
    (s s' : OpticalFlow_Onboard) :
  init cfg env s = Ok s' ->
  _initialized s' = true /\
  forall (cfg' : BoardConfig) (env' : InitEnv), init cfg' env' s' = Ok s'.
Proof.
  intros Hinit.
  assert (Hdone : _initialized s' = true).
  { destruct (_initialized s) eqn:Hs.
    - unfold init in Hinit. rewrite Hs in Hinit. injection Hinit as <-. exact Hs.
    - destruct (init_ok_inv cfg env s s' Hs Hinit)
        as [w [h [f [bpl [sz [_ [_ [_ ->]]]]]]]].
      reflexivity. }
  split; [exact Hdone |].
  intros cfg' env'. unfold init. rewrite Hdone. reflexivity.
Qed.

Lemma init_once_witness :
  init scenario_cfg (camera_env 320 240 V4L2.PIX_FMT_GREY true [])
    driver_at_construction = Ok scenario_driver /\
  _initialized scenario_driver = true /\
  init minlure_cfg (camera_env 640 480 V4L2.PIX_FMT_YUYV false [])
    scenario_driver = Ok scenario_driver.
Proof.
  split; [reflexivity |].
  destruct (init_once scenario_cfg
              (camera_env 320 240 V4L2.PIX_FMT_GREY true [])
              driver_at_construction scenario_driver eq_refl) as [Hdone Hagain].
  split; [exact Hdone |].
  exact (Hagain minlure_cfg (camera_env 640 480 V4L2.PIX_FMT_YUYV false [])).
Defined.

(** X2: after a first [init] the width and the height of the driver are the
    target width and height, whatever geometry the device negotiated and
    whichever strategy was chosen. *)
Theorem init_target_geometry (cfg : BoardConfig) (env : InitEnv)
    (s s' : OpticalFlow_Onboard) :
  _initialized s = false ->
  init cfg env s = Ok s' ->
  _width s' = U32.wrap (HAL_OPTFLOW_ONBOARD_OUTPUT_WIDTH cfg) /\
  _height s' = U32.wrap (HAL_OPTFLOW_ONBOARD_OUTPUT_HEIGHT cfg).
Proof.
  intros Hs Hinit.
  destruct (init_ok_inv cfg env s s' Hs Hinit)
    as [w [h [f [bpl [sz [_ [_ [_ ->]]]]]]]].
  unfold init_crop, init_shrink.
  cbn [_width _height set_sizeimage set_bytesperline set_format set_height
       set_width].
  destruct (Z.eqb_spec w (U32.wrap (HAL_OPTFLOW_ONBOARD_OUTPUT_WIDTH cfg)))
    as [Hw | Hw];
  destruct (Z.eqb_spec h (U32.wrap (HAL_OPTFLOW_ONBOARD_OUTPUT_HEIGHT cfg)))
    as [Hh | Hh];
  cbn [andb]; destruct (set_crop env _ _ _ _); cbn; auto.
Qed.

Lemma init_target_geometry_witness :
  _initialized driver_at_construction = false /\
  init minlure_cfg
    (camera_env 320 240 V4L2.PIX_FMT_YUYV false [V4L2.PIX_FMT_YUYV])
    driver_at_construction
  = Ok (set_crop_by_software true
          (set_bytesperline 64 (set_sizeimage 76800
             (set_format V4L2.PIX_FMT_YUYV scenario_driver)))) /\
  _width (set_crop_by_software true
            (set_bytesperline 64 (set_sizeimage 76800
               (set_format V4L2.PIX_FMT_YUYV scenario_driver)))) = 64 /\
  _height (set_crop_by_software true
             (set_bytesperline 64 (set_sizeimage 76800
                (set_format V4L2.PIX_FMT_YUYV scenario_driver)))) = 64.
Proof.
  split; [reflexivity |]. split; [reflexivity |].
  exact (init_target_geometry minlure_cfg
           (camera_env 320 240 V4L2.PIX_FMT_YUYV false [V4L2.PIX_FMT_YUYV])
           driver_at_construction _ eq_refl eq_refl).
Defined.

(** X3: what a first [init] records about the strategy.  The shrink flag is
    set exactly when the negotiated geometry differs from the target, the
    crop flag exactly when the device refuses the crop window; when either
    flag is set the camera output geometry is the negotiated one and a line
    has the target width, otherwise the line size is the device's; format
    and image size are the negotiated ones. *)
Theorem init_records_strategy (cfg : BoardConfig) (env : InitEnv)
    (s s' : OpticalFlow_Onboard) (w h f bpl sz : Z) :
  negotiated cfg env s = Some (w, h, f, bpl, sz) ->
  init cfg env s = Ok s' ->
  let '(win_left, win_top, win_width, win_height) := requested_crop cfg in
  _shrink_by_software s' =
    negb ((w =? U32.wrap (HAL_OPTFLOW_ONBOARD_OUTPUT_WIDTH cfg)) &&
          (h =? U32.wrap (HAL_OPTFLOW_ONBOARD_OUTPUT_HEIGHT cfg))) /\
  _crop_by_software s' =
    negb (set_crop env win_left win_top win_width win_height) /\
  (_shrink_by_software s' || _crop_by_software s' = true ->
   _camera_output_width s' = w /\ _camera_output_height s' = h) /\
  _bytesperline s' =
    (if _shrink_by_software s' || _crop_by_software s'
     then U32.wrap (HAL_OPTFLOW_ONBOARD_OUTPUT_WIDTH cfg) else bpl) /\
  _format s' = f /\ _sizeimage s' = sz.
Proof.
  intros Hneg Hinit.
  assert (Hs : _initialized s = false).
  { unfold negotiated in Hneg. destruct (_initialized s); [discriminate | reflexivity]. }
  destruct (init_ok_inv cfg env s s' Hs Hinit)
    as [w' [h' [f' [bpl' [sz' [Hneg' [_ [_ ->]]]]]]]].
  rewrite Hneg in Hneg'. injection Hneg' as <- <- <- <- <-.
  unfold requested_crop, init_crop, init_shrink.
  cbn [_width _height set_sizeimage set_bytesperline set_format set_height
       set_width].
  destruct (Z.eqb_spec w (U32.wrap (HAL_OPTFLOW_ONBOARD_OUTPUT_WIDTH cfg)))
    as [Hw | Hw];
  destruct (Z.eqb_spec h (U32.wrap (HAL_OPTFLOW_ONBOARD_OUTPUT_HEIGHT cfg)))
    as [Hh | Hh];
  cbn [andb negb]; destruct (set_crop env _ _ _ _); cbn;
  repeat split; auto; discriminate.
Qed.

Lemma init_records_strategy_witness :
  let env := camera_env 320 240 V4L2.PIX_FMT_YUYV false [V4L2.PIX_FMT_YUYV] in
  negotiated minlure_cfg env driver_at_construction
  = Some (320, 240, V4L2.PIX_FMT_YUYV, 320, 76800) /\
  exists s',
    init minlure_cfg env driver_at_construction = Ok s' /\
    _shrink_by_software s' = true /\ _crop_by_software s' = true /\
    _camera_output_width s' = 320 /\ _camera_output_height s' = 240 /\
    _bytesperline s' = 64 /\ _format s' = V4L2.PIX_FMT_YUYV.
Proof.
  intros env. split; [reflexivity |].
  destruct (init_ok_intro minlure_cfg env driver_at_construction
              320 240 V4L2.PIX_FMT_YUYV 320 76800 eq_refl eq_refl eq_refl)
    as [s' Hinit].
  exists s'. split; [exact Hinit |].
  pose proof (init_records_strategy minlure_cfg env driver_at_construction s'
                320 240 V4L2.PIX_FMT_YUYV 320 76800 eq_refl Hinit) as H.
  cbv beta iota zeta delta [requested_crop] in H.
  destruct H as [Hshrink [Hcrop [Hcam [Hbpl [Hfmt _]]]]].
  assert (Hs : _shrink_by_software s' = true) by exact Hshrink.
  assert (Hc : _crop_by_software s' = true) by exact Hcrop.
  rewrite Hs, Hc in Hbpl. rewrite Hs in Hcam.
  destruct (Hcam eq_refl) as [Hcw Hch].
  repeat split; assumption.
Defined.

(** X4: [init] leaves the flow integrator, the cached frame and the cached
    rate as they are. *)
Theorem init_keeps_integrator_and_cache (cfg : BoardConfig) (env : InitEnv)
    (s s' : OpticalFlow_Onboard) :
  init cfg env s = Ok s' ->
  integrator s' = integrator s /\
  _last_video_frame s' = _last_video_frame s /\
  _last_gyro_rate s' = _last_gyro_rate s.
Proof.
  intros Hinit. destruct (_initialized s) eqn:Hs.
  - unfold init in Hinit. rewrite Hs in Hinit. injection Hinit as <-.
    repeat split; reflexivity.
  - destruct (init_ok_inv cfg env s s' Hs Hinit)
      as [w [h [f [bpl [sz [_ [_ [_ ->]]]]]]]].
    unfold init_crop, init_shrink.
    repeat match goal with
           | |- context [if ?c then _ else _] => destruct c
           end; repeat split; reflexivity.
Qed.

Lemma init_keeps_integrator_and_cache_witness :
  let s := set_last_gyro_rate (mkVector3f F32.two F32.two F32.two)
             (set_gyro_x_integral F32.two driver_at_construction) in
  let env := camera_env 320 240 V4L2.PIX_FMT_GREY true [] in
  exists s',
    init scenario_cfg env s = Ok s' /\
    _gyro_x_integral s' = F32.two /\
    _last_gyro_rate s' = mkVector3f F32.two F32.two F32.two.
Proof.
  intros s env.
  destruct (init_ok_intro scenario_cfg env s 320 240 V4L2.PIX_FMT_GREY 320 76800
              eq_refl eq_refl eq_refl) as [s' Hinit].
  exists s'. split; [exact Hinit |].
  destruct (init_keeps_integrator_and_cache scenario_cfg env s s' Hinit)
    as [Hint [_ Hrate]].
  split; [| exact Hrate].
  unfold integrator in Hint. injection Hint as _ _ Hgx _ _ _ _. exact Hgx.
Defined.

(** X5: a first [init] succeeds exactly when the device opens and negotiates
    one of the three supported formats and the buffers, the mutex, the
    thread attributes and the thread are all granted. *)
Theorem init_succeeds_iff (cfg : BoardConfig) (env : InitEnv)
    (s : OpticalFlow_Onboard) :
  _initialized s = false ->
  ((exists s', init cfg env s = Ok s') <->
   (exists w h f bpl sz,
      negotiated cfg env s = Some (w, h, f, bpl, sz) /\
      In f supported_formats /\
      later_requests_granted cfg env = true)).
Proof.
  intros Hs. split.
  - intros [s' Hinit].
    destruct (init_ok_inv cfg env s s' Hs Hinit)
      as [w [h [f [bpl [sz [Hneg [Hf [Hlater _]]]]]]]].
    exists w, h, f, bpl, sz. split; [exact Hneg |].
    split; [apply format_supported_iff; exact Hf | exact Hlater].
  - intros [w [h [f [bpl [sz [Hneg [Hf Hlater]]]]]]].
    apply (init_ok_intro cfg env s w h f bpl sz Hneg); [| exact Hlater].
    apply format_supported_iff. exact Hf.
Qed.

Lemma init_succeeds_iff_witness :
  _initialized driver_at_construction = false /\
  (exists s', init scenario_cfg (camera_env 320 240 V4L2.PIX_FMT_GREY true [])
                driver_at_construction = Ok s') /\
  ~ (exists w h f bpl sz,
       negotiated scenario_cfg
         (camera_env 320 240 (V4L2.fourcc 77 74 80 71) true [])
         driver_at_construction = Some (w, h, f, bpl, sz) /\
       In f supported_formats /\
       later_requests_granted scenario_cfg
         (camera_env 320 240 (V4L2.fourcc 77 74 80 71) true []) = true).
Proof.
  split; [reflexivity |]. split.
  - apply (proj2 (init_succeeds_iff scenario_cfg
                    (camera_env 320 240 V4L2.PIX_FMT_GREY true [])
                    driver_at_construction eq_refl)).
    exists 320, 240, V4L2.PIX_FMT_GREY, 320, 76800.
    split; [reflexivity |]. split; [left; reflexivity | reflexivity].
  - intros Hex.
    destruct (proj2 (init_succeeds_iff scenario_cfg
                       (camera_env 320 240 (V4L2.fourcc 77 74 80 71) true [])
                       driver_at_construction eq_refl) Hex) as [s' Hinit].
    discriminate Hinit.
Defined.

(** ** The choice of pixel format on the MINLURE and BBBMINI builds *)

(** X6: the loop over the listed pixel formats ends with the first listed
    format that needs no conversion (NV12 or GREY), wherever YUYV stands in
    the list; with YUYV if none of those is listed but YUYV is; and with the
    format it started from if the list has none of the three. *)
Theorem select_pixel_format_choice (pixel_formats : list Z) (format : Z) :
  select_pixel_format pixel_formats format =
  match find needs_no_conversion pixel_formats with
  | Some px_fmt => px_fmt
  | None =>
      if existsb (fun px_fmt => px_fmt =? V4L2.PIX_FMT_YUYV) pixel_formats
      then V4L2.PIX_FMT_YUYV
      else format
  end.
Proof.
  revert format.
  induction pixel_formats as [| px rest IH]; intros format;
    cbn [select_pixel_format find existsb]; [reflexivity |].
  fold (needs_no_conversion px).
  destruct (needs_no_conversion px); [reflexivity |].
  destruct (Z.eqb_spec px V4L2.PIX_FMT_YUYV) as [Hy | Hy]; cbn [orb].
  - rewrite IH. subst px.
    destruct (find needs_no_conversion rest); [reflexivity |].
    destruct (existsb (fun px_fmt => px_fmt =? V4L2.PIX_FMT_YUYV) rest);
      reflexivity.
  - apply IH.
Qed.

Lemma needs_no_conversion_supported (px_fmt : Z) :
  needs_no_conversion px_fmt = true -> format_supported px_fmt = true.
Proof.
  unfold needs_no_conversion, format_supported.
  destruct (px_fmt =? V4L2.PIX_FMT_NV12), (px_fmt =? V4L2.PIX_FMT_GREY);
    cbn; intros H; try reflexivity; discriminate H.
Qed.

(** Starting from a supported format the loop ends with a supported one. *)
Lemma select_keeps_supported (pixel_formats : list Z) (format : Z) :
  format_supported format = true ->
  format_supported (select_pixel_format pixel_formats format) = true.
Proof.
  revert format.
  induction pixel_formats as [| px rest IH]; intros format Hf;
    cbn [select_pixel_format]; [exact Hf |].
  fold (needs_no_conversion px).
  destruct (needs_no_conversion px) eqn:Hnc.
  - apply needs_no_conversion_supported. exact Hnc.
  - destruct (Z.eqb_spec px V4L2.PIX_FMT_YUYV) as [Hy | Hy].
    + apply IH. subst px. reflexivity.
    + apply IH. exact Hf.
Qed.

Lemma select_finds_no_conversion (pixel_formats : list Z) (format : Z) :
  existsb needs_no_conversion pixel_formats = true ->
  needs_no_conversion (select_pixel_format pixel_formats format) = true.
Proof.
  revert format.
  induction pixel_formats as [| px rest IH]; intros format Hex;
    cbn [select_pixel_format existsb] in *; [discriminate Hex |].
  fold (needs_no_conversion px).
  destruct (needs_no_conversion px) eqn:Hnc; [exact Hnc |].
  cbn [orb] in Hex.
  destruct (px =? V4L2.PIX_FMT_YUYV); apply IH; exact Hex.
Qed.

(** X7: when the device lists at least one supported format, the format the
    loop ends with is supported, whatever it started from, and it is one
    that needs no conversion as soon as such a format is listed. *)
Theorem select_pixel_format_supported (pixel_formats : list Z) (format : Z) :
  existsb format_supported pixel_formats = true ->
  format_supported (select_pixel_format pixel_formats format) = true /\
  (existsb needs_no_conversion pixel_formats = true ->
   needs_no_conversion (select_pixel_format pixel_formats format) = true).
Proof.
  intros Hex. split; [| apply select_finds_no_conversion].
  revert format.
  induction pixel_formats as [| px rest IH]; intros format;
    cbn [select_pixel_format existsb] in *; [discriminate Hex |].
  fold (needs_no_conversion px).
  destruct (needs_no_conversion px) eqn:Hnc.
  - apply needs_no_conversion_supported. exact Hnc.
  - destruct (Z.eqb_spec px V4L2.PIX_FMT_YUYV) as [Hy | Hy].
    + apply select_keeps_supported. subst px. reflexivity.
    + assert (Hpx : format_supported px = false).
      { unfold format_supported, needs_no_conversion in *.
        destruct (px =? V4L2.PIX_FMT_NV12), (px =? V4L2.PIX_FMT_GREY);
          try discriminate Hnc.
        destruct (Z.eqb_spec px V4L2.PIX_FMT_YUYV); [contradiction | reflexivity]. }
      rewrite Hpx in Hex. cbn [orb] in Hex. apply IH. exact Hex.
Qed.

Lemma select_pixel_format_supported_witness :
  let listed := [V4L2.fourcc 77 74 80 71; V4L2.PIX_FMT_YUYV;
                 V4L2.PIX_FMT_GREY; V4L2.PIX_FMT_NV12] in
  existsb format_supported listed = true /\
  existsb needs_no_conversion listed = true /\
  select_pixel_format listed 0 = V4L2.PIX_FMT_GREY /\
  format_supported (select_pixel_format listed 0) = true /\
  needs_no_conversion (select_pixel_format listed 0) = true.
Proof.
  intros listed.
  split; [reflexivity |]. split; [reflexivity |]. split; [reflexivity |].
  destruct (select_pixel_format_supported listed 0 eq_refl) as [Hs Hn].
  split; [exact Hs | exact (Hn eq_refl)].
Defined.

(** ** The set-up of the loop *)

(** X8: the set-up of the loop succeeds exactly when the buffers it needs
    are allocated: the conversion buffer only for YUYV, the output buffer
    only when a flag is set; a run on grey or NV12 frames of the target
    geometry allocates nothing and cannot fail here.  When it fails, it is
    with one of the two allocation panics. *)
Theorem setup_succeeds_iff (cfg : BoardConfig) (mc mo : bool)
    (s : OpticalFlow_Onboard) :
  ((exists loc, run_optflow_setup cfg mc mo s = Ok loc) <->
   ((_format s =? V4L2.PIX_FMT_YUYV) = true -> mc = true) /\
   (_shrink_by_software s || _crop_by_software s = true -> mo = true)) /\
  (forall why, run_optflow_setup cfg mc mo s = Panic why ->
     (why = CouldntAllocateConversionBuffer /\
      _format s = V4L2.PIX_FMT_YUYV /\ mc = false) \/
     (why = CouldntAllocateCropBuffer /\
      _shrink_by_software s || _crop_by_software s = true /\ mo = false)).
Proof.
  unfold run_optflow_setup.
  destruct (_format s =? V4L2.PIX_FMT_YUYV) eqn:Hf;
    [apply Z.eqb_eq in Hf |];
  destruct mc, mo, (_shrink_by_software s), (_crop_by_software s);
  cbn [negb andb orb panic_if bind];
  try destruct (shrink_geometry cfg s) as [[[[g1 g2] g3] g4] g5];
  (split;
   [ split;
     [ intros [loc H]; try discriminate H;
       split; intros H'; try reflexivity; discriminate H'
     | intros [H1 H2]; try (eexists; reflexivity);
       first [ specialize (H1 eq_refl); discriminate H1
             | specialize (H2 eq_refl); discriminate H2 ] ]
   | intros why H; try discriminate H; injection H as <-;
     first [ left; split; [reflexivity |]; split; [exact Hf | reflexivity]
           | right; split; [reflexivity |]; split; reflexivity ] ]).
Qed.

Lemma setup_succeeds_iff_witness :
  (exists loc, run_optflow_setup scenario_cfg false false
                 (set_shrink_by_software false scenario_driver) = Ok loc) /\
  run_optflow_setup scenario_cfg true false scenario_driver
  = Panic CouldntAllocateCropBuffer.
Proof.
  split.
  - apply (proj2 (proj1 (setup_succeeds_iff scenario_cfg false false
                           (set_shrink_by_software false scenario_driver)))).
    split; intros H; discriminate H.
  - reflexivity.
Defined.

Lemma setup_crop_locals (cfg : BoardConfig) (mc mo : bool)
    (s : OpticalFlow_Onboard) (loc : Locals) :
  _shrink_by_software s = false ->
  _crop_by_software s = true ->
  run_optflow_setup cfg mc mo s = Ok loc ->
  crop_left loc =
    U32.sub (_camera_output_width s / 2)
            (Z.quot (HAL_OPTFLOW_ONBOARD_OUTPUT_WIDTH cfg) 2) /\
  crop_top loc =
    U32.sub (_camera_output_height s / 2)
            (Z.quot (HAL_OPTFLOW_ONBOARD_OUTPUT_HEIGHT cfg) 2).
Proof.
  intros Hs Hc. unfold run_optflow_setup. rewrite Hs, Hc.
  destruct (panic_if ((_format s =? V4L2.PIX_FMT_YUYV) && negb mc) _); cbn [bind];
    [| discriminate].
  destruct (panic_if _ CouldntAllocateCropBuffer); cbn [bind]; [| discriminate].
  intros H. injection H as <-. split; reflexivity.
Qed.

Lemma halves_centered (total size : Z) :
  0 <= size <= total -> inside_centered total size (total / 2 - size / 2).
Proof.
  intros H. unfold inside_centered.
  pose proof (Z.div_mod total 2 ltac:(lia)) as Ht.
  pose proof (Z.mod_pos_bound total 2 ltac:(lia)) as Htm.
  pose proof (Z.div_mod size 2 ltac:(lia)) as Hs.
  pose proof (Z.mod_pos_bound size 2 ltac:(lia)) as Hsm.
  lia.
Qed.

(** X9: when software crop is the active strategy and the target fits the
    camera frame, the crop offsets are not wrapped and the target-sized
    window lies inside the camera frame, its two margins differing by at
    most one pixel on each axis. *)
Theorem crop_window_centered (cfg : BoardConfig) (mc mo : bool)
    (s : OpticalFlow_Onboard) (loc : Locals) :
  _shrink_by_software s = false ->
  _crop_by_software s = true ->
  run_optflow_setup cfg mc mo s = Ok loc ->
  U32.in_range (_camera_output_width s) ->
  U32.in_range (_camera_output_height s) ->
  0 <= HAL_OPTFLOW_ONBOARD_OUTPUT_WIDTH cfg <= _camera_output_width s ->
  0 <= HAL_OPTFLOW_ONBOARD_OUTPUT_HEIGHT cfg <= _camera_output_height s ->
  inside_centered (_camera_output_width s)
    (HAL_OPTFLOW_ONBOARD_OUTPUT_WIDTH cfg) (crop_left loc) /\
  inside_centered (_camera_output_height s)
    (HAL_OPTFLOW_ONBOARD_OUTPUT_HEIGHT cfg) (crop_top loc).
Proof.
  intros Hs Hc Hsetup Hcw Hch HW HH.
  destruct (setup_crop_locals cfg mc mo s loc Hs Hc Hsetup) as [-> ->].
  rewrite !Z.quot_div_nonneg by lia.
  unfold U32.in_range in *.
  pose proof (halves_centered _ _ HW) as Cw.
  pose proof (halves_centered _ _ HH) as Ch.
  unfold U32.sub. rewrite !wrap_small.
  - split; assumption.
  - unfold U32.in_range. destruct Ch as [? [? ?]]. lia.
  - unfold U32.in_range. destruct Cw as [? [? ?]]. lia.
Qed.

Lemma crop_window_centered_witness :
  let s := set_camera_output_height 241
             (set_camera_output_width 321
                (set_crop_by_software true
                   (set_shrink_by_software false scenario_driver))) in
  exists loc,
    run_optflow_setup scenario_cfg true true s = Ok loc /\
    crop_left loc = 128 /\ crop_top loc = 88 /\
    inside_centered 321 64 128 /\ inside_centered 241 64 88.
Proof.
  intros s. eexists. split; [reflexivity |].
  split; [reflexivity |]. split; [reflexivity |].
  apply (crop_window_centered scenario_cfg true true s _ eq_refl eq_refl eq_refl);
    unfold U32.in_range, U32.modulus; cbn; lia.
Defined.

(** X10: when a first [init] chooses software crop alone, the camera output
    geometry it recorded is the target geometry, so the crop offsets of the
    loop are zero: the crop window is the whole frame. *)
Theorem crop_alone_is_whole_frame (cfg : BoardConfig) (env : InitEnv)
    (mc mo : bool) (s s' : OpticalFlow_Onboard) (loc : Locals) :
  _initialized s = false ->
  init cfg env s = Ok s' ->
  U32.in_range (HAL_OPTFLOW_ONBOARD_OUTPUT_WIDTH cfg) ->
  U32.in_range (HAL_OPTFLOW_ONBOARD_OUTPUT_HEIGHT cfg) ->
  _shrink_by_software s' = false ->
  _crop_by_software s' = true ->
  run_optflow_setup cfg mc mo s' = Ok loc ->
  _camera_output_width s' = HAL_OPTFLOW_ONBOARD_OUTPUT_WIDTH cfg /\
  _camera_output_height s' = HAL_OPTFLOW_ONBOARD_OUTPUT_HEIGHT cfg /\
  crop_left loc = 0 /\ crop_top loc = 0.
Proof.
  intros Hs Hinit HW HH Hshrink Hcrop Hsetup.
  destruct (setup_crop_locals cfg mc mo s' loc Hshrink Hcrop Hsetup) as [-> ->].
  assert (Hcam : _camera_output_width s' = HAL_OPTFLOW_ONBOARD_OUTPUT_WIDTH cfg /\
                 _camera_output_height s' = HAL_OPTFLOW_ONBOARD_OUTPUT_HEIGHT cfg).
  { destruct (init_ok_inv cfg env s s' Hs Hinit)
      as [w [h [f [bpl [sz [_ [_ [_ ->]]]]]]]].
    revert Hshrink Hcrop. unfold init_crop, init_shrink.
    cbn [_width _height set_sizeimage set_bytesperline set_format set_height
         set_width].
    rewrite !(wrap_small _ HW), !(wrap_small _ HH).
    destruct (Z.eqb_spec w (HAL_OPTFLOW_ONBOARD_OUTPUT_WIDTH cfg)) as [Hw | Hw];
    destruct (Z.eqb_spec h (HAL_OPTFLOW_ONBOARD_OUTPUT_HEIGHT cfg)) as [Hh | Hh];
    cbn [andb]; destruct (set_crop env _ _ _ _); cbn;
      intros H1 H2; try discriminate; split; assumption. }
  destruct Hcam as [Hcw Hch]. rewrite Hcw, Hch.
  split; [reflexivity |]. split; [reflexivity |].
  unfold U32.in_range in *.
  rewrite !Z.quot_div_nonneg by lia.
  unfold U32.sub, U32.wrap. rewrite !Z.sub_diag. split; reflexivity.
Qed.

Lemma crop_alone_is_whole_frame_witness :
  let env := camera_env 64 64 V4L2.PIX_FMT_GREY false [] in
  exists s' loc,
    _initialized driver_at_construction = false /\
    init scenario_cfg env driver_at_construction = Ok s' /\
    _shrink_by_software s' = false /\ _crop_by_software s' = true /\
    run_optflow_setup scenario_cfg true true s' = Ok loc /\
    _camera_output_width s' = 64 /\ _camera_output_height s' = 64 /\
    crop_left loc = 0 /\ crop_top loc = 0.
Proof.
  intros env.
  set (s' := match init scenario_cfg env driver_at_construction with
             | Ok s1 => s1
             | Panic _ => driver_at_construction
             end).
  set (loc := match run_optflow_setup scenario_cfg true true s' with
              | Ok l => l
              | Panic _ => mkLocals 0 0 0 0 0 0 0 0 0
              end).
  assert (Hinit : init scenario_cfg env driver_at_construction = Ok s')
    by (vm_compute; reflexivity).
  assert (Hshrink : _shrink_by_software s' = false) by (vm_compute; reflexivity).
  assert (Hcrop : _crop_by_software s' = true) by (vm_compute; reflexivity).
  assert (Hsetup : run_optflow_setup scenario_cfg true true s' = Ok loc)
    by (vm_compute; reflexivity).
  assert (HW : U32.in_range (HAL_OPTFLOW_ONBOARD_OUTPUT_WIDTH scenario_cfg)).
  { change (HAL_OPTFLOW_ONBOARD_OUTPUT_WIDTH scenario_cfg) with 64.
    unfold U32.in_range, U32.modulus. lia. }
  assert (HH : U32.in_range (HAL_OPTFLOW_ONBOARD_OUTPUT_HEIGHT scenario_cfg)).
  { change (HAL_OPTFLOW_ONBOARD_OUTPUT_HEIGHT scenario_cfg) with 64.
    unfold U32.in_range, U32.modulus. lia. }
  exists s', loc.
  split; [reflexivity |]. split; [exact Hinit |].
  split; [exact Hshrink |]. split; [exact Hcrop |]. split; [exact Hsetup |].
  exact (crop_alone_is_whole_frame scenario_cfg env true true
           driver_at_construction s' loc eq_refl Hinit HW HH Hshrink Hcrop
           Hsetup).
Defined.

(** X11: when the shrink strategy is active and the camera dimension that
    decides the factor is smaller than the target's, the factor is zero: the
    selected window is empty and its offsets are half the camera width and
    half the camera height. *)
Theorem shrink_of_small_camera (cfg : BoardConfig) (mc mo : bool)
    (s : OpticalFlow_Onboard) (loc : Locals) :
  _shrink_by_software s = true ->
  run_optflow_setup cfg mc mo s = Ok loc ->
  U32.in_range (_camera_output_width s) ->
  U32.in_range (_camera_output_height s) ->
  0 < HAL_OPTFLOW_ONBOARD_OUTPUT_WIDTH cfg < U32.modulus ->
  0 < HAL_OPTFLOW_ONBOARD_OUTPUT_HEIGHT cfg < U32.modulus ->
  (if _camera_output_width s >? _camera_output_height s
   then _camera_output_height s <? HAL_OPTFLOW_ONBOARD_OUTPUT_HEIGHT cfg
   else _camera_output_width s <? HAL_OPTFLOW_ONBOARD_OUTPUT_WIDTH cfg) = true ->
  shrink_scale loc = 0 /\
  shrink_width loc = 0 /\ shrink_height loc = 0 /\
  shrink_width_offset loc = _camera_output_width s / 2 /\
  shrink_height_offset loc = _camera_output_height s / 2.
Proof.
  intros Hshrink Hsetup Hcw Hch HW HH Hsmall.
  pose proof (setup_shrink_locals cfg mc mo s loc Hshrink Hsetup) as Hgeo.
  unfold shrink_geometry in Hgeo.
  set (cw := _camera_output_width s) in *.
  set (ch := _camera_output_height s) in *.
  set (W := HAL_OPTFLOW_ONBOARD_OUTPUT_WIDTH cfg) in *.
  set (H := HAL_OPTFLOW_ONBOARD_OUTPUT_HEIGHT cfg) in *.
  assert (Hk : (if cw >? ch then U32.div ch H else U32.div cw W) = 0).
  { unfold U32.div.
    rewrite !wrap_small by (assumption || (unfold U32.in_range; lia)).
    unfold U32.in_range in *.
    destruct (cw >? ch).
    - apply Z.ltb_lt in Hsmall. apply Z.div_small. lia.
    - apply Z.ltb_lt in Hsmall. apply Z.div_small. lia. }
  rewrite Hk in Hgeo.
  unfold U32.mul in Hgeo. rewrite !Z.mul_0_r in Hgeo.
  change (U32.wrap 0) with 0 in Hgeo.
  unfold U32.sub in Hgeo. rewrite !Z.sub_0_r in Hgeo.
  rewrite !wrap_small in Hgeo by assumption.
  injection Hgeo as -> -> -> -> ->.
  repeat split; reflexivity.
Qed.

Lemma shrink_of_small_camera_witness :
  let s := set_camera_output_height 48
             (set_camera_output_width 60 scenario_driver) in
  exists loc,
    run_optflow_setup scenario_cfg true true s = Ok loc /\
    _shrink_by_software s = true /\
    shrink_scale loc = 0 /\ shrink_width loc = 0 /\ shrink_height loc = 0 /\
    shrink_width_offset loc = 30 /\ shrink_height_offset loc = 24.
Proof.
  intros s. eexists. split; [vm_compute; reflexivity |].
  split; [reflexivity |].
  apply (shrink_of_small_camera scenario_cfg true true s _ eq_refl).
  - vm_compute. reflexivity.
  - change (_camera_output_width s) with 60.
    unfold U32.in_range, U32.modulus. lia.
  - change (_camera_output_height s) with 48.
    unfold U32.in_range, U32.modulus. lia.
  - change (HAL_OPTFLOW_ONBOARD_OUTPUT_WIDTH scenario_cfg) with 64.
    unfold U32.modulus. lia.
  - change (HAL_OPTFLOW_ONBOARD_OUTPUT_HEIGHT scenario_cfg) with 64.
    unfold U32.modulus. lia.
  - reflexivity.
Defined.

(** X12: in front of a camera whose width and height are the multiples
    [a * T] and [b * T] of a square target, the factor is the smaller
    multiple, and the window of [T * factor] pixels each way starts
    [(a - factor) * T / 2] pixels in and [(b - factor) * T / 2] pixels down:
    it spans the whole of the shorter camera dimension. *)
Theorem shrink_of_multiples (cfg : BoardConfig) (mc mo : bool)
    (s : OpticalFlow_Onboard) (loc : Locals) (T a b : Z) :
  HAL_OPTFLOW_ONBOARD_OUTPUT_WIDTH cfg = T ->
  HAL_OPTFLOW_ONBOARD_OUTPUT_HEIGHT cfg = T ->
  0 < T < U32.modulus -> 0 <= a -> 0 <= b ->
  _camera_output_width s = a * T -> a * T < U32.modulus ->
  _camera_output_height s = b * T -> b * T < U32.modulus ->
  _shrink_by_software s = true ->
  run_optflow_setup cfg mc mo s = Ok loc ->
  shrink_scale loc = Z.min a b /\
  shrink_width loc = T * Z.min a b /\
  shrink_height loc = T * Z.min a b /\
  shrink_width_offset loc = (a - Z.min a b) * T / 2 /\
  shrink_height_offset loc = (b - Z.min a b) * T / 2.
Proof.
  intros HW HH HT Ha Hb Hcw Hcwr Hch Hchr Hshrink Hsetup.
  pose proof (setup_shrink_locals cfg mc mo s loc Hshrink Hsetup) as Hgeo.
  unfold shrink_geometry in Hgeo. rewrite HW, HH, Hcw, Hch in Hgeo.
  assert (HTr : U32.in_range T) by (unfold U32.in_range; lia).
  assert (Har : U32.in_range (a * T)) by (unfold U32.in_range; nia).
  assert (Hbr : U32.in_range (b * T)) by (unfold U32.in_range; nia).
  unfold U32.div in Hgeo.
  rewrite !wrap_small in Hgeo by assumption.
  rewrite !Z.div_mul in Hgeo by lia.
  assert (Hk : (if a * T >? b * T then b else a) = Z.min a b).
  { destruct (Z.gtb_spec (a * T) (b * T)); [rewrite Z.min_r | rewrite Z.min_l];
      try reflexivity; nia. }
  rewrite Hk in Hgeo.
  set (k := Z.min a b) in *.
  assert (Hka : 0 <= k <= a) by (subst k; lia).
  assert (Hkb : 0 <= k <= b) by (subst k; lia).
  assert (Hmul : U32.mul T k = T * k).
  { unfold U32.mul. apply wrap_small. unfold U32.in_range in *. nia. }
  rewrite Hmul in Hgeo.
  assert (Hsa : U32.sub (a * T) (T * k) = (a - k) * T).
  { unfold U32.sub. rewrite wrap_small; [ring |].
    unfold U32.in_range in *. nia. }
  assert (Hsb : U32.sub (b * T) (T * k) = (b - k) * T).
  { unfold U32.sub. rewrite wrap_small; [ring |].
    unfold U32.in_range in *. nia. }
  rewrite Hsa, Hsb in Hgeo.
  injection Hgeo as -> -> -> -> ->.
  repeat split; reflexivity.
Qed.

Lemma shrink_of_multiples_witness :
  let s := set_camera_output_height 192
             (set_camera_output_width 320 scenario_driver) in
  exists loc,
    run_optflow_setup scenario_cfg true true s = Ok loc /\
    shrink_scale loc = 3 /\ shrink_width loc = 192 /\ shrink_height loc = 192 /\
    shrink_width_offset loc = 64 /\ shrink_height_offset loc = 0.
Proof.
  intros s. eexists. split; [vm_compute; reflexivity |].
  assert (Ha : 5 * 64 < U32.modulus) by (unfold U32.modulus; lia).
  assert (Hb : 3 * 64 < U32.modulus) by (unfold U32.modulus; lia).
  assert (HT : 0 < 64 < U32.modulus) by (unfold U32.modulus; lia).
  assert (H5 : 0 <= 5) by lia.
  assert (H3 : 0 <= 3) by lia.
  exact (shrink_of_multiples scenario_cfg true true s _ 64 5 3
           eq_refl eq_refl HT H5 H3 eq_refl Ha eq_refl Hb eq_refl eq_refl).
Defined.

(** ** Frames are rewritten in place *)

Lemma skipn_of_repeat {A : Type} (x : A) (n m : nat) :
  skipn n (repeat x m) = repeat x (m - n).
Proof.
  revert m. induction n as [| n IH]; intros m.
  - rewrite Nat.sub_0_r. reflexivity.
  - destruct m as [| m]; [reflexivity |]. cbn [repeat skipn Nat.sub]. apply IH.
Qed.

Lemma skipn_repeat_app {A : Type} (x : A) (n m : nat) (tail : list A) :
  (n <= m)%nat -> skipn n (repeat x m ++ tail) = repeat x (m - n) ++ tail.
Proof.
  intros Hnm. rewrite skipn_app, skipn_of_repeat, repeat_length.
  replace (n - m)%nat with 0%nat by lia. reflexivity.
Qed.

(** Zeroing the first [m] bytes and then copying [n <= m] bytes over them
    leaves the copy, zeros up to [m], and the rest of the buffer. *)
Lemma memcpy_memset_layout (src buffer : image) (n m : Z) :
  0 <= n <= m ->
  (Z.to_nat n <= length src)%nat ->
  (Z.to_nat m <= length buffer)%nat ->
  memcpy src n (memset_zero m buffer) =
    firstn (Z.to_nat n) src ++ repeat 0 (Z.to_nat (m - n)) ++
    skipn (Z.to_nat m) buffer /\
  length (memcpy src n (memset_zero m buffer)) = length buffer.
Proof.
  intros Hnm Hsrc Hbuf.
  assert (Hle : (Z.to_nat n <= Z.to_nat m)%nat) by lia.
  assert (Heq : memcpy src n (memset_zero m buffer) =
                firstn (Z.to_nat n) src ++ repeat 0 (Z.to_nat (m - n)) ++
                skipn (Z.to_nat m) buffer).
  { unfold memcpy, memset_zero.
    rewrite Nat.min_l by exact Hbuf.
    rewrite skipn_repeat_app by exact Hle.
    replace (Z.to_nat m - Z.to_nat n)%nat with (Z.to_nat (m - n)) by lia.
    reflexivity. }
  split; [exact Heq |].
  rewrite Heq, !length_app, length_firstn, repeat_length, length_skipn.
  lia.
Qed.

(** X13: when a resize strategy is active, the frame buffer after the pass
    holds the first [output_buffer_size] bytes the helper produced, then
    zeros up to the size of the camera frame, then its old bytes; it keeps
    its length.  This holds when the output fits the camera frame, the
    helper filled that many bytes and the buffer holds a camera frame. *)
Theorem resize_in_place (cfg : BoardConfig) (ops : Collaborators)
    (loc : Locals) (s : OpticalFlow_Onboard) (buffer : image) :
  _shrink_by_software s || _crop_by_software s = true ->
  let output :=
    if _shrink_by_software s
    then shrink_8bpp ops buffer
           (_camera_output_width s) (_camera_output_height s)
           (shrink_width_offset loc) (shrink_width loc)
           (shrink_height_offset loc) (shrink_height loc)
           (shrink_scale loc) (shrink_scale loc)
    else crop_8bpp ops buffer (_camera_output_width s)
           (crop_left loc) (U32.wrap (HAL_OPTFLOW_ONBOARD_OUTPUT_WIDTH cfg))
           (crop_top loc) (U32.wrap (HAL_OPTFLOW_ONBOARD_OUTPUT_HEIGHT cfg)) in
  let frame_size :=
    U32.mul (_camera_output_width s) (_camera_output_height s) in
  0 <= output_buffer_size loc <= frame_size ->
  (Z.to_nat (output_buffer_size loc) <= length output)%nat ->
  (Z.to_nat frame_size <= length buffer)%nat ->
  snd (resize_frame cfg ops loc s buffer) =
    firstn (Z.to_nat (output_buffer_size loc)) output ++
    repeat 0 (Z.to_nat (frame_size - output_buffer_size loc)) ++
    skipn (Z.to_nat frame_size) buffer /\
  length (snd (resize_frame cfg ops loc s buffer)) = length buffer.
Proof.
  intros Hflag output frame_size Hsize Hout Hbuf.
  unfold resize_frame. subst output frame_size.
  destruct (_shrink_by_software s).
  - cbn [snd]. apply memcpy_memset_layout; assumption.
  - destruct (_crop_by_software s); [| discriminate Hflag].
    cbn [snd]. apply memcpy_memset_layout; assumption.
Qed.

Lemma resize_in_place_witness :
  let s := tiny_driver V4L2.PIX_FMT_GREY in
  let loc := tiny_locals V4L2.PIX_FMT_GREY in
  let buffer := [1; 2; 3; 4; 5; 6; 7; 8; 9; 10; 11; 12; 13; 14; 15; 16; 17] in
  _shrink_by_software s || _crop_by_software s = true /\
  output_buffer_size loc = 4 /\
  snd (resize_frame tiny_cfg example_ops loc s buffer) =
    [1; 2; 3; 4; 0; 0; 0; 0; 0; 0; 0; 0; 0; 0; 0; 0; 17] /\
  length (snd (resize_frame tiny_cfg example_ops loc s buffer)) = 17%nat.
Proof.
  intros s loc buffer.
  split; [reflexivity |]. split; [reflexivity |].
  assert (Hsize : 0 <= output_buffer_size loc <=
                  U32.mul (_camera_output_width s) (_camera_output_height s)).
  { change (output_buffer_size loc) with 4.
    change (U32.mul (_camera_output_width s) (_camera_output_height s)) with 16.
    lia. }
  assert (Hbuf : (Z.to_nat (U32.mul (_camera_output_width s)
                              (_camera_output_height s)) <= length buffer)%nat).
  { change (U32.mul (_camera_output_width s) (_camera_output_height s)) with 16.
    cbn. lia. }
  assert (Hout : (Z.to_nat (output_buffer_size loc) <= length buffer)%nat).
  { change (output_buffer_size loc) with 4. cbn. lia. }
  exact (resize_in_place tiny_cfg example_ops loc s buffer eq_refl
           Hsize Hout Hbuf).
Defined.

(** X14: on YUYV frames, the frame buffer after the conversion holds the
    first [convert_buffer_size] grey bytes the helper produced, then zeros
    up to twice that size, then its old bytes; it keeps its length.  This
    holds when twice the size does not wrap, the helper filled that many
    bytes and the buffer holds the packed frame. *)
Theorem convert_in_place (ops : Collaborators) (loc : Locals)
    (s : OpticalFlow_Onboard) (buffer : image) :
  _format s = V4L2.PIX_FMT_YUYV ->
  let packed_size := U32.mul (convert_buffer_size loc) 2 in
  let grey := yuyv_to_grey ops buffer packed_size in
  0 <= convert_buffer_size loc <= packed_size ->
  (Z.to_nat (convert_buffer_size loc) <= length grey)%nat ->
  (Z.to_nat packed_size <= length buffer)%nat ->
  snd (convert_frame ops loc s buffer) =
    firstn (Z.to_nat (convert_buffer_size loc)) grey ++
    repeat 0 (Z.to_nat (packed_size - convert_buffer_size loc)) ++
    skipn (Z.to_nat packed_size) buffer /\
  length (snd (convert_frame ops loc s buffer)) = length buffer.
Proof.
  intros Hfmt packed_size grey Hsize Hgrey Hbuf.
  unfold convert_frame. rewrite Hfmt, Z.eqb_refl. cbn [snd].
  apply memcpy_memset_layout; assumption.
Qed.

Lemma convert_in_place_witness :
  let s := set_format V4L2.PIX_FMT_YUYV driver_at_construction in
  let loc := mkLocals 3 0 0 0 0 0 0 0 0 in
  let buffer := [10; 128; 20; 128; 30; 128; 99] in
  _format s = V4L2.PIX_FMT_YUYV /\
  snd (convert_frame example_ops loc s buffer) = [10; 128; 20; 0; 0; 0; 99] /\
  length (snd (convert_frame example_ops loc s buffer)) = 7%nat.
Proof.
  intros s loc buffer. split; [reflexivity |].
  assert (Hsize : 0 <= convert_buffer_size loc <=
                  U32.mul (convert_buffer_size loc) 2).
  { change (convert_buffer_size loc) with 3.
    change (U32.mul 3 2) with 6. lia. }
  assert (Hgrey : (Z.to_nat (convert_buffer_size loc) <= length buffer)%nat).
  { change (convert_buffer_size loc) with 3. cbn. lia. }
  assert (Hbuf : (Z.to_nat (U32.mul (convert_buffer_size loc) 2)
                  <= length buffer)%nat).
  { change (U32.mul (convert_buffer_size loc) 2) with 6. cbn. lia. }
  exact (convert_in_place example_ops loc s buffer eq_refl Hsize Hgrey Hbuf).
Defined.

(** ** Runs of the loop *)

Section Runs.
Variable cfg : BoardConfig.
Variable ops : Collaborators.
Variable loc : Locals.

(** A pass that does not panic got a frame, and either cached it or
    accumulated. *)
Lemma loop_body_ok_inv (inp : IterInput) (s s' : OpticalFlow_Onboard)
    (tr : list event) :
  loop_body cfg ops loc inp s = (tr, Ok s') ->
  exists frame,
    inp = mkIterInput (Some frame) (gyro_answer inp) /\
    match _last_video_frame s with
    | None =>
        s' = set_last_video_frame
               (Some (mkFrame (normalized cfg ops loc s (data frame))
                        (timestamp frame))) s
    | Some last =>
        let buffer := normalized cfg ops loc s (data frame) in
        let elapsed := U32.sub (timestamp frame) (timestamp last) in
        let flow := compute_flow ops (data last) buffer elapsed in
        s' = set_last_gyro_rate (gyro_answer inp)
               (set_last_video_frame (Some (mkFrame buffer (timestamp frame)))
                  (accumulate cfg (fst (fst flow)) (snd (fst flow)) (snd flow)
                     (gyro_answer inp) elapsed s))
    end.
Proof.
  destruct inp as [[frame |] rate]; intros Hrun.
  - exists frame. split; [reflexivity |]. cbn [gyro_answer].
    destruct (_last_video_frame s) as [last |] eqn:Hlast.
    + rewrite (steady_pass cfg ops loc s last frame rate Hlast) in Hrun.
      injection Hrun as _ <-. reflexivity.
    + rewrite (warm_up_pass cfg ops loc s frame rate Hlast) in Hrun.
      injection Hrun as _ <-. reflexivity.
  - discriminate Hrun.
Qed.

Lemma loop_body_keeps_configuration (inp : IterInput)
    (s s' : OpticalFlow_Onboard) (tr : list event) :
  loop_body cfg ops loc inp s = (tr, Ok s') ->
  capture_configuration s' = capture_configuration s.
Proof.
  intros Hrun.
  destruct (loop_body_ok_inv inp s s' tr Hrun) as [frame [_ Hs']].
  destruct (_last_video_frame s); cbv zeta in Hs'; subst s'; reflexivity.
Qed.

(** The image steps of a pass read the driver's configuration only. *)
Lemma normalized_reads_configuration (s1 s2 : OpticalFlow_Onboard)
    (buffer : image) :
  capture_configuration s1 = capture_configuration s2 ->
  normalized cfg ops loc s1 buffer = normalized cfg ops loc s2 buffer.
Proof.
  unfold capture_configuration. intros H.
  injection H as _ Hcrop Hshrink Hcw Hch _ _ Hfmt _ _.
  unfold normalized, convert_frame, resize_frame.
  rewrite Hcrop, Hshrink, Hcw, Hch, Hfmt. reflexivity.
Qed.

(** X15: the loop never changes what [init] fixed: after any number of
    passes the flags, the camera and target geometries, the format and the
    line and image sizes are those the run started with. *)
Theorem run_keeps_configuration (inps : list IterInput)
    (s s' : OpticalFlow_Onboard) (tr : list event) :
  run_frames cfg ops loc inps s = (tr, Ok s') ->
  capture_configuration s' = capture_configuration s.
Proof.
  revert s tr. induction inps as [| inp rest IH]; intros s tr Hrun.
  - cbn in Hrun. injection Hrun as _ <-. reflexivity.
  - cbn [run_frames] in Hrun.
    destruct (loop_body cfg ops loc inp s) as [ev [s1 | why]] eqn:Hpass;
      [| discriminate Hrun].
    destruct (run_frames cfg ops loc rest s1) as [ev' r] eqn:Hrest.
    injection Hrun as _ ->.
    rewrite (IH s1 ev' Hrest).
    apply (loop_body_keeps_configuration inp s s1 ev Hpass).
Qed.

(** A run on one list of inputs after another, when the first does not
    panic. *)
Lemma run_frames_app_ok (inps1 inps2 : list IterInput)
    (s s1 : OpticalFlow_Onboard) (tr1 : list event) :
  run_frames cfg ops loc inps1 s = (tr1, Ok s1) ->
  run_frames cfg ops loc (inps1 ++ inps2) s =
  (tr1 ++ fst (run_frames cfg ops loc inps2 s1),
   snd (run_frames cfg ops loc inps2 s1)).
Proof.
  revert s tr1. induction inps1 as [| inp rest IH]; intros s tr1 Hrun.
  - cbn in Hrun. injection Hrun as <- <-. cbn [app].
    destruct (run_frames cfg ops loc inps2 s); reflexivity.
  - cbn [app run_frames] in *.
    destruct (loop_body cfg ops loc inp s) as [ev [s2 | why]];
      [| discriminate Hrun].
    destruct (run_frames cfg ops loc rest s2) as [tr2 r] eqn:Hrest.
    injection Hrun as <- ->.
    rewrite (IH s2 tr2 Hrest). rewrite app_assoc. reflexivity.
Qed.

(** A run in which every frame is delivered does not panic. *)
Lemma run_delivered_ok (steps : list (Frame * Vector3f)) :
  forall s : OpticalFlow_Onboard,
    exists tr s', run_frames cfg ops loc (delivered steps) s = (tr, Ok s').
Proof.
  induction steps as [| [frame rate] rest IH]; intros s.
  - exists [], s. reflexivity.
  - cbn [delivered map fst snd run_frames]. fold (delivered rest).
    destruct (_last_video_frame s) as [last |] eqn:Hlast.
    + rewrite (steady_pass cfg ops loc s last frame rate Hlast).
      match goal with
      | |- context [run_frames cfg ops loc (delivered rest) ?s1] =>
          destruct (IH s1) as [tr [s' Hrun]]; rewrite Hrun
      end.
      eexists. exists s'. reflexivity.
    + rewrite (warm_up_pass cfg ops loc s frame rate Hlast).
      match goal with
      | |- context [run_frames cfg ops loc (delivered rest) ?s1] =>
          destruct (IH s1) as [tr [s' Hrun]]; rewrite Hrun
      end.
      eexists. exists s'. reflexivity.
Qed.

(** X17: the loop panics only when [get_frame] fails.  After any number of
    delivered frames, a failed [get_frame] ends the run with "couldn't get
    frame": the trace is that of the delivered frames followed by the one
    failed request, and no later input is asked for. *)
Theorem run_stops_at_failed_get_frame (steps : list (Frame * Vector3f))
    (rate : Vector3f) (later : list IterInput) (s : OpticalFlow_Onboard) :
  run_frames cfg ops loc (delivered steps ++ mkIterInput None rate :: later) s
  = (fst (run_frames cfg ops loc (delivered steps) s) ++ [EvGetFrame],
     Panic CouldntGetFrame) /\
  (forall (inps : list IterInput) (tr : list event) (why : panic_reason),
     run_frames cfg ops loc inps s = (tr, Panic why) ->
     why = CouldntGetFrame /\
     exists rate', In (mkIterInput None rate') inps).
Proof.
  split.
  - destruct (run_delivered_ok steps s) as [tr [s' Hrun]].
    rewrite (run_frames_app_ok _ _ s s' tr Hrun). rewrite Hrun.
    reflexivity.
  - intros inps. revert s.
    induction inps as [| inp rest IH]; intros s0 tr why Hrun.
    + discriminate Hrun.
    + cbn [run_frames] in Hrun.
      destruct (loop_body cfg ops loc inp s0) as [ev [s1 | why']] eqn:Hpass.
      * destruct (run_frames cfg ops loc rest s1) as [ev' r] eqn:Hrest.
        injection Hrun as _ ->.
        destruct (IH s1 ev' why Hrest) as [Hwhy [rate' Hin]].
        split; [exact Hwhy |]. exists rate'. right. exact Hin.
      * injection Hrun as _ <-.
        destruct inp as [[frame |] rate0].
        -- exfalso. unfold loop_body in Hpass. cbn [next_frame] in Hpass.
           destruct (convert_frame ops loc s0 (data frame)) as [evc buf].
           destruct (resize_frame cfg ops loc s0 buf) as [evr buf'].
           destruct (_last_video_frame s0); [| discriminate Hpass].
           destruct (compute_flow ops _ _ _) as [[q fx] fy].
           discriminate Hpass.
        -- cbn in Hpass. injection Hpass as _ <-.
           split; [reflexivity |]. exists rate0. left. reflexivity.
Qed.
End Runs.

Lemma count_app (p : event -> bool) (tr1 tr2 : list event) :
  count p (tr1 ++ tr2) = (count p tr1 + count p tr2)%nat.
Proof. unfold count. rewrite filter_app, length_app. reflexivity. Qed.

Section Counting.
Variable cfg : BoardConfig.
Variable ops : Collaborators.
Variable loc : Locals.

(** The events of one pass, counted: the image steps are none of the five
    kinds counted here. *)
Lemma pass_image_events_quiet (s : OpticalFlow_Onboard) (buffer : image)
    (p : event -> bool) :
  p EvYuyvToGrey = false -> p EvShrink = false -> p EvCrop = false ->
  count p (fst (convert_frame ops loc s buffer) ++
           fst (resize_frame cfg ops loc s
                  (snd (convert_frame ops loc s buffer)))) = 0%nat.
Proof.
  intros Hy Hs Hc. unfold count. rewrite filter_app.
  rewrite (convert_frame_quiet ops loc s buffer p Hy).
  rewrite (resize_frame_quiet cfg ops loc s _ p Hs Hc).
  reflexivity.
Qed.

(** In a run of delivered frames from a driver with a cached frame, every
    pass asks for a frame, asks the gyro, computes a flow, accumulates and
    gives a frame back, once each. *)
Lemma steady_run_counts (steps : list (Frame * Vector3f)) :
  forall (s : OpticalFlow_Onboard) (last : Frame),
    _last_video_frame s = Some last ->
    exists tr s' last',
      run_frames cfg ops loc (delivered steps) s = (tr, Ok s') /\
      _last_video_frame s' = Some last' /\
      count is_get_frame tr = length steps /\
      count is_get_gyro tr = length steps /\
      count is_compute_flow tr = length steps /\
      count is_accumulate tr = length steps /\
      count is_put_frame tr = length steps.
Proof.
  induction steps as [| [frame rate] rest IH]; intros s last Hlast.
  - exists [], s, last. repeat split; try reflexivity. exact Hlast.
  - cbn [delivered map fst snd run_frames]. fold (delivered rest).
    rewrite (steady_pass cfg ops loc s last frame rate Hlast).
    match goal with
    | |- context [run_frames cfg ops loc (delivered rest) ?s1] =>
        destruct (IH s1 (mkFrame (normalized cfg ops loc s (data frame))
                           (timestamp frame)) eq_refl)
          as [tr [s' [last' [Hrun [Hc [H1 [H2 [H3 [H4 H5]]]]]]]]];
        rewrite Hrun
    end.
    eexists. exists s', last'. split; [reflexivity |]. split; [exact Hc |].
    cbn [length].
    repeat split;
      rewrite count_app;
      match goal with
      | |- (count ?p (EvGetFrame :: ?a ++ ?b ++ ?c) + _)%nat = _ =>
          change (EvGetFrame :: a ++ b ++ c) with ([EvGetFrame] ++ a ++ b ++ c);
          rewrite (count_app p [EvGetFrame]), (app_assoc a b c),
            (count_app p (a ++ b) c), pass_image_events_quiet by reflexivity
      end; cbn; congruence.
Qed.

(** X18: in a run of N >= 1 delivered frames from a driver with no cached
    frame, the loop asks for N frames, and asks the gyro, computes a flow,
    accumulates and gives a frame back N - 1 times each: one frame stays
    with the driver. *)
Theorem run_event_counts (steps : list (Frame * Vector3f))
    (s : OpticalFlow_Onboard) (N : nat) :
  _last_video_frame s = None ->
  length steps = S N ->
  exists tr s' held,
    run_frames cfg ops loc (delivered steps) s = (tr, Ok s') /\
    _last_video_frame s' = Some held /\
    count is_get_frame tr = S N /\
    count is_get_gyro tr = N /\
    count is_compute_flow tr = N /\
    count is_accumulate tr = N /\
    count is_put_frame tr = N.
Proof.
  intros Hnone Hlen.
  destruct steps as [| [frame rate] rest]; [discriminate Hlen |].
  cbn [length] in Hlen. injection Hlen as Hlen.
  cbn [delivered map fst snd run_frames]. fold (delivered rest).
  rewrite (warm_up_pass cfg ops loc s frame rate Hnone).
  match goal with
  | |- context [run_frames cfg ops loc (delivered rest) ?s1] =>
      destruct (steady_run_counts rest s1
                  (mkFrame (normalized cfg ops loc s (data frame))
                     (timestamp frame)) eq_refl)
        as [tr [s' [last' [Hrun [Hc [H1 [H2 [H3 [H4 H5]]]]]]]]];
      rewrite Hrun
  end.
  rewrite Hlen in *.
  eexists. exists s', last'. split; [reflexivity |]. split; [exact Hc |].
  repeat split;
    rewrite count_app;
    match goal with
    | |- (count ?p (EvGetFrame :: ?a ++ ?b) + _)%nat = _ =>
        change (EvGetFrame :: a ++ b) with ([EvGetFrame] ++ a ++ b);
        rewrite (count_app p [EvGetFrame]), pass_image_events_quiet
          by reflexivity
    end; cbn; congruence.
Qed.
End Counting.

Lemma run_event_counts_witness :
  let steps :=
    [(mkFrame [1; 2] 100, Vector3f_zero); (mkFrame [5; 2] 130, Vector3f_zero);
     (mkFrame [9; 2] 170, Vector3f_zero)] in
  _last_video_frame scenario_driver = None /\
  length steps = 3%nat /\
  exists tr s' held,
    run_frames scenario_cfg example_ops scenario_locals (delivered steps)
      scenario_driver = (tr, Ok s') /\
    _last_video_frame s' = Some held /\
    count is_get_frame tr = 3%nat /\
    count is_get_gyro tr = 2%nat /\
    count is_compute_flow tr = 2%nat /\
    count is_accumulate tr = 2%nat /\
    count is_put_frame tr = 2%nat.
Proof.
  intros steps. split; [reflexivity |]. split; [reflexivity |].
  exact (run_event_counts scenario_cfg example_ops scenario_locals steps
           scenario_driver 2 eq_refl eq_refl).
Defined.

Lemma run_keeps_configuration_witness :
  let inps :=
    delivered [(mkFrame [1; 2] 100, Vector3f_zero);
               (mkFrame [5; 2] 130, Vector3f_zero)] in
  exists tr s',
    run_frames scenario_cfg example_ops scenario_locals inps scenario_driver
    = (tr, Ok s') /\
    _data_available s' = true /\
    capture_configuration s' = capture_configuration scenario_driver.
Proof.
  intros inps.
  set (r := run_frames scenario_cfg example_ops scenario_locals inps
              scenario_driver).
  set (s' := match snd r with Ok s1 => s1 | Panic _ => scenario_driver end).
  assert (Hrun : run_frames scenario_cfg example_ops scenario_locals inps
                   scenario_driver = (fst r, Ok s'))
    by (vm_compute; reflexivity).
  exists (fst r), s'.
  split; [exact Hrun |]. split; [vm_compute; reflexivity |].
  exact (run_keeps_configuration scenario_cfg example_ops scenario_locals inps
           scenario_driver s' (fst r) Hrun).
Defined.

Lemma last_cons_default {A : Type} (a d : A) (l : list A) :
  List.last (a :: l) d = List.last l a.
Proof.
  revert a d. induction l as [| b l IH]; intros a d; [reflexivity |].
  change (List.last (a :: b :: l) d) with (List.last (b :: l) d).
  rewrite (IH b d). symmetry. apply IH.
Qed.

Section Frames.
Variable cfg : BoardConfig.
Variable ops : Collaborators.
Variable loc : Locals.

(** A run of delivered frames from a driver with a cached frame, frame by
    frame: what is given back, what stays cached, and what the estimator's
    answers leave in the pixel-flow integrals and the quality. *)
Lemma steady_run_frames (steps : list (Frame * Vector3f)) :
  forall (s0 s : OpticalFlow_Onboard) (last : Frame),
    capture_configuration s = capture_configuration s0 ->
    _last_video_frame s = Some last ->
    exists tr s',
      run_frames cfg ops loc (delivered steps) s = (tr, Ok s') /\
      filter is_put_frame tr =
        map EvPutFrame (removelast (last :: cached_frames cfg ops loc s0 steps)) /\
      _last_video_frame s' =
        Some (List.last (cached_frames cfg ops loc s0 steps) last) /\
      _pixel_flow_x_integral s' =
        F32.sum_from (_pixel_flow_x_integral s)
          (map (fun a => F32.div (snd (fst a))
                           (HAL_FLOW_PX4_FOCAL_LENGTH_MILLIPX cfg))
             (flow_answers ops last (cached_frames cfg ops loc s0 steps))) /\
      _pixel_flow_y_integral s' =
        F32.sum_from (_pixel_flow_y_integral s)
          (map (fun a => F32.div (snd a)
                           (HAL_FLOW_PX4_FOCAL_LENGTH_MILLIPX cfg))
             (flow_answers ops last (cached_frames cfg ops loc s0 steps))) /\
      _surface_quality s' =
        List.last
          (map (fun a => fst (fst a))
             (flow_answers ops last (cached_frames cfg ops loc s0 steps)))
          (_surface_quality s).
Proof.
  induction steps as [| [frame rate] rest IH]; intros s0 s last Hcfg Hlast.
  - exists [], s. cbn. repeat split; try reflexivity. exact Hlast.
  - cbn [delivered map fst snd run_frames cached_frames]. fold (delivered rest).
    fold (cached_frames cfg ops loc s0 rest).
    rewrite (steady_pass cfg ops loc s last frame rate Hlast).
    rewrite (normalized_reads_configuration cfg ops loc s s0 (data frame) Hcfg).
    set (f1 := mkFrame (normalized cfg ops loc s0 (data frame)) (timestamp frame)).
    set (elapsed := U32.sub (timestamp frame) (timestamp last)).
    set (flow := compute_flow ops (data last)
                   (normalized cfg ops loc s0 (data frame)) elapsed).
    set (s1 := set_last_gyro_rate rate
                 (set_last_video_frame (Some f1)
                    (accumulate cfg (fst (fst flow)) (snd (fst flow))
                       (snd flow) rate elapsed s))).
    assert (Hcfg1 : capture_configuration s1 = capture_configuration s0).
    { rewrite <- Hcfg. reflexivity. }
    destruct (IH s0 s1 f1 Hcfg1 eq_refl)
      as [tr [s' [Hrun [Hput [Hcached [Hpx [Hpy Hq]]]]]]].
    rewrite Hrun. eexists. exists s'. split; [reflexivity |].
    split.
    { rewrite filter_app. cbn [filter is_put_frame]. rewrite !filter_app.
      rewrite convert_frame_quiet, resize_frame_quiet by reflexivity.
      cbn [filter is_put_frame app]. rewrite Hput. reflexivity. }
    split; [rewrite Hcached; f_equal; symmetry; apply last_cons_default |].
    cbn [flow_answers map F32.sum_from fold_left].
    split; [exact Hpx |]. split; [exact Hpy |].
    rewrite Hq. symmetry. apply last_cons_default.
Qed.


(** X20: between drains the pixel-flow integrals add up as the gyro
    integrals do, and the quality is the latest one: after N >= 1 passes on
    delivered frames from a driver with a cached frame and zeroed pixel-flow
    integrals, one [read] returns as pixel-flow integrals the left-to-right
    sums of the estimator's flows, each divided by the focal length, and as
    quality the estimator's last answer. *)
Theorem pixel_flow_additive (steps : list (Frame * Vector3f))
    (s : OpticalFlow_Onboard) (last : Frame) (out : Data_Frame) :
  steps <> [] ->
  _last_video_frame s = Some last ->
  _pixel_flow_x_integral s = F32.zero ->
  _pixel_flow_y_integral s = F32.zero ->
  let answers := flow_answers ops last (cached_frames cfg ops loc s steps) in
  exists tr s',
    run_frames cfg ops loc (delivered steps) s = (tr, Ok s') /\
    fst (fst (read out s')) = true /\
    pixel_flow_x_integral (snd (fst (read out s'))) =
      F32.sum_from F32.zero
        (map (fun a => F32.div (snd (fst a))
                         (HAL_FLOW_PX4_FOCAL_LENGTH_MILLIPX cfg)) answers) /\
    pixel_flow_y_integral (snd (fst (read out s'))) =
      F32.sum_from F32.zero
        (map (fun a => F32.div (snd a)
                         (HAL_FLOW_PX4_FOCAL_LENGTH_MILLIPX cfg)) answers) /\
    quality (snd (fst (read out s'))) =
      List.last (map (fun a => fst (fst a)) answers) (_surface_quality s).
Proof.
  intros Hne Hlast Hpx0 Hpy0 answers.
  destruct (steady_run_frames steps s s last eq_refl Hlast)
    as [tr [s' [Hrun [_ [_ [Hpx [Hpy Hq]]]]]]].
  destruct (run_delivered_accumulates cfg ops loc steps s last Hlast)
    as [tr2 [s2 [Hrun2 [_ [_ [_ Hdirty]]]]]].
  rewrite Hrun in Hrun2. injection Hrun2 as _ <-.
  assert (Hd : _data_available s' = true) by (apply Hdirty; right; exact Hne).
  rewrite Hpx0 in Hpx. rewrite Hpy0 in Hpy.
  exists tr, s'. split; [exact Hrun |].
  unfold read. rewrite Hd. cbn [negb fst snd pixel_flow_x_integral
                                pixel_flow_y_integral quality].
  split; [reflexivity |]. split; [exact Hpx |]. split; [exact Hpy | exact Hq].
Qed.
End Frames.


Lemma pixel_flow_additive_witness :
  let s := set_last_video_frame (Some (mkFrame [1; 2] 100)) scenario_driver in
  let steps :=
    [(mkFrame [5; 2] 130, Vector3f_zero); (mkFrame [11; 2] 170, Vector3f_zero)] in
  let out := mkDataFrame F32.zero F32.zero F32.zero F32.zero 0 0 in
  (steps <> [] /\
   _last_video_frame s = Some (mkFrame [1; 2] 100) /\
   _pixel_flow_x_integral s = F32.zero /\
   _pixel_flow_y_integral s = F32.zero) /\
  exists tr s',
    run_frames scenario_cfg example_ops scenario_locals (delivered steps) s
    = (tr, Ok s') /\
    fst (fst (read out s')) = true /\
    pixel_flow_x_integral (snd (fst (read out s'))) = F32.of_Z (2 + 3) /\
    quality (snd (fst (read out s'))) = 40.
Proof.
  intros s steps out.
  assert (Hne : steps <> []) by discriminate.
  split; [repeat split; try reflexivity; exact Hne |].
  destruct (pixel_flow_additive scenario_cfg example_ops scenario_locals
              steps s (mkFrame [1; 2] 100) out Hne eq_refl eq_refl eq_refl)
    as [tr [s' [Hrun [Hret [Hpx [_ Hq]]]]]].
  exists tr, s'.
  split; [exact Hrun |]. split; [exact Hret |]. split; [exact Hpx | exact Hq].
Defined.

(** ** Time between drains *)

(** The elapsed times of consecutive passes add up, modulo 2^32, to the
    distance between the last timestamp and the first. *)
Lemma elapsed_times_telescope (steps : list (Frame * Vector3f)) :
  forall t0 : Z,
    U32.wrap (sum_Z (elapsed_times t0 steps)) =
    U32.sub (List.last (map (fun step => timestamp (fst step)) steps) t0) t0.
Proof.
  induction steps as [| [frame rate] rest IH]; intros t0.
  - cbn. unfold U32.sub. rewrite Z.sub_diag. reflexivity.
  - cbn [elapsed_times map fst sum_Z fold_right].
    fold (sum_Z (elapsed_times (timestamp frame) rest)).
    rewrite last_cons_default.
    set (tl := List.last (map (fun step => timestamp (fst step)) rest)
                 (timestamp frame)).
    specialize (IH (timestamp frame)). fold tl in IH.
    unfold U32.sub, U32.wrap in *.
    rewrite Zplus_mod_idemp_l.
    rewrite <- Zplus_mod_idemp_r, IH, Zplus_mod_idemp_r.
    f_equal. lia.
Qed.

(** X21: the drained delta_time is the distance between two timestamps:
    after any run of delivered frames from a driver with a cached frame and
    a zero timespan, the timespan is the timestamp of the last delivered
    frame minus the timestamp of the frame that was cached at the start,
    modulo 2^32, so a timestamp counter that wraps in between does no
    harm. *)
Theorem timespan_is_timestamp_distance (cfg : BoardConfig)
    (ops : Collaborators) (loc : Locals) (steps : list (Frame * Vector3f))
    (s : OpticalFlow_Onboard) (last : Frame) :
  _last_video_frame s = Some last ->
  _integration_timespan s = 0 ->
  exists tr s',
    run_frames cfg ops loc (delivered steps) s = (tr, Ok s') /\
    _integration_timespan s' =
      U32.sub (List.last (map (fun step => timestamp (fst step)) steps)
                 (timestamp last))
              (timestamp last).
Proof.
  intros Hlast Hts0.
  destruct (run_delivered_accumulates cfg ops loc steps s last Hlast)
    as [tr [s' [Hrun [Hts _]]]].
  exists tr, s'. split; [exact Hrun |].
  rewrite Hts, Hts0. fold (sum_u32 (elapsed_times (timestamp last) steps)).
  rewrite sum_u32_wrap. apply elapsed_times_telescope.
Qed.

Lemma timespan_is_timestamp_distance_witness :
  let s := set_last_video_frame (Some (mkFrame [1; 2] (2 ^ 32 - 10)))
             scenario_driver in
  let steps :=
    [(mkFrame [5; 2] 5, Vector3f_zero); (mkFrame [9; 2] 25, Vector3f_zero)] in
  (_last_video_frame s = Some (mkFrame [1; 2] (2 ^ 32 - 10)) /\
   _integration_timespan s = 0) /\
  exists tr s',
    run_frames scenario_cfg example_ops scenario_locals (delivered steps) s
    = (tr, Ok s') /\
    _integration_timespan s' = 35.
Proof.
  intros s steps. split; [split; reflexivity |].
  exact (timespan_is_timestamp_distance scenario_cfg example_ops
           scenario_locals steps s (mkFrame [1; 2] (2 ^ 32 - 10))
           eq_refl eq_refl).
Defined.

(** X22: a drain separates what comes before from what comes after.  After
    a run of delivered frames, a [read], and a second run of N >= 1
    delivered frames, a second [read] succeeds and its sample covers the
    second run only: its delta_time is the 32-bit sum (the sum modulo 2^32)
    of the elapsed times of the second run, counted from the frame the first
    run left cached, and its gyro integrals are the left-to-right float sums
    of the trapezoidal terms of the second run. *)
Theorem drain_separates_runs (cfg : BoardConfig) (ops : Collaborators)
    (loc : Locals) (steps1 steps2 : list (Frame * Vector3f))
    (s : OpticalFlow_Onboard) (last : Frame) (out1 out2 : Data_Frame) :
  _last_video_frame s = Some last ->
  steps1 <> [] -> steps2 <> [] ->
  exists tr1 s1 last1 tr2 s2,
    run_frames cfg ops loc (delivered steps1) s = (tr1, Ok s1) /\
    _last_video_frame s1 = Some last1 /\
    fst (fst (read out1 s1)) = true /\
    run_frames cfg ops loc (delivered steps2) (snd (read out1 s1))
    = (tr2, Ok s2) /\
    fst (fst (read out2 s2)) = true /\
    delta_time (snd (fst (read out2 s2))) =
      sum_u32 (elapsed_times (timestamp last1) steps2) /\
    gyro_x_integral (snd (fst (read out2 s2))) =
      F32.sum_from F32.zero
        (trapezoid_terms v3x (_last_gyro_rate s1) (timestamp last1) steps2) /\
    gyro_y_integral (snd (fst (read out2 s2))) =
      F32.sum_from F32.zero
        (trapezoid_terms v3y (_last_gyro_rate s1) (timestamp last1) steps2).
Proof.
  intros Hlast Hne1 Hne2.
  destruct (run_delivered_accumulates cfg ops loc steps1 s last Hlast)
    as [tr1 [s1 [Hrun1 [_ [_ [_ Hdirty1]]]]]].
  assert (Hd1 : _data_available s1 = true) by (apply Hdirty1; right; exact Hne1).
  destruct (steady_run_frames cfg ops loc steps1 s s last eq_refl Hlast)
    as [tr1' [s1' [Hrun1' [_ [Hcached1 _]]]]].
  rewrite Hrun1 in Hrun1'. injection Hrun1' as _ <-.
  set (last1 := List.last (cached_frames cfg ops loc s steps1) last) in *.
  pose proof (read_drained_state out1 s1 Hd1) as Hread1.
  assert (Hlast1 : _last_video_frame (snd (read out1 s1)) = Some last1).
  { rewrite Hread1. exact Hcached1. }
  destruct (run_delivered_accumulates cfg ops loc steps2 (snd (read out1 s1))
              last1 Hlast1)
    as [tr2 [s2 [Hrun2 [Hts [Hgx [Hgy Hdirty2]]]]]].
  assert (Hd2 : _data_available s2 = true) by (apply Hdirty2; right; exact Hne2).
  rewrite Hread1 in Hts, Hgx, Hgy.
  cbn [_integration_timespan _gyro_x_integral _gyro_y_integral _last_gyro_rate]
    in Hts, Hgx, Hgy.
  exists tr1, s1, last1, tr2, s2.
  split; [exact Hrun1 |]. split; [exact Hcached1 |].
  split; [unfold read; rewrite Hd1; reflexivity |].
  split; [exact Hrun2 |].
  unfold read at 1 2 3 4. rewrite Hd2.
  cbn [negb fst snd delta_time gyro_x_integral gyro_y_integral].
  split; [reflexivity |]. split; [exact Hts |]. split; [exact Hgx | exact Hgy].
Qed.

Lemma drain_separates_runs_witness :
  let s := set_last_video_frame (Some (mkFrame [1; 2] 100)) scenario_driver in
  let steps1 := [(mkFrame [5; 2] 130, mkVector3f (F32.of_Z 4) F32.zero F32.zero)] in
  let steps2 := [(mkFrame [9; 2] 170, mkVector3f (F32.of_Z 6) F32.zero F32.zero)] in
  let out := mkDataFrame F32.zero F32.zero F32.zero F32.zero 0 0 in
  (_last_video_frame s = Some (mkFrame [1; 2] 100) /\
   steps1 <> [] /\ steps2 <> []) /\
  exists tr1 s1 tr2 s2,
    run_frames scenario_cfg example_ops scenario_locals (delivered steps1) s
    = (tr1, Ok s1) /\
    delta_time (snd (fst (read out s1))) = 30 /\
    run_frames scenario_cfg example_ops scenario_locals (delivered steps2)
      (snd (read out s1)) = (tr2, Ok s2) /\
    fst (fst (read out s2)) = true /\
    delta_time (snd (fst (read out s2))) = 40 /\
    gyro_x_integral (snd (fst (read out s2))) = F32.of_Z 200.
Proof.
  intros s steps1 steps2 out.
  assert (Hne1 : steps1 <> []) by discriminate.
  assert (Hne2 : steps2 <> []) by discriminate.
  split; [split; [reflexivity | split; assumption] |].
  destruct (drain_separates_runs scenario_cfg example_ops scenario_locals
              steps1 steps2 s (mkFrame [1; 2] 100) out out eq_refl Hne1 Hne2)
    as [tr1 [s1 [last1 [tr2 [s2 [Hrun1 [Hc1 [Hr1 [Hrun2 [Hr2 [Hdt [Hgx _]]]]]]]]]]]].
  assert (Hs1 : run_frames scenario_cfg example_ops scenario_locals
                  (delivered steps1) s =
                (fst (run_frames scenario_cfg example_ops scenario_locals
                        (delivered steps1) s),
                 Ok (set_last_gyro_rate (mkVector3f (F32.of_Z 4) F32.zero F32.zero)
                       (set_last_video_frame (Some (mkFrame [5; 2] 130))
                          (accumulate scenario_cfg 30 (F32.of_Z 4) (F32.of_Z 0)
                             (mkVector3f (F32.of_Z 4) F32.zero F32.zero) 30 s)))))
    by (vm_compute; reflexivity).
  rewrite Hs1 in Hrun1. injection Hrun1 as _ Hs1eq.
  subst s1.
  assert (Hl1 : last1 = mkFrame [5; 2] 130).
  { cbn [_last_video_frame set_last_gyro_rate set_last_video_frame] in Hc1.
    injection Hc1 as <-. reflexivity. }
  subst last1.
  eexists. eexists. exists tr2, s2.
  split; [exact Hs1 |].
  split; [vm_compute; reflexivity |].
  split; [exact Hrun2 |]. split; [exact Hr2 |].
  split; [exact Hdt | exact Hgx].
Defined.

(** ** What holds of every driver a program can see *)

(** [init] touches neither the integrator nor the cache. *)
Lemma init_frame (cfg : BoardConfig) (env : InitEnv)
    (s s' : OpticalFlow_Onboard) :
  init cfg env s = Ok s' ->
  integrator s' = integrator s /\
  _last_video_frame s' = _last_video_frame s /\
  _last_gyro_rate s' = _last_gyro_rate s.
Proof.
  intros Hinit. destruct (_initialized s) eqn:Hs.
  - unfold init in Hinit. rewrite Hs in Hinit. injection Hinit as <-.
    repeat split; reflexivity.
  - destruct (init_ok_inv cfg env s s' Hs Hinit)
      as [w [h [f [bpl [sz [_ [_ [_ ->]]]]]]]].
    unfold init_crop, init_shrink.
    repeat match goal with
           | |- context [if ?c then _ else _] => destruct c
           end; repeat split; reflexivity.
Qed.

Lemma integrator_fields (s1 s2 : OpticalFlow_Onboard) :
  integrator s1 = integrator s2 ->
  _pixel_flow_x_integral s1 = _pixel_flow_x_integral s2 /\
  _pixel_flow_y_integral s1 = _pixel_flow_y_integral s2 /\
  _gyro_x_integral s1 = _gyro_x_integral s2 /\
  _gyro_y_integral s1 = _gyro_y_integral s2 /\
  _integration_timespan s1 = _integration_timespan s2 /\
  _surface_quality s1 = _surface_quality s2 /\
  _data_available s1 = _data_available s2.
Proof.
  unfold integrator. intros H. injection H as H1 H2 H3 H4 H5 H6 H7.
  repeat split; assumption.
Qed.

(** X23: in every driver a program can see, a clear dirty flag means a
    zeroed integrator: the four integrals and the timespan are zero whenever
    no sample is available, so accumulation after a drain, or before the
    first one, starts from zero. *)
Theorem reachable_clean_is_zero (cfg : BoardConfig) (ops : Collaborators)
    (s : OpticalFlow_Onboard) :
  reachable cfg ops s -> clean_is_zero s.
Proof.
  intros Hreach. induction Hreach as
    [| env s s' Hreach IH Hinit | frame s Hreach IH
     | loc inp tr s s' Hreach IH Hpass].
  - intros _. repeat split; reflexivity.
  - destruct (init_frame cfg env s s' Hinit) as [Hint _].
    destruct (integrator_fields s' s Hint)
      as [Hpx [Hpy [Hgx [Hgy [Hts [_ Hd]]]]]].
    intros Hclean. rewrite Hd in Hclean.
    rewrite Hpx, Hpy, Hgx, Hgy, Hts. apply IH. exact Hclean.
  - destruct (_data_available s) eqn:Hd.
    + rewrite (read_drained_state frame s Hd).
      intros _. repeat split; reflexivity.
    + unfold read. rewrite Hd. cbn [negb snd]. intros _. apply IH. exact Hd.
  - destruct (loop_body_ok_inv cfg ops loc inp s s' tr Hpass) as [f [_ Hs']].
    destruct (_last_video_frame s).
    + cbv zeta in Hs'. subst s'. intros Hclean. discriminate Hclean.
    + subst s'. exact IH.
Qed.




(** The driver of the scenario is one a program can see. *)
Lemma scenario_driver_reachable :
  reachable scenario_cfg example_ops scenario_driver.
Proof.
  apply (reach_init scenario_cfg example_ops
           (camera_env 320 240 V4L2.PIX_FMT_GREY true [])
           driver_at_construction scenario_driver).
  - apply reach_construction.
  - vm_compute. reflexivity.
Defined.

Lemma reachable_clean_is_zero_witness :
  let s := snd (read (mkDataFrame F32.zero F32.zero F32.zero F32.zero 0 0)
                  scenario_driver) in
  reachable scenario_cfg example_ops s /\ clean_is_zero s.
Proof.
  intros s.
  assert (Hreach : reachable scenario_cfg example_ops s).
  { apply reach_read. exact scenario_driver_reachable. }
  split; [exact Hreach |].
  exact (reachable_clean_is_zero scenario_cfg example_ops s Hreach).
Defined.



(** ** From construction to the first sample *)

(** X26: the driver end to end.  After [init] on the freshly constructed
    driver, the thread that processes a first frame and then N >= 1 further
    delivered frames leaves a sample: [read] returns true, its delta_time is
    the timestamp of the last frame minus the timestamp of the first, modulo
    2^32, and its gyro integrals are the sums of the N trapezoidal terms,
    the first of which has the zero vector as previous rate. *)
Theorem first_sample_end_to_end (cfg : BoardConfig) (ops : Collaborators)
    (env : InitEnv) (mc mo : bool) (s : OpticalFlow_Onboard)
    (first : Frame * Vector3f) (rest : list (Frame * Vector3f))
    (out : Data_Frame) :
  init cfg env driver_at_construction = Ok s ->
  (exists loc, run_optflow_setup cfg mc mo s = Ok loc) ->
  rest <> [] ->
  exists tr s',
    _read_thread cfg ops mc mo (delivered (first :: rest)) s = (tr, Ok s') /\
    fst (fst (read out s')) = true /\
    delta_time (snd (fst (read out s'))) =
      U32.sub (List.last (map (fun step => timestamp (fst step)) rest)
                 (timestamp (fst first)))
              (timestamp (fst first)) /\
    gyro_x_integral (snd (fst (read out s'))) =
      F32.sum_from F32.zero
        (trapezoid_terms v3x Vector3f_zero (timestamp (fst first)) rest) /\
    gyro_y_integral (snd (fst (read out s'))) =
      F32.sum_from F32.zero
        (trapezoid_terms v3y Vector3f_zero (timestamp (fst first)) rest).
Proof.
  intros Hinit [loc Hsetup] Hne.
  destruct (init_frame cfg env driver_at_construction s Hinit)
    as [Hint [Hcached Hrate]].
  destruct (integrator_fields s driver_at_construction Hint)
    as [_ [_ [Hgx0 [Hgy0 [Hts0 _]]]]].
  cbn [_last_video_frame _last_gyro_rate _gyro_x_integral _gyro_y_integral
       _integration_timespan driver_at_construction] in *.
  unfold _read_thread, run_optflow. rewrite Hsetup.
  destruct first as [frame1 rate1].
  cbn [delivered map fst snd run_frames]. fold (delivered rest).
  rewrite (warm_up_pass cfg ops loc s frame1 rate1 Hcached).
  set (f1 := mkFrame (normalized cfg ops loc s (data frame1)) (timestamp frame1)).
  set (s1 := set_last_video_frame (Some f1) s).
  destruct (run_delivered_accumulates cfg ops loc rest s1 f1 eq_refl)
    as [tr [s' [Hrun [Hts [Hgx [Hgy Hdirty]]]]]].
  assert (Hd : _data_available s' = true) by (apply Hdirty; right; exact Hne).
  rewrite Hrun. eexists. exists s'. split; [reflexivity |].
  unfold read. rewrite Hd.
  cbn [negb fst snd delta_time gyro_x_integral gyro_y_integral].
  split; [reflexivity |].
  change (_integration_timespan s1) with (_integration_timespan s) in Hts.
  change (_gyro_x_integral s1) with (_gyro_x_integral s) in Hgx.
  change (_gyro_y_integral s1) with (_gyro_y_integral s) in Hgy.
  change (_last_gyro_rate s1) with (_last_gyro_rate s) in Hgx, Hgy.
  change (timestamp f1) with (timestamp frame1) in Hts, Hgx, Hgy.
  rewrite Hts0 in Hts. rewrite Hgx0, Hrate in Hgx. rewrite Hgy0, Hrate in Hgy.
  split.
  { rewrite Hts. fold (sum_u32 (elapsed_times (timestamp frame1) rest)).
    rewrite sum_u32_wrap. apply elapsed_times_telescope. }
  split; [exact Hgx | exact Hgy].
Qed.

Lemma first_sample_end_to_end_witness :
  let env := camera_env 320 240 V4L2.PIX_FMT_GREY true [] in
  let first := (mkFrame [1; 2] 100, mkVector3f (F32.of_Z 9) F32.zero F32.zero) in
  let rest :=
    [(mkFrame [5; 2] 130, mkVector3f (F32.of_Z 4) F32.zero F32.zero);
     (mkFrame [9; 2] 170, mkVector3f (F32.of_Z 6) F32.zero F32.zero)] in
  let out := mkDataFrame F32.zero F32.zero F32.zero F32.zero 0 0 in
  (init scenario_cfg env driver_at_construction = Ok scenario_driver /\
   (exists loc, run_optflow_setup scenario_cfg true true scenario_driver
                = Ok loc) /\
   rest <> []) /\
  exists tr s',
    _read_thread scenario_cfg example_ops true true (delivered (first :: rest))
      scenario_driver = (tr, Ok s') /\
    fst (fst (read out s')) = true /\
    delta_time (snd (fst (read out s'))) = 70 /\
    gyro_x_integral (snd (fst (read out s'))) = F32.of_Z (60 + 200).
Proof.
  intros env first rest out.
  assert (Hinit : init scenario_cfg env driver_at_construction
                  = Ok scenario_driver) by (vm_compute; reflexivity).
  assert (Hsetup : exists loc, run_optflow_setup scenario_cfg true true
                                 scenario_driver = Ok loc)
    by (exists scenario_locals; vm_compute; reflexivity).
  assert (Hne : rest <> []) by discriminate.
  split; [split; [exact Hinit | split; assumption] |].
  destruct (first_sample_end_to_end scenario_cfg example_ops env true true
              scenario_driver first rest out Hinit Hsetup Hne)
    as [tr [s' [Hrun [Hret [Hdt [Hgx _]]]]]].
  exists tr, s'.
  split; [exact Hrun |]. split; [exact Hret |]. split; [exact Hdt | exact Hgx].
Defined.
